(** * The handle-based virtual filesystem of the CoD4X17a server (filesystem.c)

    A shallow embedding of [filesystem.c]: the handle table, the OS path
    builder and its sanitizer, the partial-transfer tolerant read/write
    engine, seek emulation over archive entries and the pack identity check.

    C state is threaded explicitly: every function of the file is a
    computation over one record [FS] that holds the globals of
    [filesystem.c] and the state of the collaborators it calls (libc
    streams, the archive codec, the console). *)

From Stdlib Require Import ZArith Ascii String List Lia.
From Stdlib Require Import Init.Byte.
From stdpp Require Import base option list gmap strings.

Local Open Scope string_scope.
Local Open Scope list_scope.
Local Open Scope Z_scope.

(** ** Header constants

    [filesystem.h], [q_shared.h] and [q_platform.h] are not part of the
    sources at hand; the constants that [filesystem.c] takes from them are
    parameters of the development. *)

Class Platform := {
  MAX_FILE_HANDLES : Z;
  MAX_OSPATH : Z;
  MAX_ZPATH : Z;
  BIG_INFO_STRING : Z;
  PATH_SEP : ascii
}.

(** The values of the id Tech 3 headers on a Unix build (the Makefile links
    an ELF binary). *)
Definition unix_build : Platform := {|
  MAX_FILE_HANDLES := 64;
  MAX_OSPATH := 256;
  MAX_ZPATH := 256;
  BIG_INFO_STRING := 8192;
  PATH_SEP := "/"%char
|}.

(** ** C strings *)

Module CStr.

Definition chr (n : nat) : string := String (ascii_of_nat n) EmptyString.
Definition nl : string := chr 10.
Definition dquote : string := chr 34.
Definition backslash : ascii := ascii_of_nat 92.

(** [s] begins with [p]. *)
Fixpoint starts_with (p s : string) : bool :=
  match p, s with
  | EmptyString, _ => true
  | String a p', String b s' => Ascii.eqb a b && starts_with p' s'
  | String _ _, EmptyString => false
  end.

(** [strstr(haystack, needle) != NULL] *)
Fixpoint strstr (haystack needle : string) : bool :=
  if starts_with needle haystack then true
  else match haystack with
       | EmptyString => false
       | String _ rest => strstr rest needle
       end.

Definition strlen (s : string) : Z := Z.of_nat (String.length s).

(** The first [n] characters of [s]: what fits a buffer of [n+1] chars. *)
Definition truncate (n : Z) (s : string) : string :=
  String.substring 0 (Z.to_nat n) s.

(** [s[strlen(s)-1] = '\0'] *)
Definition chop (s : string) : string :=
  String.substring 0 (String.length s - 1) s.

Fixpoint map_chars (f : ascii -> ascii) (s : string) : string :=
  match s with
  | EmptyString => EmptyString
  | String c rest => String (f c) (map_chars f rest)
  end.

(** [if (c >= 'a' && c <= 'z') c -= ('a' - 'A')] *)
Definition upper (c : ascii) : ascii :=
  let n := nat_of_ascii c in
  if (97 <=? n)%nat && (n <=? 122)%nat then ascii_of_nat (n - 32) else c.

(** [snprintf]-style bounded formatting: the text is cut to [size-1]
    characters ([Com_sprintf], [Q_strncpyz]). *)
Definition bounded (size : Z) (s : string) : string := truncate (size - 1) s.

End CStr.

(** ** Data model *)

Abbreviation fileHandle_t := Z (only parsing).

(** Pointers are addresses; [NULL] is 0. *)
Abbreviation ptr := Z (only parsing).
Definition NULL : Z := 0.

(** One slot of [fsh[]]. [handleFiles_file] is the union [handleFiles.file]
    of the plain stream [o] and the archive stream [z]: both views read
    the same pointer. *)
Record fileHandleData_t := mkHandle {
  handleFiles_file : ptr;
  handleFiles_unique : bool;
  handleSync : bool;
  zipFilePos : Z;
  zipFile : bool;
  streamed : bool;
  name_ : string
}.

(** [Com_Memset(&fsh[f], 0, sizeof(fsh[f]))] *)
Definition zeroed : fileHandleData_t :=
  mkHandle NULL false false 0 false false EmptyString.

#[global] Instance fileHandleData_inhabited : Inhabited fileHandleData_t :=
  populate zeroed.

Record pack_t := mkPack {
  pakFilename : string;
  pakBasename : string;
  pakGamename : string;
  handle : ptr;
  buildBuffer : list (string * Z)   (* entry name, offset in the pack *)
}.

Record directory_t := mkDir {
  path : string;
  gamedir : string
}.

(** A node of the [fs_searchpaths] list holds a pack or a directory. *)
Inductive searchpath_t :=
| sp_pack (pack : pack_t)
| sp_dir (dir : directory_t).

Inductive fsOrigin_t :=
| FS_SEEK_CUR
| FS_SEEK_END
| FS_SEEK_SET
| FS_SEEK_other (n : Z).   (* an [int] that is none of the three *)

Inductive errorParm_t := ERR_FATAL | ERR_DROP.

(** ** Collaborators: libc streams, the archive codec *)

Inductive fmode := mode_rb | mode_wb | mode_ab.

(** A libc [FILE]: the file it is open on and the position in it. *)
Record FILE := mkFILE {
  f_path : string;
  f_mode : fmode;
  f_pos : Z
}.

(** An open archive ([unzFile]): its entries with the offset, the name and
    the uncompressed bytes of each, the offset of the current entry and,
    while the current entry is open, the read position in it. *)
Record unz_s := mkUnz {
  z_entries : list (Z * (string * list byte));
  z_current : Z;
  z_read : option Z
}.

(** Calls that leave the process. *)
Inductive syscall :=
| sys_mkdir (p : string)
| sys_fopen (p : string) (m : fmode)
| sys_fclose (fp : ptr)
| sys_fread (fp : ptr) (n : Z)
| sys_fwrite (fp : ptr) (n : Z)
| sys_fseek (fp : ptr) (off : Z) (whence : Z)
| sys_ftell (fp : ptr)
| sys_fflush (fp : ptr)
| sys_remove (p : string)
| sys_unz (fn : string) (z : ptr).

Record Native := mkNative {
  disk : gmap string (list byte);   (* regular files by OS path *)
  dirs : gset string;               (* directories *)
  nowrite : gset string;            (* paths the OS refuses to open for writing *)
  streams : gmap Z FILE;            (* open FILE objects by address *)
  zips : gmap Z unz_s;              (* open archives by address *)
  next_ptr : positive;              (* next address the allocator hands out *)
  script : list Z;                  (* results forced on the next transfers *)
  io : list syscall                 (* the calls made, oldest first *)
}.

(** The globals of [filesystem.c] and the world around it. *)
Record FS := mkFS {
  fs_searchpaths : list searchpath_t;   (* [NULL] is the empty list *)
  fsh : gmap Z fileHandleData_t;        (* the table and the memory around it *)
  fs_gamedir : string;
  fs_homepath : string;                 (* [fs_homepath->string] *)
  fs_basepath : string;
  fs_game : string;
  fs_debug : bool;
  fs_loadStack : Z;
  console : list string;                (* [Com_Printf] output, oldest first *)
  sys : Native
}.

Definition set_fsh (t : gmap Z fileHandleData_t) (s : FS) : FS :=
  mkFS (fs_searchpaths s) t (fs_gamedir s) (fs_homepath s) (fs_basepath s)
       (fs_game s) (fs_debug s) (fs_loadStack s) (console s) (sys s).

Definition set_sys (n : Native) (s : FS) : FS :=
  mkFS (fs_searchpaths s) (fsh s) (fs_gamedir s) (fs_homepath s) (fs_basepath s)
       (fs_game s) (fs_debug s) (fs_loadStack s) (console s) n.

Definition set_console (c : list string) (s : FS) : FS :=
  mkFS (fs_searchpaths s) (fsh s) (fs_gamedir s) (fs_homepath s) (fs_basepath s)
       (fs_game s) (fs_debug s) (fs_loadStack s) c (sys s).


(** ** Computations

    A call returns, or leaves through [Com_Error] (which never comes back
    to its caller), or does something C gives no meaning to (a stream
    function on a pointer that is no open stream). *)

Inductive outcome (A : Type) :=
| Ret (a : A) (s : FS)
| Abort (code : errorParm_t) (msg : string) (s : FS)
| Undef (s : FS).

Arguments Ret {A} a s.
Arguments Abort {A} code msg s.
Arguments Undef {A} s.

Definition M (A : Type) := FS -> outcome A.

Definition ret {A} (a : A) : M A := fun s => Ret a s.

Definition bind {A B} (m : M A) (k : A -> M B) : M B :=
  fun s => match m s with
           | Ret a s' => k a s'
           | Abort c msg s' => Abort c msg s'
           | Undef s' => Undef s'
           end.

Notation "'do' x <- m ; k" := (bind m (fun x => k))
  (at level 10, x name, m at level 100, k at level 200).
Notation "'run' m ; k" := (bind m (fun _ => k))
  (at level 10, m at level 100, k at level 200).

(** [Com_Error] and [Com_Printf] are given the format text; a [%s] whose
    argument matters below is filled in by the caller. *)
Definition Com_Error {A} (code : errorParm_t) (msg : string) : M A :=
  fun s => Abort code msg s.

Definition Com_Printf (msg : string) : M unit :=
  fun s => Ret tt (set_console (console s ++ [msg]) s).

Definition undefined {A} : M A := fun s => Undef s.

Definition gets {A} (f : FS -> A) : M A := fun s => Ret (f s) s.
Definition modify (f : FS -> FS) : M unit := fun s => Ret tt (f s).

(** [fsh[f]] and [fsh[f] = d]. No index is refused: the map gives what
    the expression reads, which for [f] outside [0 .. MAX_FILE_HANDLES-1]
    is the memory next to the array. *)
Definition slot (f : fileHandle_t) : M fileHandleData_t :=
  gets (fun s => fsh s !!! f).

Definition set_slot (f : fileHandle_t) (d : fileHandleData_t) : M unit :=
  modify (fun s => set_fsh (<[f := d]> (fsh s)) s).

Definition upd_slot (f : fileHandle_t) (g : fileHandleData_t -> fileHandleData_t) : M unit :=
  modify (fun s => set_fsh (<[f := g (fsh s !!! f)]> (fsh s)) s).

Definition with_file (p : ptr) (d : fileHandleData_t) : fileHandleData_t :=
  mkHandle p (handleFiles_unique d) (handleSync d) (zipFilePos d) (zipFile d)
           (streamed d) (name_ d).
Definition with_zipFile (b : bool) (d : fileHandleData_t) : fileHandleData_t :=
  mkHandle (handleFiles_file d) (handleFiles_unique d) (handleSync d) (zipFilePos d) b
           (streamed d) (name_ d).
Definition with_streamed (b : bool) (d : fileHandleData_t) : fileHandleData_t :=
  mkHandle (handleFiles_file d) (handleFiles_unique d) (handleSync d) (zipFilePos d)
           (zipFile d) b (name_ d).
Definition with_handleSync (b : bool) (d : fileHandleData_t) : fileHandleData_t :=
  mkHandle (handleFiles_file d) (handleFiles_unique d) b (zipFilePos d) (zipFile d)
           (streamed d) (name_ d).
Definition with_name (n : string) (d : fileHandleData_t) : fileHandleData_t :=
  mkHandle (handleFiles_file d) (handleFiles_unique d) (handleSync d) (zipFilePos d)
           (zipFile d) (streamed d) n.

(** ** The C library

    Streams live in [streams], their bytes in [disk]. A transfer moves what
    was asked for unless [script] forces the result of the call: a forced
    [k >= 0] moves at most [k] bytes, a negative one makes the call answer
    -1. Every call is appended to [io]. *)

Module Libc.

Definition upd (f : Native -> Native) : M unit :=
  modify (fun s => set_sys (f (sys s)) s).

Definition called (c : syscall) : M unit :=
  upd (fun n => mkNative (disk n) (dirs n) (nowrite n) (streams n) (zips n)
                         (next_ptr n) (script n) (io n ++ [c])).

Definition set_disk (d : gmap string (list byte)) (n : Native) : Native :=
  mkNative d (dirs n) (nowrite n) (streams n) (zips n) (next_ptr n) (script n) (io n).
Definition set_dirs (d : gset string) (n : Native) : Native :=
  mkNative (disk n) d (nowrite n) (streams n) (zips n) (next_ptr n) (script n) (io n).
Definition set_streams (t : gmap Z FILE) (n : Native) : Native :=
  mkNative (disk n) (dirs n) (nowrite n) t (zips n) (next_ptr n) (script n) (io n).
Definition set_zips (t : gmap Z unz_s) (n : Native) : Native :=
  mkNative (disk n) (dirs n) (nowrite n) (streams n) t (next_ptr n) (script n) (io n).
Definition set_next (p : positive) (n : Native) : Native :=
  mkNative (disk n) (dirs n) (nowrite n) (streams n) (zips n) p (script n) (io n).
Definition set_script (l : list Z) (n : Native) : Native :=
  mkNative (disk n) (dirs n) (nowrite n) (streams n) (zips n) (next_ptr n) l (io n).

(** [mkdir(path, 0750)]: 0, or -1 with [errno]; the boolean tells
    whether [errno] is [EEXIST]. *)
Definition mkdir (p : string) : M (Z * bool) :=
  run called (sys_mkdir p);
  do n <- gets sys;
  if bool_decide (p ∈ dirs n) || bool_decide (is_Some (disk n !! p)) then ret (-1, true)
  else if bool_decide (p ∈ nowrite n) then ret (-1, false)
  else run upd (set_dirs ({[p]} ∪ dirs n)); ret (0, false).

(** [fopen (p, m)]. A directory opens for reading as a regular file
    does (the Linux target); the stream then reads as an empty file, and
    what the OS answers to a seek on it is not part of the model. *)
Definition fopen (p : string) (m : fmode) : M ptr :=
  run called (sys_fopen p m);
  do n <- gets sys;
  let fp := Z.pos (next_ptr n) in
  let opened (pos : Z) :=
    run upd (fun n => set_next (next_ptr n + 1)%positive
                        (set_streams (<[fp := mkFILE p m pos]> (streams n)) n));
    ret fp in
  match m with
  | mode_rb =>
      if bool_decide (is_Some (disk n !! p)) || bool_decide (p ∈ dirs n)
      then opened 0 else ret NULL
  | mode_wb =>
      if bool_decide (p ∈ nowrite n) || bool_decide (p ∈ dirs n) then ret NULL
      else run upd (set_disk (<[p := []]> (disk n))); opened 0
  | mode_ab =>
      if bool_decide (p ∈ nowrite n) || bool_decide (p ∈ dirs n) then ret NULL
      else let c := default [] (disk n !! p) in
           run upd (set_disk (<[p := c]> (disk n))); opened (Z.of_nat (length c))
  end.

Definition stream (fp : ptr) : M FILE :=
  do n <- gets sys;
  match streams n !! fp with
  | Some st => ret st
  | None => undefined
  end.

Definition fclose (fp : ptr) : M Z :=
  run called (sys_fclose fp);
  do _ <- stream fp;
  run upd (fun n => set_streams (delete fp (streams n)) n);
  ret 0.

(** A [size_t] argument made from an [int]. *)
Definition to_size_t (n : Z) : Z := n mod 2 ^ 32.

(** The count the next transfer answers when [block] bytes are asked for
    and [avail] can be moved. *)
Definition transfer (block avail : Z) : M Z :=
  do n <- gets sys;
  match script n with
  | [] => ret (Z.min block avail)
  | k :: rest =>
      run upd (set_script rest);
      ret (if k <? 0 then -1 else Z.min k (Z.min block avail))
  end.

Definition contents (p : string) : M (list byte) :=
  do n <- gets sys; ret (default [] (disk n !! p)).

Definition set_pos (fp : ptr) (st : FILE) (pos : Z) : M unit :=
  upd (fun n => set_streams (<[fp := mkFILE (f_path st) (f_mode st) pos]> (streams n)) n).

(** [fread(buf, 1, block, fp)]: the count and the bytes put at [buf]. *)
Definition fread (block : Z) (fp : ptr) : M (Z * list byte) :=
  run called (sys_fread fp block);
  do st <- stream fp;
  do c <- contents (f_path st);
  let avail := Z.max 0 (Z.of_nat (length c) - f_pos st) in
  do k <- transfer (to_size_t block) avail;
  if k <=? 0 then ret (k, [])
  else run set_pos fp st (f_pos st + k);
       ret (k, take (Z.to_nat k) (drop (Z.to_nat (f_pos st)) c)).

(** Bytes [d] put into [c] from position [pos] on. *)
Definition write_at (pos : nat) (d c : list byte) : list byte :=
  take pos c ++ replicate (pos - length c) x00 ++ d ++ drop (pos + length d) c.

(** [fwrite(buf, 1, block, fp)] where [buf] holds [d]. The buffer that
    stdio keeps for the stream is not modelled: the bytes are entered in
    [disk] at once, so for a file with a stream open for writing [disk]
    is what the file holds once that stream is flushed or closed. *)
Definition fwrite (d : list byte) (block : Z) (fp : ptr) : M Z :=
  run called (sys_fwrite fp block);
  do st <- stream fp;
  do c <- contents (f_path st);
  do k <- transfer (to_size_t block) (to_size_t block);
  if k <=? 0 then ret k
  else
    let pos := match f_mode st with
               | mode_ab => Z.of_nat (length c)
               | _ => f_pos st
               end in
    run upd (fun n => set_disk (<[f_path st :=
               write_at (Z.to_nat pos) (take (Z.to_nat k) d) c]> (disk n)) n);
    run set_pos fp st (pos + k);
    ret k.

Definition SEEK_SET : Z := 0.
Definition SEEK_CUR : Z := 1.
Definition SEEK_END : Z := 2.

Definition fseek (fp : ptr) (off : Z) (whence : Z) : M Z :=
  run called (sys_fseek fp off whence);
  do st <- stream fp;
  do c <- contents (f_path st);
  let base := if whence =? SEEK_SET then 0
              else if whence =? SEEK_CUR then f_pos st
              else Z.of_nat (length c) in
  if base + off <? 0 then ret (-1)
  else run set_pos fp st (base + off); ret 0.

Definition ftell (fp : ptr) : M Z :=
  run called (sys_ftell fp);
  do st <- stream fp;
  ret (f_pos st).

(** [fflush (NULL)] flushes every open stream. *)
Definition fflush (fp : ptr) : M Z :=
  run called (sys_fflush fp);
  if fp =? NULL then ret 0
  else
    do _ <- stream fp;
    ret 0.

Definition remove (p : string) : M Z :=
  run called (sys_remove p);
  do n <- gets sys;
  if bool_decide (is_Some (disk n !! p))
  then run upd (set_disk (delete p (disk n))); ret 0
  else ret (-1).

End Libc.

(** ** The archive codec

    The codec is a library the file links against. An entry is addressed
    by its offset in the archive; reading the current entry is sequential. *)

Module Unz.

Definition UNZ_OK : Z := 0.
Definition UNZ_PARAMERROR : Z := -102.

Definition archive (z : ptr) : M unz_s :=
  do n <- gets sys;
  match zips n !! z with
  | Some a => ret a
  | None => undefined
  end.

Definition put (z : ptr) (a : unz_s) : M unit :=
  Libc.upd (fun n => Libc.set_zips (<[z := a]> (zips n)) n).

Fixpoint entry_at (es : list (Z * (string * list byte))) (pos : Z) : option (list byte) :=
  match es with
  | [] => None
  | (p, (_, c)) :: rest => if p =? pos then Some c else entry_at rest pos
  end.

Definition unzSetOffset (z : ptr) (pos : Z) : M Z :=
  run Libc.called (sys_unz "unzSetOffset" z);
  do a <- archive z;
  run put z (mkUnz (z_entries a) pos None);
  ret (match entry_at (z_entries a) pos with
       | Some _ => UNZ_OK
       | None => UNZ_PARAMERROR
       end).

Definition unzOpenCurrentFile (z : ptr) : M Z :=
  run Libc.called (sys_unz "unzOpenCurrentFile" z);
  do a <- archive z;
  match entry_at (z_entries a) (z_current a) with
  | Some _ => run put z (mkUnz (z_entries a) (z_current a) (Some 0)); ret UNZ_OK
  | None => ret UNZ_PARAMERROR
  end.

(** [unzReadCurrentFile(z, buf, len)]: the count and the bytes put at [buf]. *)
Definition unzReadCurrentFile (z : ptr) (len : Z) : M (Z * list byte) :=
  run Libc.called (sys_unz "unzReadCurrentFile" z);
  do a <- archive z;
  match entry_at (z_entries a) (z_current a), z_read a with
  | Some c, Some r =>
      let k := Z.min (Libc.to_size_t len) (Z.max 0 (Z.of_nat (length c) - r)) in
      run put z (mkUnz (z_entries a) (z_current a) (Some (r + k)));
      ret (k, take (Z.to_nat k) (drop (Z.to_nat r) c))
  | _, _ => ret (UNZ_PARAMERROR, [])
  end.

Definition unzCloseCurrentFile (z : ptr) : M Z :=
  run Libc.called (sys_unz "unzCloseCurrentFile" z);
  do a <- archive z;
  run put z (mkUnz (z_entries a) (z_current a) None);
  ret UNZ_OK.

Definition unzClose (z : ptr) : M Z :=
  run Libc.called (sys_unz "unzClose" z);
  do _ <- archive z;
  run Libc.upd (fun n => Libc.set_zips (delete z (zips n)) n);
  ret UNZ_OK.

End Unz.

(** ** String helpers of [q_shared.c]

    [q_shared.c] is not among the sources. The helpers are the id Tech 3
    ones: [Q_stricmp] and [Q_stricmpn] compare without regard to the case
    of ASCII letters, as the C functions they are named after;
    [Q_strncpyz], [Q_strcat] and [Com_sprintf] cut what does not fit. *)

Module Q_shared.

Definition cmp_char (c1 c2 : ascii) : Z :=
  let n1 := nat_of_ascii (CStr.upper c1) in
  let n2 := nat_of_ascii (CStr.upper c2) in
  if (n1 =? n2)%nat then 0 else if (n1 <? n2)%nat then -1 else 1.

Fixpoint Q_stricmp (s1 s2 : string) : Z :=
  match s1, s2 with
  | EmptyString, EmptyString => 0
  | EmptyString, String _ _ => -1
  | String _ _, EmptyString => 1
  | String c1 r1, String c2 r2 =>
      if cmp_char c1 c2 =? 0 then Q_stricmp r1 r2 else cmp_char c1 c2
  end.

Fixpoint stricmpn (s1 s2 : string) (n : nat) : Z :=
  match n with
  | O => 0
  | S n' =>
      match s1, s2 with
      | EmptyString, EmptyString => 0
      | EmptyString, String _ _ => -1
      | String _ _, EmptyString => 1
      | String c1 r1, String c2 r2 =>
          if cmp_char c1 c2 =? 0 then stricmpn r1 r2 n' else cmp_char c1 c2
      end
  end.

Definition Q_stricmpn (s1 s2 : string) (n : Z) : Z := stricmpn s1 s2 (Z.to_nat n).

Definition Q_strncpyz (src : string) (destsize : Z) : string :=
  CStr.bounded destsize src.

Definition Q_strcat (dest : string) (size : Z) (src : string) : string :=
  dest +:+ Q_strncpyz src (size - CStr.strlen dest).

Definition Com_sprintf (size : Z) (text : string) : string :=
  CStr.bounded size text.

End Q_shared.

Import Q_shared.

(** ** filesystem.c *)

Section Filesystem.

Context `{Platform}.

Definition uninitialized : string := "Filesystem call made without initialization".

Definition FS_Initialized : M bool :=
  do sp <- gets fs_searchpaths;
  ret (match sp with [] => false | _ => true end).

(** [for (i = 1; i < MAX_FILE_HANDLES; i++) if (fsh[i].handleFiles.file.o == NULL) return i;]
    with [n] iterations left. *)
Fixpoint first_free (t : gmap Z fileHandleData_t) (i : Z) (n : nat) : option Z :=
  match n with
  | O => None
  | S n' =>
      if handleFiles_file (t !!! i) =? NULL then Some i
      else first_free t (i + 1) n'
  end.

Definition FS_HandleForFile : M fileHandle_t :=
  do t <- gets fsh;
  match first_free t 1 (Z.to_nat (MAX_FILE_HANDLES - 1)) with
  | Some i => ret i
  | None => Com_Error ERR_DROP "FS_HandleForFile: none free"
  end.

Definition FS_FileForHandle (f : fileHandle_t) : M ptr :=
  run (if (f <? 0) || (f >? MAX_FILE_HANDLES)
       then Com_Error ERR_DROP ("FS_FileForHandle: out of range %i" +:+ CStr.nl)
       else ret tt);
  do d <- slot f;
  run (if handleFiles_file d =? NULL
       then Com_Error ERR_DROP "FS_FileForHandle: NULL"
       else ret tt);
  ret (handleFiles_file d).

Definition Sys_Mkdir (p : string) : M bool :=
  do r <- Libc.mkdir p;
  let '(result, eexist) := r in
  if negb (result =? 0) then ret eexist else ret true.

Definition FS_filelength (f : fileHandle_t) : M Z :=
  do h <- FS_FileForHandle f;
  do pos <- Libc.ftell h;
  run Libc.fseek h 0 Libc.SEEK_END;
  do e <- Libc.ftell h;
  run Libc.fseek h pos Libc.SEEK_SET;
  ret e.

Definition FS_ReplaceSeparators (p : string) : string :=
  CStr.map_chars
    (fun c => if Ascii.eqb c "/"%char || Ascii.eqb c CStr.backslash then PATH_SEP else c) p.

(** The two static result buffers that the function flips between hold
    one result each; every caller modelled here uses a result before it
    asks for a third, so a result is a value. *)
Definition FS_BuildOSPath (base game qpath : string) : M string :=
  do gd <- gets fs_gamedir;
  let game := match game with EmptyString => gd | _ => game end in
  let temp := Com_sprintf MAX_OSPATH ("/" +:+ game +:+ "/" +:+ qpath) in
  let temp := FS_ReplaceSeparators temp in
  ret (Com_sprintf MAX_OSPATH (base +:+ temp)).

(** The loop of [FS_CreatePath]: [done] is the text before [ofs], [rest]
    the text from [ofs] on. *)
Fixpoint create_dirs (done rest : string) : M unit :=
  match rest with
  | EmptyString => ret tt
  | String c rest' =>
      run (if Ascii.eqb c PATH_SEP then (do _ <- Sys_Mkdir done; ret tt) else ret tt);
      create_dirs (done +:+ String c EmptyString) rest'
  end.

Definition refusing (OSPath : string) : string :=
  "WARNING: refusing to create relative path " +:+ CStr.dquote +:+ OSPath
    +:+ CStr.dquote +:+ CStr.nl.

Definition FS_CreatePath (OSPath : string) : M bool :=
  if CStr.strstr OSPath ".." || CStr.strstr OSPath "::" then
    run Com_Printf (refusing OSPath);
    ret true
  else
    match OSPath with
    | EmptyString => undefined   (* [OSPath+1] is past the terminator *)
    | String c rest => run create_dirs (String c EmptyString) rest; ret false
    end.

Definition FS_HomeRemove (p : string) : M bool :=
  do home <- gets fs_homepath;
  do osPath <- FS_BuildOSPath home EmptyString p;
  do r <- Libc.remove osPath;
  ret (r =? 0).

Definition FS_SV_HomeRemove (p : string) : M bool :=
  do home <- gets fs_homepath;
  do osPath <- FS_BuildOSPath home p EmptyString;
  let osPath := CStr.chop osPath in
  do r <- Libc.remove osPath;
  ret (r =? 0).

Definition FS_FCloseFile (f : fileHandle_t) : M bool :=
  do d <- slot f;
  if zipFile d then
    run Unz.unzCloseCurrentFile (handleFiles_file d);
    run (if handleFiles_unique d
         then (do _ <- Unz.unzClose (handleFiles_file d); ret tt)
         else ret tt);
    run set_slot f zeroed;
    ret true
  else if negb (handleFiles_file d =? NULL) then
    run Libc.fclose (handleFiles_file d);
    run set_slot f zeroed;
    ret true
  else
    run set_slot f zeroed;
    ret false.

(** [c1], [c2] as [FS_FilenameCompare] and [FS_PathCmp] fold them. *)
Definition fold_char (c : ascii) : ascii :=
  let c := CStr.upper c in
  if Ascii.eqb c CStr.backslash || Ascii.eqb c ":"%char then "/"%char else c.

Fixpoint FS_FilenameCompare (s1 s2 : string) : Z :=
  match s1, s2 with
  | EmptyString, EmptyString => 0
  | String c1 r1, String c2 r2 =>
      if Ascii.eqb (fold_char c1) (fold_char c2) then FS_FilenameCompare r1 r2 else -1
  | _, _ => -1
  end.

Definition FS_FTell (f : fileHandle_t) : M Z :=
  do d <- slot f;
  Libc.ftell (handleFiles_file d).

Definition FS_Flush (f : fileHandle_t) : M unit :=
  do d <- slot f;
  run Libc.fflush (handleFiles_file d);
  ret tt.

Definition debug_print (msg : string) : M unit :=
  do dbg <- gets fs_debug;
  if dbg then Com_Printf msg else ret tt.

Definition FS_SV_FOpenFileWrite (filename : string) : M fileHandle_t :=
  do sp <- gets fs_searchpaths;
  run (match sp with [] => Com_Error ERR_FATAL uninitialized | _ => ret tt end);
  do home <- gets fs_homepath;
  do ospath <- FS_BuildOSPath home filename EmptyString;
  let ospath := CStr.chop ospath in
  do f <- FS_HandleForFile;
  run upd_slot f (with_zipFile false);
  run debug_print ("FS_SV_FOpenFileWrite: " +:+ ospath +:+ CStr.nl);
  do refused <- FS_CreatePath ospath;
  if refused then ret 0
  else
    do fp <- Libc.fopen ospath mode_wb;
    run upd_slot f (with_file fp);
    run upd_slot f (with_name (Q_strncpyz filename MAX_ZPATH));
    run upd_slot f (with_handleSync false);
    do d <- slot f;
    ret (if handleFiles_file d =? NULL then 0 else f).

(** The result is the pair of the returned length and of [*fp]. *)
Definition FS_SV_FOpenFileRead (filename : string) : M (Z * fileHandle_t) :=
  do sp <- gets fs_searchpaths;
  run (match sp with [] => Com_Error ERR_FATAL uninitialized | _ => ret tt end);
  do f <- FS_HandleForFile;
  run upd_slot f (with_zipFile false);
  run upd_slot f (with_name (Q_strncpyz filename MAX_ZPATH));
  do home <- gets fs_homepath;
  do ospath <- FS_BuildOSPath home filename EmptyString;
  let ospath := CStr.chop ospath in
  run debug_print ("FS_SV_FOpenFileRead (fs_homepath): " +:+ ospath +:+ CStr.nl);
  do fp <- Libc.fopen ospath mode_rb;
  run upd_slot f (with_file fp);
  run upd_slot f (with_handleSync false);
  do d <- slot f;
  run (if handleFiles_file d =? NULL then
         do base <- gets fs_basepath;
         if negb (Q_stricmp home base =? 0) then
           do ospath <- FS_BuildOSPath base filename EmptyString;
           let ospath := CStr.chop ospath in
           run debug_print ("FS_SV_FOpenFileRead (fs_basepath): " +:+ ospath +:+ CStr.nl);
           do fp <- Libc.fopen ospath mode_rb;
           run upd_slot f (with_file fp);
           upd_slot f (with_handleSync false)
         else ret tt
       else ret tt);
  do d <- slot f;
  let f := if handleFiles_file d =? NULL then 0 else f in
  if negb (f =? 0) then
    do len <- FS_filelength f;
    ret (len, f)
  else ret (0, f).

Definition FS_SV_FOpenFileAppend (filename : string) : M fileHandle_t :=
  do sp <- gets fs_searchpaths;
  run (match sp with [] => Com_Error ERR_FATAL uninitialized | _ => ret tt end);
  do f <- FS_HandleForFile;
  run upd_slot f (with_zipFile false);
  run upd_slot f (with_name (Q_strncpyz filename MAX_ZPATH));
  do home <- gets fs_homepath;
  do ospath <- FS_BuildOSPath home filename EmptyString;
  let ospath := CStr.chop ospath in
  run debug_print ("FS_SV_FOpenFileAppend (fs_homepath): " +:+ ospath +:+ CStr.nl);
  do refused <- FS_CreatePath ospath;
  if refused then ret 0
  else
    do fp <- Libc.fopen ospath mode_ab;
    run upd_slot f (with_file fp);
    run upd_slot f (with_handleSync false);
    do d <- slot f;
    ret (if handleFiles_file d =? NULL then 0 else f).

(** The [while (remaining)] loop of [FS_Read] on a plain stream. [buf]
    holds the bytes put into the caller's buffer so far. A length that is
    not negative needs at most [len + 3] rounds; the loop is cut there. *)
Fixpoint FS_Read_loop (fuel : nat) (len remaining tries : Z) (buf : list byte)
    (fp : ptr) : M (Z * list byte) :=
  match fuel with
  | O => undefined
  | S fuel' =>
      if remaining =? 0 then ret (len, buf)
      else
        let block := remaining in
        do r <- Libc.fread block fp;
        let '(read, data) := r in
        if (read =? 0) && negb (tries =? 0) then ret (len - remaining, buf)
        else
          let tries := if read =? 0 then 1 else tries in
          if read =? -1 then Com_Error ERR_FATAL "FS_Read: -1 bytes read"
          else FS_Read_loop fuel' len (remaining - read) tries (buf ++ data) fp
  end.

(** The result is the count and the bytes stored from [buffer] on. *)
Definition FS_Read (len : Z) (f : fileHandle_t) : M (Z * list byte) :=
  do sp <- gets fs_searchpaths;
  run (match sp with [] => Com_Error ERR_FATAL uninitialized | _ => ret tt end);
  if f =? 0 then ret (0, [])
  else
    do d <- slot f;
    if negb (zipFile d) then
      FS_Read_loop (Z.to_nat len + 3) len len 0 [] (handleFiles_file d)
    else Unz.unzReadCurrentFile (handleFiles_file d) len.

Definition FS_Read2 (len : Z) (f : fileHandle_t) : M (Z * list byte) :=
  do sp <- gets fs_searchpaths;
  run (match sp with [] => Com_Error ERR_FATAL uninitialized | _ => ret tt end);
  if f =? 0 then ret (0, [])
  else
    do d <- slot f;
    if streamed d then
      run upd_slot f (with_streamed false);
      do r <- FS_Read len f;
      run upd_slot f (with_streamed true);
      ret r
    else FS_Read len f.

(** The [while (remaining)] loop of [FS_Write]; [buf] is what is left of
    the caller's data. [None] stands for the loop running to its end. *)
Fixpoint FS_Write_loop (fuel : nat) (remaining tries : Z) (buf : list byte)
    (f : ptr) : M (option Z) :=
  match fuel with
  | O => undefined
  | S fuel' =>
      if remaining =? 0 then ret None
      else
        let block := remaining in
        do written <- Libc.fwrite buf block f;
        if (written =? 0) && negb (tries =? 0) then
          run Com_Printf ("FS_Write: 0 bytes written" +:+ CStr.nl);
          ret (Some 0)
        else
          let tries := if written =? 0 then 1 else tries in
          if written =? -1 then
            run Com_Printf ("FS_Write: -1 bytes written" +:+ CStr.nl);
            ret (Some 0)
          else FS_Write_loop fuel' (remaining - written) tries
                 (drop (Z.to_nat written) buf) f
  end.

Definition FS_Write (buffer : list byte) (len : Z) (h : fileHandle_t) : M Z :=
  do sp <- gets fs_searchpaths;
  run (match sp with [] => Com_Error ERR_FATAL uninitialized | _ => ret tt end);
  if h =? 0 then ret 0
  else
    do f <- FS_FileForHandle h;
    do r <- FS_Write_loop (Z.to_nat len + 3) len 0 buffer f;
    match r with
    | Some early => ret early
    | None =>
        do d <- slot h;
        run (if handleSync d then (do _ <- Libc.fflush f; ret tt) else ret tt);
        ret len
    end.

(** *** The resolvers defined outside the sources *)




(** Modelled from the spec: [FS_FOpenFileWrite] (resolve_write of the
    spec), defined outside the sources. It fails fast before
    initialization and targets the home root and the current game
    directory only, after creating the directories on the way; a refused
    or failed open is handle 0. The steps are those of its sibling
    [FS_SV_FOpenFileWrite]. *)
Definition FS_FOpenFileWrite (filename : string) : M fileHandle_t :=
  do sp <- gets fs_searchpaths;
  run (match sp with [] => Com_Error ERR_FATAL uninitialized | _ => ret tt end);
  do home <- gets fs_homepath;
  do gd <- gets fs_gamedir;
  do ospath <- FS_BuildOSPath home gd filename;
  do f <- FS_HandleForFile;
  run upd_slot f (with_zipFile false);
  run debug_print ("FS_FOpenFileWrite: " +:+ ospath +:+ CStr.nl);
  do refused <- FS_CreatePath ospath;
  if refused then ret 0
  else
    do fp <- Libc.fopen ospath mode_wb;
    run upd_slot f (with_file fp);
    run upd_slot f (with_name (Q_strncpyz filename MAX_ZPATH));
    run upd_slot f (with_handleSync false);
    do d <- slot f;
    ret (if handleFiles_file d =? NULL then 0 else f).

(** *** Whole files *)





(** [buffer] is [None] for a [NULL] pointer. *)
Definition FS_WriteFile (qpath : string) (buffer : option (list byte)) (size : Z) : M unit :=
  do sp <- gets fs_searchpaths;
  run (match sp with [] => Com_Error ERR_FATAL uninitialized | _ => ret tt end);
  match buffer with
  | None => Com_Error ERR_FATAL "FS_WriteFile: NULL parameter"
  | Some data =>
      do f <- FS_FOpenFileWrite qpath;
      if f =? 0 then Com_Printf ("Failed to open " +:+ qpath +:+ CStr.nl)
      else
        run FS_Write data size f;
        run FS_FCloseFile f;
        ret tt
  end.

Definition FS_SV_WriteFile (qpath : string) (buffer : option (list byte)) (size : Z) : M unit :=
  do sp <- gets fs_searchpaths;
  run (match sp with [] => Com_Error ERR_FATAL uninitialized | _ => ret tt end);
  match buffer with
  | None => Com_Error ERR_FATAL "FS_WriteFile: NULL parameter"
  | Some data =>
      do f <- FS_SV_FOpenFileWrite qpath;
      if f =? 0 then Com_Printf ("Failed to open " +:+ qpath +:+ CStr.nl)
      else
        run FS_Write data size f;
        run FS_FCloseFile f;
        ret tt
  end.

(** *** Seeking *)

Definition PK3_SEEK_BUFFER_SIZE : Z := 65536.

(** [while (remainder > PK3_SEEK_BUFFER_SIZE)]; the result is what is
    left of [remainder]. *)
Fixpoint seek_discard (fuel : nat) (remainder : Z) (f : fileHandle_t) : M Z :=
  match fuel with
  | O => undefined
  | S fuel' =>
      if remainder >? PK3_SEEK_BUFFER_SIZE then
        run FS_Read PK3_SEEK_BUFFER_SIZE f;
        seek_discard fuel' (remainder - PK3_SEEK_BUFFER_SIZE) f
      else ret remainder
  end.

Definition unimplemented_seek : string :=
  "Negative offsets and FS_SEEK_END not implemented for FS_Seek on pk3 file contents".

(** [FS_Seek] from the test of [zipFile] on. *)
Definition FS_Seek_at (f : fileHandle_t) (offset : Z) (origin : fsOrigin_t) : M Z :=
  do d <- slot f;
  if zipFile d then
    let remainder := offset in
    let from_here :=
      do remainder <- seek_discard (Z.to_nat (remainder / PK3_SEEK_BUFFER_SIZE) + 1) remainder f;
      run FS_Read remainder f;
      ret offset in
    if (offset <? 0) || (match origin with FS_SEEK_END => true | _ => false end) then
      Com_Error ERR_FATAL unimplemented_seek
    else
      match origin with
      | FS_SEEK_SET =>
          run Unz.unzSetOffset (handleFiles_file d) (zipFilePos d);
          run Unz.unzOpenCurrentFile (handleFiles_file d);
          from_here
      | FS_SEEK_CUR => from_here
      | _ => Com_Error ERR_FATAL "Bad origin in FS_Seek"
      end
  else
    do file <- FS_FileForHandle f;
    do _origin <- match origin with
                  | FS_SEEK_CUR => ret Libc.SEEK_CUR
                  | FS_SEEK_END => ret Libc.SEEK_END
                  | FS_SEEK_SET => ret Libc.SEEK_SET
                  | FS_SEEK_other _ => Com_Error ERR_FATAL "Bad origin in FS_Seek"
                  end;
    Libc.fseek file offset _origin.

(** The call that [FS_Seek] makes on itself for a streamed handle finds
    the flag cleared and runs [FS_Seek_at]; its result is dropped and the
    seek is done once more. *)
Definition FS_Seek (f : fileHandle_t) (offset : Z) (origin : fsOrigin_t) : M Z :=
  do sp <- gets fs_searchpaths;
  run (match sp with [] => Com_Error ERR_FATAL uninitialized | _ => ret tt end);
  do d <- slot f;
  run (if streamed d then
         run upd_slot f (with_streamed false);
         run FS_Seek_at f offset origin;
         upd_slot f (with_streamed true)
       else ret tt);
  FS_Seek_at f offset origin.

(** *** Pack identity *)

(** [teststring] for one pack of the search path. *)
Definition pak_teststring (pak : pack_t) : string :=
  let t := Q_strncpyz (pakGamename pak) BIG_INFO_STRING in
  let t := Q_strcat t BIG_INFO_STRING "/" in
  let t := Q_strcat t BIG_INFO_STRING (pakBasename pak) in
  Q_strcat t BIG_INFO_STRING ".iwd".

Fixpoint verify_search (search : list searchpath_t) (pak : string) : bool :=
  match search with
  | [] => false
  | sp_pack p :: next =>
      if Q_stricmp (pak_teststring p) pak =? 0 then true else verify_search next pak
  | sp_dir _ :: next => verify_search next pak
  end.

Definition FS_VerifyPak (pak : string) : M bool :=
  do search <- gets fs_searchpaths;
  if verify_search search pak then ret true
  else
    do game <- gets fs_game;
    let teststring := Com_sprintf BIG_INFO_STRING (game +:+ "/mod.ff") in
    if Q_stricmp teststring pak =? 0 then ret true
    else if Q_stricmpn "usermaps/" pak 9 =? 0 then
      if CStr.strstr pak ".." || CStr.strstr pak ";" then ret false else ret true
    else ret false.

(** *** Names *)

(** A [char] read into an [int]; [char] is signed on the x86 target that
    the Makefile builds for ([-m32]). *)
Definition char_int (c : ascii) : Z :=
  let n := Z.of_nat (nat_of_ascii c) in
  if n <? 128 then n else n - 256.

(** One round of the loop of [FS_PathCmp] on the folded characters;
    [rest] is the result of the rounds that follow. *)
Definition cmp_step (c1 c2 : Z) (rest : Z) : Z :=
  if c1 <? c2 then -1
  else if c1 >? c2 then 1
  else if c1 =? 0 then 0
  else rest.

(** The end of a string reads as 0. *)
Fixpoint FS_PathCmp (s1 s2 : string) : Z :=
  match s1, s2 with
  | EmptyString, EmptyString => 0
  | EmptyString, String c2 _ => cmp_step 0 (char_int (fold_char c2)) 0
  | String c1 _, EmptyString => cmp_step (char_int (fold_char c1)) 0 0
  | String c1 r1, String c2 r2 =>
      cmp_step (char_int (fold_char c1)) (char_int (fold_char c2)) (FS_PathCmp r1 r2)
  end.

Definition FS_ConvertPath (s : string) : string :=
  CStr.map_chars
    (fun c => if Ascii.eqb c CStr.backslash || Ascii.eqb c ":"%char then "/"%char else c) s.

(** [s + n]; there is no such pointer past the terminator. *)
Fixpoint advance (n : nat) (s : string) : option string :=
  match n, s with
  | O, _ => Some s
  | S n', String _ rest => advance n' rest
  | S _, EmptyString => None
  end.

(** [None] when [filename + (namelen - extlen)] is no pointer into
    [filename]. *)
Definition FS_IsExt (filename ext : string) (namelen : Z) : option bool :=
  let extlen := CStr.strlen ext in
  if extlen >? namelen then Some false
  else
    match advance (Z.to_nat (namelen - extlen)) filename with
    | Some tail => Some (Q_stricmp tail ext =? 0)
    | None => None
    end.

(** *** Files by OS path *)

Definition FS_fplength (h : ptr) : M Z :=
  do pos <- Libc.ftell h;
  run Libc.fseek h 0 Libc.SEEK_END;
  do e <- Libc.ftell h;
  run Libc.fseek h pos Libc.SEEK_SET;
  ret e.

Definition FS_FileExists (file : string) : M bool :=
  do home <- gets fs_homepath;
  do testpath <- FS_BuildOSPath home EmptyString file;
  do f <- Libc.fopen testpath mode_rb;
  if negb (f =? NULL) then
    run Libc.fclose f;
    ret true
  else ret false.

(** The result is [None] for [NULL]. *)
Definition FS_SV_GetFilepath (file : string) : M (option string) :=
  do home <- gets fs_homepath;
  do testpath <- FS_BuildOSPath home file EmptyString;
  let testpath := CStr.chop testpath in
  do f <- Libc.fopen testpath mode_rb;
  if negb (f =? NULL) then
    run Libc.fclose f;
    ret (Some testpath)
  else
    do base <- gets fs_basepath;
    do testpath <- FS_BuildOSPath base file EmptyString;
    let testpath := CStr.chop testpath in
    do f <- Libc.fopen testpath mode_rb;
    if negb (f =? NULL) then
      run Libc.fclose f;
      ret (Some testpath)
    else ret None.

(** [buf] is the block that [malloc (len)] gave, filled by [fread]. *)
Definition FS_SV_HomeCopyFile (from to : string) : M unit :=
  do home <- gets fs_homepath;
  do from_ospath <- FS_BuildOSPath home from EmptyString;
  do to_ospath <- FS_BuildOSPath home to EmptyString;
  let from_ospath := CStr.chop from_ospath in
  let to_ospath := CStr.chop to_ospath in
  run debug_print ("FS_SVHomeCopyFile: " +:+ from_ospath +:+ " --> " +:+ to_ospath +:+ CStr.nl);
  do f <- Libc.fopen from_ospath mode_rb;
  if f =? NULL then ret tt
  else
    run Libc.fseek f 0 Libc.SEEK_END;
    do len <- Libc.ftell f;
    run Libc.fseek f 0 Libc.SEEK_SET;
    do r <- Libc.fread len f;
    let '(n, buf) := r in
    run (if negb (n =? len)
         then Com_Error ERR_FATAL ("Short read in FS_Copyfiles()" +:+ CStr.nl)
         else ret tt);
    run Libc.fclose f;
    do refused <- FS_CreatePath to_ospath;
    if refused then ret tt
    else
      do f <- Libc.fopen to_ospath mode_wb;
      if f =? NULL then ret tt
      else
        do n <- Libc.fwrite buf len f;
        run (if negb (n =? len)
             then Com_Error ERR_FATAL ("Short write in FS_Copyfiles()" +:+ CStr.nl)
             else ret tt);
        run Libc.fclose f;
        ret tt.

End Filesystem.

(** ** Vocabulary of the statements *)

(** [needle] occurs in [s]. *)
Definition has_substring (needle s : string) : Prop :=
  exists a b, s = a +:+ needle +:+ b.

(** The refusal of [FS_CreatePath] in the words of the claim, "reports
    success as a quiet no-op", for comparison with the code: the call
    answers [qfalse], as a run that made the directories does, and leaves
    the state as it was, the console included. *)
Definition quiet_success (s : FS) (o : outcome bool) : Prop := o = Ret false s.

(** A sample installation: one save file under the home path, nothing open. *)
Definition sample_native : Native :=
  mkNative (<["/home/user/save.dat" := [x01; x02; x03]]> ∅) ∅ ∅ ∅ ∅ 1%positive [] [].

Definition sample_fs : FS :=
  mkFS [sp_dir (mkDir "/home/user" "main")] ∅ "main" "/home/user" "/opt/cod4"
       EmptyString false 0 [] sample_native.

(** The strings are equal up to the case of ASCII letters. *)
Definition same_nocase (a b : string) : Prop :=
  CStr.map_chars CStr.upper a = CStr.map_chars CStr.upper b.

(** [s] begins, up to the case of letters, with [p]. *)
Definition nocase_prefix (p s : string) : Prop :=
  exists a b, s = a +:+ b /\ same_nocase p a.

(** The acceptance test in the words of the claim, for comparison with
    [FS_VerifyPak]: the name is compared as it stands, case included. *)
Definition verify_exact (s : FS) (name : string) : bool :=
  existsb (fun sp => match sp with
                     | sp_pack p =>
                         String.eqb (pakGamename p +:+ "/" +:+ pakBasename p +:+ ".iwd") name
                     | sp_dir _ => false
                     end) (fs_searchpaths s)
  || String.eqb (fs_game s +:+ "/mod.ff") name
  || (CStr.starts_with "usermaps/" name
      && negb (CStr.strstr name "..") && negb (CStr.strstr name ";")).

(** An installation with one pack mounted, [main/iw_00.iwd]. *)
Definition mounted_fs : FS :=
  mkFS [sp_pack (mkPack "/opt/cod4/main/iw_00.iwd" "iw_00" "main" 0 []);
        sp_dir (mkDir "/opt/cod4" "main")]
       ∅ "main" "/home/user" "/opt/cod4" "mods/demo" false 0 [] sample_native.

(** The sum of the counts of a script, and the number of zero counts in it. *)
Fixpoint total (l : list Z) : Z :=
  match l with
  | [] => 0
  | k :: l' => k + total l'
  end.

Fixpoint stalls (l : list Z) : Z :=
  match l with
  | [] => 0
  | k :: l' => (if k =? 0 then 1 else 0) + stalls l'
  end.

(** What [Libc.transfer] answers in state [s]. *)
Definition next_count (s : FS) (block avail : Z) : Z :=
  match script (sys s) with
  | [] => Z.min block avail
  | k :: _ => if k <? 0 then -1 else Z.min k (Z.min block avail)
  end.

(** The state after the transfer call [call] on [fp] left the stream at
    [pos'] and the disk as [d]. *)
Definition after_transfer (call : syscall) (fp : ptr) (st : FILE) (pos' : Z)
    (d : gmap string (list byte)) (s : FS) : FS :=
  set_sys (mkNative d (dirs (sys s)) (nowrite (sys s))
             (<[fp := mkFILE (f_path st) (f_mode st) pos']> (streams (sys s)))
             (zips (sys s)) (next_ptr (sys s)) (tl (script (sys s)))
             (io (sys s) ++ [call])) s.

(** The stream [fp] is open on the file [p], whose bytes are [c], at
    position [pos], and the script is [sc]. *)
Definition reading (s : FS) (fp : ptr) (p : string) (m : fmode) (pos : Z)
    (c : list byte) (sc : list Z) : Prop :=
  streams (sys s) !! fp = Some (mkFILE p m pos)
  /\ disk (sys s) !! p = Some c
  /\ script (sys s) = sc.

(** [s'] differs from [s] in the state of the collaborators only. *)
Definition only_sys (s s' : FS) : Prop := s' = set_sys (sys s') s.

(** The sample installation with handle 1 open on the save file and the
    transfers scripted by [sc]. *)
Definition reading_fs (sc : list Z) : FS :=
  mkFS [sp_dir (mkDir "/home/user" "main")]
       (<[1 := mkHandle 1 false false 0 false false "save.dat"]> ∅)
       "main" "/home/user" "/opt/cod4" EmptyString false 0 []
       (mkNative (<["/home/user/save.dat" := [x01; x02; x03]]> ∅) ∅ ∅
          (<[1 := mkFILE "/home/user/save.dat" mode_rb 0]> ∅) ∅ 2%positive sc []).

(** A call of [fwrite]. *)
Definition is_fwrite (c : syscall) : Prop :=
  match c with
  | sys_fwrite _ _ => True
  | _ => False
  end.

(** [s'] differs from [s] in the state of the collaborators only, and the
    native calls made in between are calls of [fwrite]. *)
Definition wrote (s s' : FS) : Prop :=
  only_sys s s'
  /\ exists calls, io (sys s') = io (sys s) ++ calls /\ Forall is_fwrite calls.

(** The stream [fp] is open and the script is [sc]. *)
Definition writing (s : FS) (fp : ptr) (sc : list Z) : Prop :=
  is_Some (streams (sys s) !! fp) /\ script (sys s) = sc.

(** The sample installation with handle 1 open for writing, its sync flag
    set, and the transfers scripted by [sc]. *)
Definition writing_fs (sc : list Z) : FS :=
  mkFS [sp_dir (mkDir "/home/user" "main")]
       (<[1 := mkHandle 1 false true 0 false false "out.dat"]> ∅)
       "main" "/home/user" "/opt/cod4" EmptyString false 0 []
       (mkNative (<["/home/user/out.dat" := []]> ∅) ∅ ∅
          (<[1 := mkFILE "/home/user/out.dat" mode_wb 0]> ∅) ∅ 2%positive sc []).

(** The state after the codec call [fn] left the archive [zp] as [a']. *)
Definition after_unz (fn : string) (zp : ptr) (a' : unz_s) (s : FS) : FS :=
  set_sys (mkNative (disk (sys s)) (dirs (sys s)) (nowrite (sys s)) (streams (sys s))
             (<[zp := a']> (zips (sys s))) (next_ptr (sys s)) (script (sys s))
             (io (sys s) ++ [sys_unz fn zp])) s.

(** The current entry of the archive [zp] is the one at [zpos], open for
    reading at position [r]. *)
Definition entry_pos (s : FS) (zp : ptr) (es : list (Z * (string * list byte)))
    (zpos r : Z) : Prop :=
  zips (sys s) !! zp = Some (mkUnz es zpos (Some r)).

(** The filesystem is initialized and handle [f] is an archive handle on
    the archive [zp], its entry starting at offset [zpos]. *)
Definition zip_handle (s : FS) (f : fileHandle_t) (zp : ptr) (zpos : Z) : Prop :=
  fs_searchpaths s <> [] /\ f <> 0
  /\ zipFile (fsh s !!! f) = true
  /\ handleFiles_file (fsh s !!! f) = zp
  /\ zipFilePos (fsh s !!! f) = zpos.

(** The state after [fsh[f].streamed = b]. *)
Definition streamed_set (b : bool) (f : fileHandle_t) (s : FS) : FS :=
  set_fsh (<[f := with_streamed b (fsh s !!! f)]> (fsh s)) s.

(** The state after [fseek] left the stream [fp] at [pos']. *)
Definition after_fseek (fp : ptr) (st : FILE) (off whence pos' : Z) (s : FS) : FS :=
  set_sys (mkNative (disk (sys s)) (dirs (sys s)) (nowrite (sys s))
             (<[fp := mkFILE (f_path st) (f_mode st) pos']> (streams (sys s)))
             (zips (sys s)) (next_ptr (sys s)) (script (sys s))
             (io (sys s) ++ [sys_fseek fp off whence])) s.

(** The bytes of the sample archive entry: 10000 zero bytes, sixteen
    bytes that tell, eight more. *)
Definition sample_entry : list byte :=
  replicate (Z.to_nat 10000) x00
  ++ [x10; x11; x12; x13; x14; x15; x16; x17; x18; x19; x1a; x1b; x1c; x1d; x1e; x1f]
  ++ replicate 8 xff.

(** Handle 1 is open on the entry at offset 100 of the archive at address
    5, some bytes into it; handle 2 is open on a loose copy of the entry. *)
Definition archive_fs : FS :=
  mkFS [sp_dir (mkDir "/home/user" "main")]
       (<[1 := mkHandle 5 false false 100 true false "sound/explosion.wav"]>
          (<[2 := mkHandle 6 true false 0 false false "sound/explosion.wav"]> ∅))
       "main" "/home/user" "/opt/cod4" EmptyString false 0 []
       (mkNative (<["/home/user/main/sound/explosion.wav" := sample_entry]> ∅) ∅ ∅
          (<[6 := mkFILE "/home/user/main/sound/explosion.wav" mode_rb 0]> ∅)
          (<[5 := mkUnz [(100, ("sound/explosion.wav", sample_entry))] 100 (Some 3)]> ∅)
          7%positive [] []).

(** The sample installation with no handle in use, where the memory that
    follows the 64 slots of the table is not zero: read as [fsh[64]], its
    first word is the address 77. *)
Definition past_table_fs : FS :=
  mkFS [sp_dir (mkDir "/home/user" "main")]
       (<[64 := mkHandle 77 false false 0 false false EmptyString]> ∅)
       "main" "/home/user" "/opt/cod4" EmptyString false 0 [] sample_native.

(** The sample installation before [FS_Startup]: no search path. *)
Definition uninit_fs : FS :=
  mkFS [] ∅ "main" "/home/user" "/opt/cod4" EmptyString false 0 [] sample_native.

Section Vocabulary.

Context `{Platform}.

(** No slot outside [1 .. MAX_FILE_HANDLES-1], the range that
    [FS_HandleForFile] hands out, holds a stream. *)
Definition handles_wf (s : FS) : Prop :=
  forall i, i < 1 \/ MAX_FILE_HANDLES <= i -> handleFiles_file (fsh s !!! i) = NULL.

(** The slots [1 .. k] are taken and the slots after them are free. *)
Definition filled_upto (k : Z) (s : FS) : Prop :=
  (forall i, 1 <= i <= k -> handleFiles_file (fsh s !!! i) <> NULL)
  /\ (forall i, k < i < MAX_FILE_HANDLES -> handleFiles_file (fsh s !!! i) = NULL).

(** The OS path the [FS_SV_] functions make of a file name: the name goes
    in the place of the game directory and the separator added after it
    is cut off again. *)
Definition sv_ospath (gd base filename : string) : string :=
  let game := match filename with EmptyString => gd | _ => filename end in
  CStr.chop (Com_sprintf MAX_OSPATH
    (base +:+ FS_ReplaceSeparators
                (Com_sprintf MAX_OSPATH ("/" +:+ game +:+ "/" +:+ EmptyString)))).

(** What [sv_ospath] comes to when nothing is cut: the root, then the
    name with its separators replaced. *)
Definition sv_target (base filename : string) : string :=
  base +:+ FS_ReplaceSeparators ("/" +:+ filename).

(** The names of the pack fit [teststring]. *)
Definition pak_fits (p : pack_t) : Prop :=
  CStr.strlen (pakGamename p) + CStr.strlen (pakBasename p) + 5 < BIG_INFO_STRING.


(** The configuration is the same in both states. *)
Definition same_setup (s s' : FS) : Prop :=
  fs_searchpaths s' = fs_searchpaths s /\ fs_gamedir s' = fs_gamedir s
  /\ fs_homepath s' = fs_homepath s /\ fs_basepath s' = fs_basepath s
  /\ fs_game s' = fs_game s /\ fs_debug s' = fs_debug s.

(** Open the files of a list one after the other; the handles in order. *)
Fixpoint open_all (names : list string) : M (list fileHandle_t) :=
  match names with
  | [] => ret []
  | n :: rest =>
      do r <- FS_SV_FOpenFileRead n;
      do hs <- open_all rest;
      ret (snd r :: hs)
  end.

End Vocabulary.

(** A build whose table has three entries, for small examples. *)
Definition tiny_build : Platform := {|
  MAX_FILE_HANDLES := 3;
  MAX_OSPATH := 256;
  MAX_ZPATH := 256;
  BIG_INFO_STRING := 8192;
  PATH_SEP := "/"%char
|}.

Definition two_saves_native : Native :=
  mkNative (<["/home/user/a.dat" := [x01]]> (<["/home/user/b.dat" := [x02; x03]]> ∅))
           ∅ ∅ ∅ ∅ 1%positive [] [].

Definition two_saves_fs : FS :=
  mkFS [sp_dir (mkDir "/home/user" "main")] ∅ "main" "/home/user" "/opt/cod4"
       EmptyString false 0 [] two_saves_native.

(** An installation with a file next to the home root, not under it. *)
Definition outside_native : Native :=
  mkNative (<["/home/user/../admin/secret.dat" := [x2a]]> ∅) ∅ ∅ ∅ ∅ 1%positive [] [].

Definition outside_fs : FS :=
  mkFS [sp_dir (mkDir "/home/user" "main")] ∅ "main" "/home/user" "/opt/cod4"
       EmptyString false 0 [] outside_native.

(** A string of C holds no character 0. *)
Fixpoint is_cstring (s : string) : bool :=
  match s with
  | EmptyString => true
  | String c rest => negb (Ascii.eqb c Ascii.zero) && is_cstring rest
  end.

(** The bytes [d] put over those of [c] from position [w] on, [w] being
    inside [c] or at its end. *)
Definition overwrite (w : Z) (d c : list byte) : list byte :=
  take (Z.to_nat w) c ++ d ++ drop (Z.to_nat w + length d) c.

(** Where the next [fwrite] on a stream puts its bytes: at the end of
    the file for a stream opened to append, at the position otherwise. *)
Definition write_pos (m : fmode) (pos : Z) (c : list byte) : Z :=
  match m with
  | mode_ab => Z.of_nat (length c)
  | _ => pos
  end.

(** The stream [fp] is open on the file [p], at position [pos] in mode
    [m]; the file holds [c] and the next write goes to [w], inside [c]
    or at its end. *)
Definition write_target (s : FS) (fp : ptr) (p : string) (m : fmode) (pos : Z)
    (c : list byte) (w : Z) : Prop :=
  streams (sys s) !! fp = Some (mkFILE p m pos)
  /\ disk (sys s) !! p = Some c
  /\ w = write_pos m pos c
  /\ 0 <= w <= Z.of_nat (length c).

(** The state after the native calls [calls] that changed nothing else. *)
Definition traced (calls : list syscall) (s : FS) : FS :=
  set_sys (mkNative (disk (sys s)) (dirs (sys s)) (nowrite (sys s)) (streams (sys s))
             (zips (sys s)) (next_ptr (sys s)) (script (sys s)) (io (sys s) ++ calls)) s.

(** The state after directories were made: the directories are [dr] and
    the native calls [calls] were added. *)
Definition mkdirs_done (dr : gset string) (calls : list syscall) (s : FS) : FS :=
  set_sys (mkNative (disk (sys s)) dr (nowrite (sys s)) (streams (sys s)) (zips (sys s))
             (next_ptr (sys s)) (script (sys s)) (io (sys s) ++ calls)) s.

(** [a] is a directory, or a file, or a path the OS lets nobody write. *)
Definition dir_settled (n : Native) (dr : gset string) (a : string) : Prop :=
  a ∈ dr \/ is_Some (disk n !! a) \/ a ∈ nowrite n.

(** Something of the name [p] is there for [fopen (p, "rb")] to open: a
    regular file or a directory. *)
Definition present (n : Native) (p : string) : bool :=
  bool_decide (is_Some (disk n !! p)) || bool_decide (p ∈ dirs n).

(** The state after [fopen] gave the stream [st] the next address. *)
Definition opened (st : FILE) (s : FS) : FS :=
  set_sys (mkNative (disk (sys s)) (dirs (sys s)) (nowrite (sys s))
             (<[Z.pos (next_ptr (sys s)) := st]> (streams (sys s))) (zips (sys s))
             (next_ptr (sys s) + 1)%positive (script (sys s))
             (io (sys s) ++ [sys_fopen (f_path st) (f_mode st)])) s.

(** The state after [fclose] of the stream [fp]. *)
Definition closed (fp : ptr) (s : FS) : FS :=
  set_sys (mkNative (disk (sys s)) (dirs (sys s)) (nowrite (sys s))
             (delete fp (streams (sys s))) (zips (sys s))
             (next_ptr (sys s)) (script (sys s)) (io (sys s) ++ [sys_fclose fp])) s.

(** The state after [fopen (path, "wb")] made the file empty and gave
    its stream the next address. *)
Definition created (path : string) (s : FS) : FS :=
  set_sys (mkNative (<[path := []]> (disk (sys s))) (dirs (sys s)) (nowrite (sys s))
             (<[Z.pos (next_ptr (sys s)) := mkFILE path mode_wb 0]> (streams (sys s)))
             (zips (sys s)) (next_ptr (sys s) + 1)%positive (script (sys s))
             (io (sys s) ++ [sys_fopen path mode_wb])) s.

(** Where a native seek by [offset] from [origin] lands in a file of
    [len] bytes, from position [pos]. *)
Definition seek_target (origin : fsOrigin_t) (offset pos len : Z) : Z :=
  match origin with
  | FS_SEEK_SET => offset
  | FS_SEEK_CUR => pos + offset
  | _ => len + offset
  end.

(** The state in which a call ends, however it ends. *)
Definition final {A} (o : outcome A) : FS :=
  match o with
  | Ret _ s => s
  | Abort _ _ s => s
  | Undef s => s
  end.

(** The outcome [o] with the handle table [t] in the place of its own. *)
Definition with_table {A} (t : gmap Z fileHandleData_t) (o : outcome A) : outcome A :=
  match o with
  | Ret a s => Ret a (set_fsh t s)
  | Abort code msg s => Abort code msg (set_fsh t s)
  | Undef s => Undef (set_fsh t s)
  end.

(** [m] neither reads nor writes the handle table. *)
Definition table_free {A} (m : M A) : Prop :=
  forall t s, m (set_fsh t s) = with_table t (m s).

(** The outcomes are the same but for the handle table, and when they
    are returns the tables agree slot by slot. *)
Definition same_outcome {A} (o1 o2 : outcome A) : Prop :=
  match o1, o2 with
  | Ret a s1, Ret b s2 =>
      a = b /\ set_fsh ∅ s1 = set_fsh ∅ s2 /\ forall i, fsh s1 !!! i = fsh s2 !!! i
  | Abort c1 m1 s1, Abort c2 m2 s2 => c1 = c2 /\ m1 = m2 /\ set_fsh ∅ s1 = set_fsh ∅ s2
  | Undef s1, Undef s2 => set_fsh ∅ s1 = set_fsh ∅ s2
  | _, _ => False
  end.

(** An installation with the directory [sound] in the game directory of
    the home root, and no file in it. *)
Definition sound_dir_fs : FS :=
  mkFS [sp_dir (mkDir "/home/user" "main")] ∅ "main" "/home/user" "/opt/cod4"
       EmptyString false 0 []
       (mkNative ∅ {["/home/user/main/sound"]} ∅ ∅ ∅ 1%positive [] []).


(** An installation with a configuration file under the base root only. *)
Definition base_fs : FS :=
  mkFS [sp_dir (mkDir "/home/user" "main")] ∅ "main" "/home/user" "/opt/cod4"
       EmptyString false 0 []
       (mkNative (<["/opt/cod4/server.cfg" := [x07; x08]]> ∅) ∅ ∅ ∅ ∅ 1%positive [] []).

Section PathVocabulary.

Context `{Platform}.

(** The OS path that [FS_BuildOSPath] makes when [fs_gamedir] is [gd]. *)
Definition os_path (gd base game qpath : string) : string :=
  let game := match game with EmptyString => gd | _ => game end in
  Com_sprintf MAX_OSPATH
    (base +:+ FS_ReplaceSeparators (Com_sprintf MAX_OSPATH ("/" +:+ game +:+ "/" +:+ qpath))).

(** The file of the home root that the [FS_SV_] functions make of a name. *)
Definition sv_home (s : FS) (filename : string) : string :=
  sv_ospath (fs_gamedir s) (fs_homepath s) filename.


(** There is a free slot in the range that [FS_HandleForFile] scans. *)
Definition has_free_handle (s : FS) : Prop :=
  exists i, 1 <= i < MAX_FILE_HANDLES /\ handleFiles_file (fsh s !!! i) = NULL.

(** The same slots are in use in both tables. *)
Definition same_handles (s s' : FS) : Prop :=
  forall i, handleFiles_file (fsh s' !!! i) = handleFiles_file (fsh s !!! i).

(** [p] can be made a regular file: it is not empty, holds no [..] and
    no [::], is no directory, and the OS lets it be written. *)
Definition writable (s : FS) (p : string) : Prop :=
  p <> EmptyString
  /\ (~ has_substring ".." p) /\ (~ has_substring "::" p)
  /\ (p ∉ nowrite (sys s)) /\ (p ∉ dirs (sys s)).

(** [m] keeps the handle table well-formed, however it ends, and what
    it returns satisfies [Q]. *)
Definition keeps {A} (m : M A) (Q : A -> Prop) : Prop :=
  forall s, handles_wf s ->
    handles_wf (final (m s)) /\ (forall a s', m s = Ret a s' -> Q a).

End PathVocabulary.

(** * Properties *)

(** ** Strings *)

Lemma starts_with_spec (p s : string) :
  CStr.starts_with p s = true <-> exists b, s = p +:+ b.
Proof.
  revert s; induction p as [|c p IH]; intros s; simpl.
  - split; [intros _; exists s; reflexivity | intros _; reflexivity].
  - destruct s as [|d s]; simpl.
    + split; [discriminate | intros [b Hb]; discriminate].
    + rewrite andb_true_iff, Ascii.eqb_eq, IH. split.
      * intros [-> [b ->]]. now exists b.
      * intros [b Hb]. inversion Hb; subst. split; [reflexivity|now exists b].
Qed.

Lemma strstr_spec (h n : string) :
  CStr.strstr h n = true <-> has_substring n h.
Proof.
  unfold has_substring.
  induction h as [|c h IH]; simpl.
  - destruct (CStr.starts_with n EmptyString) eqn:E.
    + apply starts_with_spec in E as [b Hb]. split; [intros _|reflexivity].
      exists EmptyString, b. exact Hb.
    + split; [discriminate|]. intros (a & b & Hab).
      destruct a; simpl in Hab; [|discriminate].
      assert (CStr.starts_with n EmptyString = true) by (apply starts_with_spec; eauto).
      congruence.
  - destruct (CStr.starts_with n (String c h)) eqn:E.
    + apply starts_with_spec in E as [b Hb]. split; [intros _|reflexivity].
      exists EmptyString, b. exact Hb.
    + rewrite IH. split.
      * intros (a & b & ->). exists (String c a), b. reflexivity.
      * intros (a & b & Hab). destruct a as [|d a]; simpl in Hab.
        -- assert (CStr.starts_with n (String c h) = true) by (apply starts_with_spec; eauto).
           congruence.
        -- inversion Hab; subst. eauto.
Qed.

Lemma substring_all (n : nat) (s : string) :
  (String.length s <= n)%nat -> String.substring 0 n s = s.
Proof.
  revert n; induction s as [|c s IH]; intros n Hn.
  - destruct n; reflexivity.
  - destruct n; simpl in *; [lia|]. f_equal. apply IH. lia.
Qed.

Lemma bounded_fits (size : Z) (s : string) :
  CStr.strlen s < size -> CStr.bounded size s = s.
Proof.
  unfold CStr.bounded, CStr.truncate, CStr.strlen. intros Hs.
  apply substring_all. lia.
Qed.

Lemma app_cons (x : ascii) (a b : string) : String x a +:+ b = String x (a +:+ b).
Proof. reflexivity. Qed.

Lemma app_empty_l (b : string) : EmptyString +:+ b = b.
Proof. reflexivity. Qed.

Lemma length_app_string (a b : string) :
  String.length (a +:+ b) = (String.length a + String.length b)%nat.
Proof. induction a as [|x a IH]; [reflexivity|]. rewrite app_cons. simpl. now rewrite IH. Qed.

Lemma strlen_app (a b : string) : CStr.strlen (a +:+ b) = CStr.strlen a + CStr.strlen b.
Proof. unfold CStr.strlen. rewrite length_app_string. lia. Qed.

Lemma map_chars_app f (a b : string) :
  CStr.map_chars f (a +:+ b) = CStr.map_chars f a +:+ CStr.map_chars f b.
Proof.
  induction a as [|x a IH]; [reflexivity|].
  rewrite app_cons. simpl. now rewrite IH, app_cons.
Qed.

Lemma map_chars_length f (a : string) :
  String.length (CStr.map_chars f a) = String.length a.
Proof. induction a; simpl; auto. Qed.

Lemma app_assoc_string (a b c : string) : (a +:+ b) +:+ c = a +:+ (b +:+ c).
Proof.
  induction a as [|x a IH]; [reflexivity|].
  rewrite !app_cons. f_equal. exact IH.
Qed.

Lemma substring_app_l (a b : string) :
  String.substring 0 (String.length a) (a +:+ b) = a.
Proof.
  induction a as [|c a IH].
  - rewrite app_empty_l. destruct b; reflexivity.
  - rewrite app_cons. simpl. now rewrite IH.
Qed.

Lemma chop_snoc (a : string) (c : ascii) :
  CStr.chop (a +:+ String c EmptyString) = a.
Proof.
  unfold CStr.chop. rewrite length_app_string. simpl.
  replace (String.length a + 1 - 1)%nat with (String.length a) by lia.
  apply substring_app_l.
Qed.

(** ** Path sanitizer *)

Section Sanitizer.

Context `{Platform}.

(** [Sys_Mkdir] shows in the trace of native calls. *)
Lemma Sys_Mkdir_traced (p : string) (s : FS) :
  exists b s', Sys_Mkdir p s = Ret b s'
               /\ io (sys s') = io (sys s) ++ [sys_mkdir p].
Proof.
  unfold Sys_Mkdir, Libc.mkdir, bind, Libc.called, Libc.upd, modify, gets, ret; simpl.
  destruct (_ || _); simpl; [eauto|].
  destruct (bool_decide _); simpl; eauto.
Qed.

(** C1, as the code has it. A path in which [..] or [::] occurs makes
    [FS_CreatePath] return [qtrue] at once: no [Com_Error] is raised,
    [Sys_Mkdir] is not called (the trace of native calls and the
    directories are as before), and the one effect is a warning line on
    the console. [qtrue] is the answer of a refusal, on which the
    callers give up the open; a run that made the directories answers
    [qfalse]. *)
Theorem FS_CreatePath_refuses (OSPath : string) (s : FS) :
  has_substring ".." OSPath \/ has_substring "::" OSPath ->
  exists s',
    FS_CreatePath OSPath s = Ret true s'
    /\ sys s' = sys s
    /\ fsh s' = fsh s
    /\ console s' = console s ++ [refusing OSPath].
Proof.
  intros Hbad.
  assert (CStr.strstr OSPath ".." || CStr.strstr OSPath "::" = true) as E.
  { apply orb_true_iff. destruct Hbad as [Hb|Hb]; [left|right]; now apply strstr_spec. }
  unfold FS_CreatePath. rewrite E.
  eexists. split; [reflexivity|]. simpl. auto.
Qed.

End Sanitizer.

Lemma FS_CreatePath_refuses_witness :
  exists s',
    FS_CreatePath (H := unix_build) "/home/user/main/../../etc/passwd" sample_fs = Ret true s'
    /\ sys s' = sys sample_fs
    /\ fsh s' = fsh sample_fs
    /\ console s' = console sample_fs ++ [refusing "/home/user/main/../../etc/passwd"].
Proof.
  apply (FS_CreatePath_refuses (H := unix_build)).
  left. exists "/home/user/main/", "/../etc/passwd". reflexivity.
Defined.

(** C1 as stated fails: the refusal is not reported as a success, and not
    quietly. On a path with [..] the answer is [qtrue] and a warning is
    printed; a path without it, on which the directories are made, is
    answered [qfalse]; and on [qtrue] the caller gives up:
    [FS_SV_FOpenFileWrite] returns handle 0 for the name that makes this
    path. *)
Lemma FS_CreatePath_refusal_is_reported :
  ~ quiet_success sample_fs
      (FS_CreatePath (H := unix_build) "/home/user/../etc/passwd" sample_fs)
  /\ (exists s',
        FS_CreatePath (H := unix_build) "/home/user/../etc/passwd" sample_fs = Ret true s'
        /\ console s' = [refusing "/home/user/../etc/passwd"])
  /\ (exists s',
        FS_CreatePath (H := unix_build) "/home/user/saves/slot1.sav" sample_fs = Ret false s')
  /\ (exists s',
        FS_SV_FOpenFileWrite (H := unix_build) "../etc/passwd" sample_fs = Ret 0 s').
Proof.
  split; [|split; [|split]].
  - unfold quiet_success. vm_compute. discriminate.
  - eexists. split; vm_compute; reflexivity.
  - eexists. vm_compute. reflexivity.
  - eexists. vm_compute. reflexivity.
Qed.

(** ** Handle table *)

Ltac crunch :=
  repeat (cbn; rewrite ?lookup_total_insert_eq, ?insert_insert_eq, ?lookup_insert_eq).

Section HandleTable.

Context `{Platform}.

Lemma first_free_skip t i n j :
  (forall k, i <= k < j -> handleFiles_file (t !!! k) <> NULL) ->
  handleFiles_file (t !!! j) = NULL ->
  i <= j < i + Z.of_nat n ->
  first_free t i n = Some j.
Proof.
  revert i; induction n as [|n IH]; intros i Hfull Hj Hr; [lia|].
  simpl. destruct (Z.eqb_spec (handleFiles_file (t !!! i)) NULL) as [E|E].
  - destruct (Z.eq_dec i j) as [->|Hne]; [reflexivity|].
    exfalso. apply (Hfull i); [lia|exact E].
  - apply IH; [intros k Hk; apply Hfull; lia|exact Hj|].
    destruct (Z.eq_dec i j) as [->|Hne]; [contradiction|lia].
Qed.

Lemma first_free_none t i n :
  (forall k, i <= k < i + Z.of_nat n -> handleFiles_file (t !!! k) <> NULL) ->
  first_free t i n = None.
Proof.
  revert i; induction n as [|n IH]; intros i Hfull; [reflexivity|].
  simpl. destruct (Z.eqb_spec (handleFiles_file (t !!! i)) NULL) as [E|E].
  - exfalso. apply (Hfull i); [lia|exact E].
  - apply IH. intros k Hk. apply Hfull. lia.
Qed.

Lemma first_free_some t i n j :
  first_free t i n = Some j ->
  i <= j < i + Z.of_nat n /\ handleFiles_file (t !!! j) = NULL
  /\ forall k, i <= k < j -> handleFiles_file (t !!! k) <> NULL.
Proof.
  revert i; induction n as [|n IH]; intros i; simpl; [discriminate|].
  destruct (Z.eqb_spec (handleFiles_file (t !!! i)) NULL) as [E|E].
  - intros [= <-]. split; [lia|]. split; [exact E|]. intros k Hk. lia.
  - intros Hf. apply IH in Hf as (Hr & Hj & Hfull).
    split; [lia|]. split; [exact Hj|].
    intros k Hk. destruct (Z.eq_dec k i) as [->|Hne]; [exact E|apply Hfull; lia].
Qed.

(** The scan hands out the lowest free slot of [1 .. MAX_FILE_HANDLES-1],
    and changes nothing. *)
Lemma FS_HandleForFile_lowest f s s' :
  FS_HandleForFile s = Ret f s' ->
  s' = s /\ 1 <= f < MAX_FILE_HANDLES /\ handleFiles_file (fsh s !!! f) = NULL
  /\ forall k, 1 <= k < f -> handleFiles_file (fsh s !!! k) <> NULL.
Proof.
  unfold FS_HandleForFile, bind, gets, ret, Com_Error.
  destruct (first_free _ _ _) as [j|] eqn:E; [|discriminate].
  intros [= <- <-]. apply first_free_some in E as (Hr & Hj & Hfull).
  repeat split; try lia; assumption.
Qed.

Lemma FS_HandleForFile_next k s :
  filled_upto k s -> 0 <= k < MAX_FILE_HANDLES - 1 ->
  FS_HandleForFile s = Ret (k + 1) s.
Proof.
  intros [Hfull Hfree] Hk. unfold FS_HandleForFile, bind, gets, ret.
  rewrite (first_free_skip _ 1 _ (k + 1)); [reflexivity| | |lia].
  - intros i Hi. apply Hfull. lia.
  - apply Hfree. lia.
Qed.

Lemma FS_HandleForFile_exhausted s :
  filled_upto (MAX_FILE_HANDLES - 1) s ->
  FS_HandleForFile s = Abort ERR_DROP "FS_HandleForFile: none free" s.
Proof.
  intros [Hfull _]. unfold FS_HandleForFile, bind, gets, ret.
  rewrite first_free_none; [reflexivity|].
  intros i Hi. apply Hfull. lia.
Qed.

Lemma FS_FileForHandle_ok (f : fileHandle_t) (s : FS) :
  0 <= f <= MAX_FILE_HANDLES -> handleFiles_file (fsh s !!! f) <> NULL ->
  FS_FileForHandle f s = Ret (handleFiles_file (fsh s !!! f)) s.
Proof.
  intros Hr Hn. unfold FS_FileForHandle, bind, slot, gets, ret, Com_Error.
  replace ((f <? 0) || (f >? MAX_FILE_HANDLES)) with false
    by (symmetry; apply orb_false_iff; lia).
  destruct (Z.eqb_spec (handleFiles_file (fsh s !!! f)) NULL); [contradiction|reflexivity].
Qed.

(** The table starts out zeroed, and storing to a slot that the scan
    handed out keeps the slots outside its range empty. *)
Lemma handles_wf_zeroed s : fsh s = ∅ -> handles_wf s.
Proof. intros E i _. rewrite E, lookup_total_empty. reflexivity. Qed.

Lemma handles_wf_store f d s :
  handles_wf s -> 1 <= f < MAX_FILE_HANDLES ->
  handles_wf (set_fsh (<[f := d]> (fsh s)) s).
Proof.
  intros Hwf Hf i Hi. cbn. rewrite lookup_total_insert_ne by lia. now apply Hwf.
Qed.

(** What of C8 holds. A handle below 0 or above [MAX_FILE_HANDLES] fails
    the range test, and a handle from 0 to [MAX_FILE_HANDLES] whose slot
    reads as [NULL] fails the second test: both leave through
    [Com_Error (ERR_DROP)] and return no stream. The range test is the
    one of the code, [f > MAX_FILE_HANDLES], so that [MAX_FILE_HANDLES]
    itself is let through. *)
Lemma FS_FileForHandle_rejects (f : fileHandle_t) (s : FS) :
  (f < 0 \/ MAX_FILE_HANDLES < f ->
   FS_FileForHandle f s
   = Abort ERR_DROP ("FS_FileForHandle: out of range %i" +:+ CStr.nl) s)
  /\ (0 <= f <= MAX_FILE_HANDLES -> handleFiles_file (fsh s !!! f) = NULL ->
      FS_FileForHandle f s = Abort ERR_DROP "FS_FileForHandle: NULL" s)
  /\ (forall p s', FS_FileForHandle f s = Ret p s' ->
        0 <= f <= MAX_FILE_HANDLES /\ p = handleFiles_file (fsh s !!! f) /\ p <> NULL).
Proof.
  unfold FS_FileForHandle, bind, slot, gets, ret, Com_Error.
  destruct ((f <? 0) || (f >? MAX_FILE_HANDLES)) eqn:E.
  - split; [reflexivity|]. apply orb_true_iff in E. split; [lia|discriminate].
  - apply orb_false_iff in E as [E1 E2]. split; [lia|].
    destruct (Z.eqb_spec (handleFiles_file (fsh s !!! f)) NULL) as [En|En].
    + split; [reflexivity|discriminate].
    + split; [contradiction|]. intros p s' [= <- <-]. split; [lia|auto].
Qed.

(** C8, where the code departs from it. The handle [MAX_FILE_HANDLES] is
    outside the table, whose slots are [0 .. MAX_FILE_HANDLES-1] and of
    which [FS_HandleForFile] hands out [1 .. MAX_FILE_HANDLES-1]. The
    range test of [FS_FileForHandle] is [f > MAX_FILE_HANDLES] and lets
    it through: the code reads [fsh[MAX_FILE_HANDLES]], the memory that
    follows the table, and when that is not zero it returns it as a
    stream. No [Com_Error] is raised. *)
Theorem FS_FileForHandle_off_by_one (s : FS) :
  0 <= MAX_FILE_HANDLES ->
  handleFiles_file (fsh s !!! MAX_FILE_HANDLES) <> NULL ->
  FS_FileForHandle MAX_FILE_HANDLES s
  = Ret (handleFiles_file (fsh s !!! MAX_FILE_HANDLES)) s.
Proof. intros Hm Hn. apply FS_FileForHandle_ok; [lia|exact Hn]. Qed.

Lemma FS_SV_FOpenFileRead_hit k s filename c :
  fs_searchpaths s <> [] ->
  filled_upto k s -> 0 <= k < MAX_FILE_HANDLES - 1 ->
  disk (sys s) !! sv_ospath (fs_gamedir s) (fs_homepath s) filename = Some c ->
  exists s' calls,
    FS_SV_FOpenFileRead filename s = Ret (Z.of_nat (length c), k + 1) s'
    /\ handleFiles_file (fsh s' !!! (k + 1)) <> NULL
    /\ (forall i, i <> k + 1 -> fsh s' !!! i = fsh s !!! i)
    /\ same_setup s s'
    /\ disk (sys s') = disk (sys s)
    /\ io (sys s') = io (sys s)
         ++ sys_fopen (sv_ospath (fs_gamedir s) (fs_homepath s) filename) mode_rb :: calls.
Proof.
  intros Hsp Hfill Hk Hc.
  unfold FS_SV_FOpenFileRead.
  unfold bind at 1. unfold gets at 1.
  destruct (fs_searchpaths s) as [|sp sps] eqn:Esp; [contradiction|].
  unfold bind at 1. unfold ret at 1.
  unfold bind at 1. rewrite (FS_HandleForFile_next k s Hfill Hk).
  destruct s as [sp0 t gd home base game dbg ls con [dk dr nw st zp np sc tr]].
  unfold sv_ospath in *. cbn in Hc, Esp. subst sp0.
  unfold debug_print, FS_BuildOSPath, Libc.fopen, FS_filelength, FS_FileForHandle,
    Libc.ftell, Libc.fseek, Libc.stream, Libc.contents, Libc.set_pos, Libc.called, Libc.upd,
    upd_slot, slot, set_slot, bind, ret, gets, modify, Com_Printf, Com_Error, undefined.
  destruct dbg; cbn; rewrite Hc; crunch.
  all: replace (k + 1 =? 0) with false by lia; cbn.
  all: replace ((k + 1 <? 0) || (k + 1 >? MAX_FILE_HANDLES)) with false by lia; crunch.
  all: rewrite Hc; crunch.
  all: destruct (Z.ltb_spec (Z.of_nat (length c) + 0) 0); [lia|]; crunch.
  all: change (0 + 0 <? 0) with false; crunch.
  all: rewrite Z.add_0_r; do 2 eexists; (split; [reflexivity|]); crunch.
  all: split; [discriminate|].
  all: split; [intros i Hi; now rewrite lookup_total_insert_ne by congruence|].
  all: split; [repeat split|].
  all: split; [reflexivity|].
  all: rewrite <- !app_assoc; reflexivity.
Qed.

Lemma filled_upto_step k s s' :
  filled_upto k s ->
  handleFiles_file (fsh s' !!! (k + 1)) <> NULL ->
  (forall i, i <> k + 1 -> fsh s' !!! i = fsh s !!! i) ->
  filled_upto (k + 1) s'.
Proof.
  intros [Hfull Hfree] Hnew Hsame. split; intros i Hi.
  - destruct (Z.eq_dec i (k + 1)) as [->|Hne]; [exact Hnew|].
    rewrite Hsame by exact Hne. apply Hfull. lia.
  - rewrite Hsame by lia. apply Hfree. lia.
Qed.

Lemma open_all_fills names : forall k s,
  fs_searchpaths s <> [] ->
  filled_upto k s -> 0 <= k ->
  k + Z.of_nat (length names) <= MAX_FILE_HANDLES - 1 ->
  Forall (fun n => is_Some (disk (sys s) !! sv_ospath (fs_gamedir s) (fs_homepath s) n)) names ->
  exists s', open_all names s = Ret (seqZ (k + 1) (Z.of_nat (length names))) s'
    /\ filled_upto (k + Z.of_nat (length names)) s'
    /\ fs_searchpaths s' <> [].
Proof.
  induction names as [|n names IH]; intros k s Hinit Hfill Hk Hcap Hfiles.
  - exists s. cbn. rewrite Z.add_0_r. auto.
  - apply Forall_cons in Hfiles as [[c Hc] Hrest].
    cbn [length] in Hcap.
    destruct (FS_SV_FOpenFileRead_hit k s n c Hinit Hfill ltac:(lia) Hc)
      as (s1 & calls & Hopen & Hnew & Hsame & Hsetup & Hdisk & _).
    destruct Hsetup as (Esp & Egd & Ehome & _).
    destruct (IH (k + 1) s1) as (s' & Hall & Hfill' & Hinit').
    + now rewrite Esp.
    + eapply filled_upto_step; eauto.
    + lia.
    + lia.
    + rewrite Hdisk, Egd, Ehome. exact Hrest.
    + exists s'. split; [|split; [|exact Hinit']].
      * cbn [open_all]. unfold bind at 1. rewrite Hopen.
        unfold bind at 1. rewrite Hall. cbn.
        rewrite (seqZ_cons (k + 1)) by lia.
        do 3 f_equal; lia.
      * replace (k + Z.of_nat (length (n :: names))) with (k + 1 + Z.of_nat (length names))
          by (cbn [length]; lia).
        exact Hfill'.
Qed.

(** C3. The pool has [MAX_FILE_HANDLES - 1] handles, slot 0 being never
    handed out. From a table with no handle in use, opening that many
    existing files succeeds, with the handles [1], [2], ... in order, and
    the open after them leaves through [Com_Error] in
    [FS_HandleForFile] (its code is [ERR_DROP]). *)
Theorem handle_pool_exhaustion (names : list string) (extra : string) (s : FS) :
  fs_searchpaths s <> [] ->
  filled_upto 0 s ->
  Z.of_nat (length names) = MAX_FILE_HANDLES - 1 ->
  Forall (fun n => is_Some (disk (sys s) !! sv_ospath (fs_gamedir s) (fs_homepath s) n)) names ->
  exists s',
    open_all names s = Ret (seqZ 1 (MAX_FILE_HANDLES - 1)) s'
    /\ FS_SV_FOpenFileRead extra s' = Abort ERR_DROP "FS_HandleForFile: none free" s'.
Proof.
  intros Hinit Hfill Hlen Hfiles.
  destruct (open_all_fills names 0 s Hinit Hfill ltac:(lia) ltac:(lia) Hfiles)
    as (s' & Hall & Hfill' & Hinit').
  exists s'. split.
  - rewrite Hall, Hlen. reflexivity.
  - unfold FS_SV_FOpenFileRead. unfold bind at 1. unfold gets at 1.
    destruct (fs_searchpaths s') eqn:E; [contradiction|].
    unfold bind at 1. unfold ret at 1. unfold bind at 1.
    rewrite FS_HandleForFile_exhausted; [reflexivity|].
    rewrite Z.add_0_l, Hlen in Hfill'. exact Hfill'.
Qed.

End HandleTable.

Lemma handle_pool_exhaustion_witness :
  exists s',
    open_all (H := tiny_build) ["a.dat"; "b.dat"] two_saves_fs = Ret [1; 2] s'
    /\ FS_SV_FOpenFileRead (H := tiny_build) "c.dat" s'
       = Abort ERR_DROP "FS_HandleForFile: none free" s'.
Proof.
  apply (handle_pool_exhaustion (H := tiny_build) ["a.dat"; "b.dat"] "c.dat" two_saves_fs).
  - discriminate.
  - split; [intros i Hi; lia|intros i _; reflexivity].
  - reflexivity.
  - repeat constructor; eexists; vm_compute; reflexivity.
Defined.

Lemma FS_FileForHandle_off_by_one_witness :
  FS_FileForHandle (H := unix_build) 64 past_table_fs = Ret 77 past_table_fs.
Proof.
  apply (FS_FileForHandle_off_by_one (H := unix_build) past_table_fs).
  - cbn. lia.
  - discriminate.
Defined.

(** The handles next to it: 65 fails the range test, and 63, the last
    slot of the table, is empty. *)
Example FS_FileForHandle_neighbours :
  FS_FileForHandle (H := unix_build) 65 past_table_fs
  = Abort ERR_DROP ("FS_FileForHandle: out of range %i" +:+ CStr.nl) past_table_fs
  /\ FS_FileForHandle (H := unix_build) 63 past_table_fs
     = Abort ERR_DROP "FS_FileForHandle: NULL" past_table_fs.
Proof. split; reflexivity. Qed.

(** ** Server-local paths *)

Section ServerPaths.

Context `{Platform}.

Lemma sv_ospath_fits gd base filename :
  filename <> EmptyString ->
  CStr.strlen base + CStr.strlen filename + 2 < MAX_OSPATH ->
  sv_ospath gd base filename = sv_target base filename.
Proof.
  intros Hne Hfit. unfold sv_ospath, sv_target, Com_sprintf.
  destruct filename as [|c0 f0] eqn:Ef; [contradiction|]. rewrite <- Ef in *. clear Ef c0 f0 Hne.
  assert (0 <= CStr.strlen base) by (unfold CStr.strlen; lia).
  replace ("/" +:+ filename +:+ "/" +:+ EmptyString) with (("/" +:+ filename) +:+ "/").
  2:{ rewrite app_assoc_string. reflexivity. }
  rewrite (bounded_fits MAX_OSPATH (("/" +:+ filename) +:+ "/")).
  2:{ rewrite !strlen_app. unfold CStr.strlen at 1 3. simpl. lia. }
  unfold FS_ReplaceSeparators. rewrite map_chars_app.
  rewrite <- app_assoc_string.
  rewrite bounded_fits.
  2:{ rewrite !strlen_app. unfold CStr.strlen at 2 3. rewrite !map_chars_length.
      rewrite length_app_string. simpl. unfold CStr.strlen in *. lia. }
  simpl CStr.map_chars at 2.
  apply chop_snoc.
Qed.

Lemma has_substring_map f needle s :
  has_substring needle s -> CStr.map_chars f needle = needle ->
  has_substring needle (CStr.map_chars f s).
Proof.
  intros (a & b & ->) Hn. exists (CStr.map_chars f a), (CStr.map_chars f b).
  now rewrite !map_chars_app, Hn.
Qed.

Lemma sv_target_keeps_dotdot base filename :
  has_substring ".." filename -> has_substring ".." (sv_target base filename).
Proof.
  intros (a & b & ->). unfold sv_target, FS_ReplaceSeparators.
  match goal with |- context [CStr.map_chars ?g _] => set (f := g) end.
  exists (base +:+ CStr.map_chars f ("/" +:+ a)), (CStr.map_chars f b).
  rewrite !map_chars_app. change (CStr.map_chars f "..") with "..".
  rewrite !app_assoc_string. reflexivity.
Qed.

Lemma FS_SV_HomeRemove_spec filename s c :
  filename <> EmptyString ->
  CStr.strlen (fs_homepath s) + CStr.strlen filename + 2 < MAX_OSPATH ->
  disk (sys s) !! sv_target (fs_homepath s) filename = Some c ->
  exists s',
    FS_SV_HomeRemove filename s = Ret true s'
    /\ io (sys s') = io (sys s) ++ [sys_remove (sv_target (fs_homepath s) filename)]
    /\ disk (sys s') = delete (sv_target (fs_homepath s) filename) (disk (sys s)).
Proof.
  intros Hne Hfit Hc.
  pose proof (sv_ospath_fits (fs_gamedir s) (fs_homepath s) filename Hne Hfit) as Hp.
  unfold sv_ospath in Hp.
  unfold FS_SV_HomeRemove, FS_BuildOSPath, Libc.remove, Libc.called, Libc.upd,
    bind, ret, gets, modify.
  rewrite Hp. cbn. rewrite Hc. cbn. eexists. split; [reflexivity|]. cbn. auto.
Qed.

(** C10. The server-local operations check nothing in a file name. For
    a name in which [..] occurs, the OS path is the home root followed by
    the name, [..] included; [FS_SV_FOpenFileRead] hands that path to
    [fopen] and returns a handle on the file, and [FS_SV_HomeRemove]
    hands it to [remove], which deletes the file. *)
Theorem FS_SV_paths_unsanitized filename s k c :
  has_substring ".." filename ->
  filename <> EmptyString ->
  CStr.strlen (fs_homepath s) + CStr.strlen filename + 2 < MAX_OSPATH ->
  fs_searchpaths s <> [] ->
  filled_upto k s -> 0 <= k < MAX_FILE_HANDLES - 1 ->
  disk (sys s) !! sv_target (fs_homepath s) filename = Some c ->
  let ospath := sv_target (fs_homepath s) filename in
  has_substring ".." ospath
  /\ (exists s' calls,
        FS_SV_FOpenFileRead filename s = Ret (Z.of_nat (length c), k + 1) s'
        /\ io (sys s') = io (sys s) ++ sys_fopen ospath mode_rb :: calls)
  /\ (exists s',
        FS_SV_HomeRemove filename s = Ret true s'
        /\ io (sys s') = io (sys s) ++ [sys_remove ospath]
        /\ disk (sys s') = delete ospath (disk (sys s))).
Proof.
  intros Hdots Hne Hfit Hinit Hfill Hk Hc ospath. subst ospath.
  split; [now apply sv_target_keeps_dotdot|]. split.
  - pose proof (sv_ospath_fits (fs_gamedir s) (fs_homepath s) filename Hne Hfit) as Hp.
    rewrite <- Hp in Hc.
    destruct (FS_SV_FOpenFileRead_hit k s filename c Hinit Hfill Hk Hc)
      as (s' & calls & Hopen & _ & _ & _ & _ & Hio).
    exists s', calls. rewrite <- Hp. auto.
  - now apply (FS_SV_HomeRemove_spec filename s c).
Qed.

End ServerPaths.

Lemma FS_SV_paths_unsanitized_witness :
  has_substring ".." "/home/user/../admin/secret.dat"
  /\ (exists s' calls,
        FS_SV_FOpenFileRead (H := unix_build) "../admin/secret.dat" outside_fs = Ret (1, 1) s'
        /\ io (sys s') = sys_fopen "/home/user/../admin/secret.dat" mode_rb :: calls)
  /\ (exists s',
        FS_SV_HomeRemove (H := unix_build) "../admin/secret.dat" outside_fs = Ret true s'
        /\ io (sys s') = [sys_remove "/home/user/../admin/secret.dat"]
        /\ disk (sys s') = delete "/home/user/../admin/secret.dat" (disk (sys outside_fs))).
Proof.
  apply (FS_SV_paths_unsanitized (H := unix_build) "../admin/secret.dat" outside_fs 0 [x2a]).
  - exists EmptyString, "/admin/secret.dat". reflexivity.
  - discriminate.
  - reflexivity.
  - discriminate.
  - split; [intros i Hi; lia|intros i _; reflexivity].
  - split; reflexivity.
  - reflexivity.
Defined.

(** ** Pack identity *)

Lemma cmp_char_zero (c1 c2 : ascii) :
  cmp_char c1 c2 = 0 <-> CStr.upper c1 = CStr.upper c2.
Proof.
  unfold cmp_char.
  destruct (Nat.eqb_spec (nat_of_ascii (CStr.upper c1)) (nat_of_ascii (CStr.upper c2))) as [E|E].
  - split; [intros _|reflexivity].
    rewrite <- (ascii_nat_embedding (CStr.upper c1)), E. apply ascii_nat_embedding.
  - split; [destruct (_ <? _)%nat; discriminate|intros E'; rewrite E' in E; contradiction].
Qed.

Lemma Q_stricmp_zero (a b : string) : Q_stricmp a b = 0 <-> same_nocase a b.
Proof.
  unfold same_nocase. revert b; induction a as [|x a IH]; intros [|y b]; simpl.
  - tauto.
  - split; discriminate.
  - split; discriminate.
  - destruct (Z.eqb_spec (cmp_char x y) 0) as [E|E].
    + apply cmp_char_zero in E. rewrite IH, E. split; [intros ->; reflexivity|intros Hx; now injection Hx].
    + split; [contradiction|]. intros [= E' _]. apply cmp_char_zero in E'. contradiction.
Qed.

Lemma stricmpn_zero (p s : string) :
  stricmpn p s (String.length p) = 0 <-> nocase_prefix p s.
Proof.
  unfold nocase_prefix, same_nocase.
  revert s; induction p as [|x p IH]; intros s; simpl.
  - split; [intros _; exists EmptyString, s; split; reflexivity|reflexivity].
  - destruct s as [|y s].
    + split; [discriminate|]. intros (a & b & Hab & Hp).
      destruct a; simpl in Hp; [discriminate|]. discriminate.
    + destruct (Z.eqb_spec (cmp_char x y) 0) as [E|E].
      * apply cmp_char_zero in E. rewrite IH. split.
        -- intros (a & b & -> & Hp). exists (String y a), b. split; [reflexivity|].
           simpl. now rewrite E, Hp.
        -- intros (a & b & Hab & Hp). destruct a as [|z a]; simpl in Hp; [discriminate|].
           rewrite app_cons in Hab. injection Hab as -> ->. injection Hp as _ Hp.
           exists a, b. auto.
      * split; [contradiction|]. intros (a & b & Hab & Hp).
        destruct a as [|z a]; simpl in Hp; [discriminate|].
        rewrite app_cons in Hab. injection Hab as -> ->. injection Hp as Hxy _.
        apply cmp_char_zero in Hxy. contradiction.
Qed.

Section VerifyPak.

Context `{Platform}.

Lemma pak_teststring_fits (p : pack_t) :
  pak_fits p ->
  pak_teststring p = pakGamename p +:+ "/" +:+ pakBasename p +:+ ".iwd".
Proof.
  unfold pak_fits, pak_teststring, Q_strcat, Q_strncpyz. intros Hfit.
  assert (0 <= CStr.strlen (pakGamename p) /\ 0 <= CStr.strlen (pakBasename p)) as [? ?]
    by (unfold CStr.strlen; lia).
  rewrite (bounded_fits _ (pakGamename p)) by lia.
  rewrite (bounded_fits _ "/") by (change (CStr.strlen "/") with 1; lia).
  rewrite (bounded_fits _ (pakBasename p))
    by (rewrite strlen_app; change (CStr.strlen "/") with 1; lia).
  rewrite (bounded_fits _ ".iwd")
    by (rewrite !strlen_app; change (CStr.strlen "/") with 1;
        change (CStr.strlen ".iwd") with 4; lia).
  rewrite !app_assoc_string. reflexivity.
Qed.

Lemma verify_search_spec (search : list searchpath_t) (pak : string) :
  verify_search search pak = true
  <-> exists p, In (sp_pack p) search /\ Q_stricmp (pak_teststring p) pak = 0.
Proof.
  induction search as [|[p|d] next IH]; simpl.
  - split; [discriminate|intros (p & [] & _)].
  - destruct (Z.eqb_spec (Q_stricmp (pak_teststring p) pak) 0) as [E|E].
    + split; [intros _; exists p; auto|reflexivity].
    + rewrite IH. split.
      * intros (q & Hq & Hm). exists q. auto.
      * intros (q & [[= <-]|Hq] & Hm); [contradiction|exists q; auto].
  - rewrite IH. split.
    + intros (q & Hq & Hm). exists q. auto.
    + intros (q & [[=]|Hq] & Hm). exists q; auto.
Qed.

(** C2, as the code has it. [FS_VerifyPak] answers [qtrue] exactly when
    the name is, up to the case of letters, the game name, a slash, the
    base name and [.iwd] of a pack in the search path, or is up to case
    the mod pack [fs_game/mod.ff], or begins up to case with [usermaps/]
    and has neither [..] nor [;] in it. Names are compared with
    [Q_stricmp] and [Q_stricmpn], which ignore the case of letters. The
    names are short enough for [teststring] not to be cut. *)
Theorem FS_VerifyPak_accepts (pak : string) (s : FS) :
  (forall p, In (sp_pack p) (fs_searchpaths s) -> pak_fits p) ->
  CStr.strlen (fs_game s) + 7 < BIG_INFO_STRING ->
  exists b,
    FS_VerifyPak pak s = Ret b s
    /\ (b = true <->
          (exists p, In (sp_pack p) (fs_searchpaths s)
                     /\ same_nocase (pakGamename p +:+ "/" +:+ pakBasename p +:+ ".iwd") pak)
          \/ same_nocase (fs_game s +:+ "/mod.ff") pak
          \/ (nocase_prefix "usermaps/" pak
              /\ ~ has_substring ".." pak /\ ~ has_substring ";" pak)).
Proof.
  intros Hpaks Hgame.
  assert (Com_sprintf BIG_INFO_STRING (fs_game s +:+ "/mod.ff") = fs_game s +:+ "/mod.ff") as Hmod.
  { apply bounded_fits. rewrite strlen_app. change (CStr.strlen "/mod.ff") with 7. lia. }
  assert (verify_search (fs_searchpaths s) pak = true
          <-> exists p, In (sp_pack p) (fs_searchpaths s)
                /\ same_nocase (pakGamename p +:+ "/" +:+ pakBasename p +:+ ".iwd") pak) as Hs.
  { rewrite verify_search_spec. split; intros (p & Hp & Hm); exists p; split; auto.
    - rewrite <- pak_teststring_fits by auto. now apply Q_stricmp_zero.
    - apply Q_stricmp_zero. rewrite pak_teststring_fits by auto. exact Hm. }
  unfold FS_VerifyPak, bind, gets, ret.
  destruct (verify_search (fs_searchpaths s) pak) eqn:E1; [|rewrite Hmod].
  { eexists; split; [reflexivity|]. split; [intros _; left; now apply Hs|reflexivity]. }
  assert (~ exists p, In (sp_pack p) (fs_searchpaths s)
            /\ same_nocase (pakGamename p +:+ "/" +:+ pakBasename p +:+ ".iwd") pak) as N1.
  { intros Hx. apply Hs in Hx. discriminate. }
  destruct (Z.eqb_spec (Q_stricmp (fs_game s +:+ "/mod.ff") pak) 0) as [E2|E2].
  { eexists; split; [reflexivity|]. split; [intros _; right; left; now apply Q_stricmp_zero|reflexivity]. }
  assert (~ same_nocase (fs_game s +:+ "/mod.ff") pak) as N2.
  { intros Hx. apply Q_stricmp_zero in Hx. contradiction. }
  destruct (Z.eqb_spec (Q_stricmpn "usermaps/" pak 9) 0) as [E3|E3].
  - apply (stricmpn_zero "usermaps/" pak) in E3.
    destruct (CStr.strstr pak "..") eqn:D1; simpl.
    { eexists; split; [reflexivity|]. split; [discriminate|].
      intros [?|[?|(_ & N & _)]]; try contradiction.
      exfalso. apply N. now apply strstr_spec. }
    destruct (CStr.strstr pak ";") eqn:D2; simpl.
    { eexists; split; [reflexivity|]. split; [discriminate|].
      intros [?|[?|(_ & _ & N)]]; try contradiction.
      exfalso. apply N. now apply strstr_spec. }
    eexists; split; [reflexivity|]. split; [intros _|reflexivity].
    right; right. split; [exact E3|].
    split; intros Hx; apply strstr_spec in Hx; congruence.
  - eexists; split; [reflexivity|]. split; [discriminate|].
    intros [?|[?|(Hp & _)]]; try contradiction.
    apply (stricmpn_zero "usermaps/" pak) in Hp. contradiction.
Qed.

End VerifyPak.

Lemma FS_VerifyPak_accepts_witness :
  exists b,
    FS_VerifyPak (H := unix_build) "MAIN/IW_00.IWD" mounted_fs = Ret b mounted_fs
    /\ (b = true <->
          (exists p, In (sp_pack p) (fs_searchpaths mounted_fs)
                     /\ same_nocase (pakGamename p +:+ "/" +:+ pakBasename p +:+ ".iwd")
                                    "MAIN/IW_00.IWD")
          \/ same_nocase (fs_game mounted_fs +:+ "/mod.ff") "MAIN/IW_00.IWD"
          \/ (nocase_prefix "usermaps/" "MAIN/IW_00.IWD"
              /\ ~ has_substring ".." "MAIN/IW_00.IWD" /\ ~ has_substring ";" "MAIN/IW_00.IWD")).
Proof.
  apply (FS_VerifyPak_accepts (H := unix_build) "MAIN/IW_00.IWD" mounted_fs).
  - intros p [[= <-]|[[=]|[]]]. reflexivity.
  - reflexivity.
Defined.

(** The name of a mounted pack written in capitals is accepted, while no
    accepted form equals it letter for letter. *)
Lemma FS_VerifyPak_ignores_case :
  FS_VerifyPak (H := unix_build) "MAIN/IW_00.IWD" mounted_fs = Ret true mounted_fs
  /\ verify_exact mounted_fs "MAIN/IW_00.IWD" = false.
Proof. split; reflexivity. Qed.

(** ** Partial transfers *)

Lemma fread_spec (block : Z) (fp : ptr) (s : FS) (st : FILE) (c : list byte) :
  streams (sys s) !! fp = Some st ->
  disk (sys s) !! f_path st = Some c ->
  let k := next_count s (Libc.to_size_t block) (Z.max 0 (Z.of_nat (length c) - f_pos st)) in
  Libc.fread block fp s
  = Ret (k, if k <=? 0 then [] else take (Z.to_nat k) (drop (Z.to_nat (f_pos st)) c))
        (after_transfer (sys_fread fp block) fp st (if k <=? 0 then f_pos st else f_pos st + k)
           (disk (sys s)) s).
Proof.
  intros Hst Hc k. subst k. unfold next_count, after_transfer.
  destruct s as [sp0 t gd home base game dbg ls con [dk dr nw sm zp np sc tr]].
  cbn in Hst, Hc.
  unfold Libc.fread, Libc.stream, Libc.contents, Libc.transfer, Libc.set_pos, Libc.called, Libc.upd,
    bind, ret, gets, modify, undefined.
  cbn. rewrite Hst. cbn. rewrite Hc. cbn.
  destruct sc as [|k sc]; cbn.
  all: destruct (_ <=? 0) eqn:E; unfold set_sys, Libc.set_streams, Libc.set_script; cbn; [|reflexivity].
  all: rewrite (insert_id sm fp); [reflexivity|]; destruct st; exact Hst.
Qed.

Lemma only_sys_refl s : only_sys s s.
Proof. destruct s; reflexivity. Qed.

Lemma only_sys_trans s1 s2 s3 : only_sys s1 s2 -> only_sys s2 s3 -> only_sys s1 s3.
Proof. unfold only_sys. intros H12 H23. rewrite H23 at 1. rewrite H12. reflexivity. Qed.

Lemma only_sys_after_transfer call fp st pos d s :
  only_sys s (after_transfer call fp st pos d s).
Proof. reflexivity. Qed.

Lemma take_chunk (pos k t : Z) (c : list byte) :
  0 <= pos -> 0 <= k -> 0 <= t ->
  take (Z.to_nat k) (drop (Z.to_nat pos) c) ++ take (Z.to_nat t) (drop (Z.to_nat (pos + k)) c)
  = take (Z.to_nat (k + t)) (drop (Z.to_nat pos) c).
Proof.
  intros Hp Hk Ht. rewrite !Z2Nat.inj_add by lia.
  rewrite <- drop_drop. apply take_take_drop.
Qed.

Lemma total_nonneg pre : Forall (fun k => 0 <= k) pre -> 0 <= total pre.
Proof. induction 1; simpl; lia. Qed.

Lemma stalls_nonneg pre : 0 <= stalls pre.
Proof. induction pre as [|k pre IH]; simpl; [lia|]. destruct (k =? 0); lia. Qed.

Lemma to_size_t_small n : 0 <= n < 2 ^ 32 -> Libc.to_size_t n = n.
Proof. intros Hn. unfold Libc.to_size_t. apply Z.mod_small. exact Hn. Qed.

Section Reading.

Context `{Platform}.

Lemma FS_Read_loop_prefix pre : forall n len rem tries buf fp s p m pos c rest,
  reading s fp p m pos c (pre ++ rest) ->
  Forall (fun k => 0 <= k) pre -> 0 <= tries -> stalls pre + tries <= 1 ->
  total pre < rem -> 0 <= pos -> pos + rem <= Z.of_nat (length c) -> rem < 2 ^ 32 ->
  exists s',
    FS_Read_loop (length pre + n) len rem tries buf fp s
    = FS_Read_loop n len (rem - total pre) (tries + stalls pre)
        (buf ++ take (Z.to_nat (total pre)) (drop (Z.to_nat pos) c)) fp s'
    /\ reading s' fp p m (pos + total pre) c rest
    /\ only_sys s s'.
Proof.
  induction pre as [|k pre IH]; intros n len rem tries buf fp s p m pos c rest
    Hrd Hnn Htries Hst Htot Hpos Hlen Hrem.
  - exists s. cbn. rewrite Z.sub_0_r, !Z.add_0_r, app_nil_r.
    split; [reflexivity|]. split; [exact Hrd|apply only_sys_refl].
  - apply Forall_cons in Hnn as [Hk Hnn].
    pose proof (total_nonneg pre Hnn) as Htp. pose proof (stalls_nonneg pre) as Hsp.
    cbn [total stalls] in *.
    destruct Hrd as (Hfp & Hc & Hsc).
    cbn [length Nat.add FS_Read_loop].
    destruct (Z.eqb_spec rem 0) as [?|_]; [lia|].
    unfold bind at 1.
    rewrite (fread_spec rem fp s _ c Hfp Hc). cbn [f_pos f_path f_mode].
    unfold next_count. rewrite Hsc. cbn [app].
    destruct (Z.ltb_spec k 0) as [?|_]; [lia|].
    rewrite to_size_t_small by lia.
    replace (k `min` (rem `min` (0 `max` (Z.of_nat (length c) - pos)))) with k by lia.
    set (s1 := after_transfer _ _ _ _ _ s).
    destruct (Z.eqb_spec k 0) as [->|Hk0].
    + (* a stall: tolerated, since none was seen before *)
      cbn [Z.leb Z.compare].
      assert (tries = 0) as -> by lia. cbn [Z.eqb negb andb].
      destruct (IH n len rem 1 (buf ++ []) fp s1 p m pos c rest) as (s' & Heq & Hrd' & Hos); try lia.
      { subst s1. unfold reading, after_transfer. cbn. rewrite lookup_insert_eq, Hsc. auto. }
      { exact Hnn. }
      exists s'. rewrite Z.sub_0_r, Heq, !Z.add_0_l, app_nil_r.
      split; [reflexivity|]. split; [exact Hrd'|].
      eapply only_sys_trans; [apply only_sys_after_transfer|exact Hos].
    + destruct (Z.leb_spec k 0) as [?|_]; [lia|].
      cbn [andb].
      destruct (Z.eqb_spec k (-1)) as [?|_]; [lia|].
      destruct (IH n len (rem - k) tries
                  (buf ++ take (Z.to_nat k) (drop (Z.to_nat pos) c)) fp s1 p m (pos + k) c rest)
        as (s' & Heq & Hrd' & Hos); try lia.
      { subst s1. unfold reading, after_transfer. cbn. rewrite lookup_insert_eq, Hsc. auto. }
      { exact Hnn. }
      exists s'. rewrite Heq.
      rewrite <- app_assoc, take_chunk by lia.
      split; [f_equal; lia|].
      split; [replace (pos + (k + total pre)) with (pos + k + total pre) by lia; exact Hrd'|].
      eapply only_sys_trans; [apply only_sys_after_transfer|exact Hos].
Qed.

Lemma reading_after (call : syscall) s fp p m pos pos' c sc :
  reading s fp p m pos c sc ->
  reading (after_transfer call fp (mkFILE p m pos) pos' (disk (sys s)) s) fp p m pos' c (tl sc).
Proof.
  intros (Hfp & Hc & Hsc). unfold reading, after_transfer. cbn.
  rewrite lookup_insert_eq, Hsc. auto.
Qed.

Lemma FS_Read_loop_completes fuel : forall len rem tries buf fp s p m pos c sc,
  reading s fp p m pos c sc ->
  Forall (fun k => 0 <= k) sc -> 0 <= tries -> stalls sc + tries <= 1 ->
  0 <= rem -> 0 <= pos -> pos + rem <= Z.of_nat (length c) -> rem < 2 ^ 32 ->
  (Z.to_nat rem + Z.to_nat (1 - tries) + 1 <= fuel)%nat ->
  exists s',
    FS_Read_loop fuel len rem tries buf fp s
    = Ret (len, buf ++ take (Z.to_nat rem) (drop (Z.to_nat pos) c)) s'
    /\ only_sys s s'
    /\ streams (sys s') !! fp = Some (mkFILE p m (pos + rem))
    /\ disk (sys s') = disk (sys s).
Proof.
  induction fuel as [|fuel IH]; intros len rem tries buf fp s p m pos c sc
    Hrd Hnn Htries Hst Hrem0 Hpos Hlen Hrem Hfuel; [lia|].
  cbn [FS_Read_loop].
  destruct (Z.eqb_spec rem 0) as [->|Hne].
  { exists s. cbn. rewrite app_nil_r, Z.add_0_r. destruct Hrd as (Hfp & _ & _).
    split; [reflexivity|]. split; [apply only_sys_refl|]. auto. }
  pose proof Hrd as (Hfp & Hc & Hsc).
  unfold bind at 1.
  rewrite (fread_spec rem fp s _ c Hfp Hc). cbn [f_pos f_path f_mode].
  rewrite to_size_t_small by lia.
  set (k := next_count s rem _).
  assert (0 <= k <= rem /\ (k = 0 -> exists sc', sc = 0 :: sc')) as (Hk & Hk0).
  { subst k. unfold next_count. rewrite Hsc. destruct sc as [|k sc']; [split; [lia|intros; lia]|].
    apply Forall_cons in Hnn as [Hk _].
    destruct (Z.ltb_spec k 0) as [?|_]; [lia|]. split; [lia|].
    intros Hz. exists sc'. f_equal. lia. }
  assert (Forall (fun k => 0 <= k) (tl sc)) as Hnn' by (destruct sc; [constructor|now inversion Hnn]).
  pose proof (stalls_nonneg (tl sc)) as Hsp.
  destruct (Z.eqb_spec k 0) as [Ez|Ez].
  - destruct (Hk0 Ez) as (sc' & ->). cbn [stalls tl] in *. cbn [Z.eqb] in Hst.
    rewrite Ez. cbn [Z.leb Z.compare].
    assert (tries = 0) as -> by lia. cbn [Z.eqb negb andb].
    match goal with |- context [after_transfer ?call _ _ _ _ _] =>
      pose proof (reading_after call s fp p m pos pos c _ Hrd) as Hrd1 end.
    cbn [tl] in Hrd1.
    edestruct (IH len (rem - 0) 1 (buf ++ []) fp _ p m pos c sc' Hrd1)
      as (s' & Heq & Hos & Hfp' & Hd'); try lia; [exact Hnn'|].
    exists s'. rewrite Heq, app_nil_r, Z.sub_0_r.
    split; [reflexivity|].
    split; [eapply only_sys_trans; [apply only_sys_after_transfer|exact Hos]|].
    rewrite Z.sub_0_r in Hfp'. split; [exact Hfp'|exact Hd'].
  - destruct (Z.leb_spec k 0) as [?|_]; [lia|]. cbn [andb].
    destruct (Z.eqb_spec k (-1)) as [?|_]; [lia|].
    match goal with |- context [after_transfer ?call _ _ _ _ _] =>
      pose proof (reading_after call s fp p m pos (pos + k) c _ Hrd) as Hrd1 end.
    edestruct (IH len (rem - k) tries (buf ++ take (Z.to_nat k) (drop (Z.to_nat pos) c))
                 fp _ p m (pos + k) c (tl sc) Hrd1)
      as (s' & Heq & Hos & Hfp' & Hd'); try lia; [exact Hnn'| |].
    { destruct sc as [|k0 sc']; cbn [tl stalls] in *; [lia|]. destruct (k0 =? 0); lia. }
    exists s'. rewrite Heq, <- app_assoc, take_chunk by lia.
    replace (k + (rem - k)) with rem by lia.
    split; [reflexivity|].
    split; [eapply only_sys_trans; [apply only_sys_after_transfer|exact Hos]|].
    replace (pos + rem) with (pos + k + (rem - k)) by lia.
    split; [exact Hfp'|exact Hd'].
Qed.


Lemma length_le_total pre :
  Forall (fun k => 0 <= k) pre -> Z.of_nat (length pre) <= total pre + stalls pre.
Proof.
  induction 1 as [|k pre Hk _ IH]; cbn [length total stalls]; [lia|].
  destruct (Z.eqb_spec k 0); lia.
Qed.

Lemma FS_Read_loop_second_zero n len rem buf fp s p m pos c rest :
  reading s fp p m pos c (0 :: rest) -> rem <> 0 ->
  exists s', FS_Read_loop (S n) len rem 1 buf fp s = Ret (len - rem, buf) s'.
Proof.
  intros (Hfp & Hc & Hsc) Hrem. cbn [FS_Read_loop].
  destruct (Z.eqb_spec rem 0) as [?|_]; [contradiction|].
  unfold bind at 1. rewrite (fread_spec rem fp s _ c Hfp Hc).
  unfold next_count. rewrite Hsc. cbn [Z.ltb Z.compare].
  assert (0 <= Libc.to_size_t rem)
    by (unfold Libc.to_size_t; apply Z.mod_pos_bound; lia).
  rewrite Z.min_l by lia. cbn. eauto.
Qed.

Lemma FS_Read_loop_error n len rem tries buf fp s p m pos c k rest :
  reading s fp p m pos c (k :: rest) -> k < 0 -> rem <> 0 ->
  exists s', FS_Read_loop (S n) len rem tries buf fp s
             = Abort ERR_FATAL "FS_Read: -1 bytes read" s'.
Proof.
  intros (Hfp & Hc & Hsc) Hk Hrem. cbn [FS_Read_loop].
  destruct (Z.eqb_spec rem 0) as [?|_]; [contradiction|].
  unfold bind at 1. rewrite (fread_spec rem fp s _ c Hfp Hc).
  unfold next_count. rewrite Hsc.
  destruct (Z.ltb_spec k 0) as [_|?]; [|lia]. cbn. eauto.
Qed.

Lemma FS_Read_plain len f s :
  fs_searchpaths s <> [] -> f <> 0 -> zipFile (fsh s !!! f) = false ->
  FS_Read len f s
  = FS_Read_loop (Z.to_nat len + 3) len len 0 [] (handleFiles_file (fsh s !!! f)) s.
Proof.
  intros Hinit Hf Hz. unfold FS_Read.
  unfold bind at 1, gets at 1.
  destruct (fs_searchpaths s); [contradiction|].
  unfold bind at 1, ret at 1.
  destruct (Z.eqb_spec f 0) as [?|_]; [contradiction|].
  unfold bind at 1, slot, gets. rewrite Hz. reflexivity.
Qed.

(** A read that the native reads complete. *)
Lemma FS_Read_full (f : fileHandle_t) (len : Z) (s : FS)
    (p : string) (m : fmode) (pos : Z) (c : list byte) :
  fs_searchpaths s <> [] -> f <> 0 -> zipFile (fsh s !!! f) = false ->
  reading s (handleFiles_file (fsh s !!! f)) p m pos c (script (sys s)) ->
  0 <= pos -> 0 <= len < 2 ^ 32 -> pos + len <= Z.of_nat (length c) ->
  Forall (fun k => 0 <= k) (script (sys s)) -> stalls (script (sys s)) <= 1 ->
  exists s',
    FS_Read len f s = Ret (len, take (Z.to_nat len) (drop (Z.to_nat pos) c)) s'
    /\ only_sys s s'
    /\ streams (sys s') !! handleFiles_file (fsh s !!! f) = Some (mkFILE p m (pos + len))
    /\ disk (sys s') = disk (sys s).
Proof.
  intros Hinit Hf Hz Hrd Hpos Hlen Hfit Hnn Hst.
  rewrite (FS_Read_plain len f s Hinit Hf Hz).
  destruct (FS_Read_loop_completes (Z.to_nat len + 3) len len 0 []
              (handleFiles_file (fsh s !!! f)) s p m pos c (script (sys s)))
    as (s' & Heq & Hrest); try lia; [exact Hrd|exact Hnn|].
  exists s'. split; [exact Heq|exact Hrest].
Qed.

(** C4. [FS_Read] on a plain stream, with enough bytes left in the file
    for the length asked. The counts that the native reads answer are
    given by the script, then the reads are full. (1) If no count is
    negative and at most one is zero, the full length is returned with
    the bytes of the file: one zero-byte read is retried. (2) At the
    second zero-byte read the bytes obtained so far are returned as a
    short count. (3) A native count of -1 leaves through
    [Com_Error (ERR_FATAL)]. *)
Theorem FS_Read_partial_transfers (f : fileHandle_t) (len : Z) (s : FS)
    (p : string) (m : fmode) (pos : Z) (c : list byte) :
  fs_searchpaths s <> [] -> f <> 0 -> zipFile (fsh s !!! f) = false ->
  streams (sys s) !! handleFiles_file (fsh s !!! f) = Some (mkFILE p m pos) ->
  disk (sys s) !! p = Some c ->
  0 <= pos -> 0 <= len < 2 ^ 32 -> pos + len <= Z.of_nat (length c) ->
  (Forall (fun k => 0 <= k) (script (sys s)) -> stalls (script (sys s)) <= 1 ->
   exists s', FS_Read len f s
              = Ret (len, take (Z.to_nat len) (drop (Z.to_nat pos) c)) s')
  /\ (forall pre rest,
        script (sys s) = pre ++ 0 :: rest ->
        Forall (fun k => 0 <= k) pre -> stalls pre = 1 -> total pre < len ->
        exists s', FS_Read len f s
                   = Ret (total pre, take (Z.to_nat (total pre)) (drop (Z.to_nat pos) c)) s')
  /\ (forall pre k rest,
        script (sys s) = pre ++ k :: rest -> k < 0 ->
        Forall (fun k => 0 <= k) pre -> stalls pre <= 1 -> total pre < len ->
        exists s', FS_Read len f s = Abort ERR_FATAL "FS_Read: -1 bytes read" s').
Proof.
  intros Hinit Hf Hz Hfp Hc Hpos Hlen Hfit.
  rewrite (FS_Read_plain len f s Hinit Hf Hz).
  set (fp := handleFiles_file (fsh s !!! f)) in *.
  split; [|split].
  - intros Hnn Hst.
    destruct (FS_Read_loop_completes (Z.to_nat len + 3) len len 0 [] fp s p m pos c
                (script (sys s))) as (s' & Heq & _); try lia; [repeat split; auto|exact Hnn|].
    exists s'. exact Heq.
  - intros pre rest Hsc Hnn Hst Htot.
    pose proof (length_le_total pre Hnn) as Hl.
    destruct (FS_Read_loop_prefix pre (Z.to_nat len + 3 - length pre) len len 0 [] fp s
                p m pos c (0 :: rest)) as (s1 & Heq & Hrd & _); try lia;
      [repeat split; auto|exact Hnn|].
    replace (Z.to_nat len + 3)%nat with (length pre + (Z.to_nat len + 3 - length pre))%nat by lia.
    rewrite Heq.
    replace (Z.to_nat len + 3 - length pre)%nat
      with (S (Z.to_nat len + 2 - length pre)) by lia.
    rewrite Hst. change (0 + 1) with 1. cbn [app].
    destruct (FS_Read_loop_second_zero (Z.to_nat len + 2 - length pre) len (len - total pre)
                (take (Z.to_nat (total pre)) (drop (Z.to_nat pos) c)) fp s1 p m
                (pos + total pre) c rest Hrd) as (s' & Heq'); [lia|].
    exists s'. rewrite Heq'. do 2 f_equal. lia.
  - intros pre k rest Hsc Hk Hnn Hst Htot.
    pose proof (length_le_total pre Hnn) as Hl. pose proof (stalls_nonneg pre) as Hs0.
    destruct (FS_Read_loop_prefix pre (Z.to_nat len + 3 - length pre) len len 0 [] fp s
                p m pos c (k :: rest)) as (s1 & Heq & Hrd & _); try lia;
      [repeat split; auto|exact Hnn|].
    replace (Z.to_nat len + 3)%nat with (length pre + (Z.to_nat len + 3 - length pre))%nat by lia.
    rewrite Heq.
    replace (Z.to_nat len + 3 - length pre)%nat
      with (S (Z.to_nat len + 2 - length pre)) by lia.
    eapply FS_Read_loop_error; [exact Hrd|exact Hk|lia].
Qed.

End Reading.

Lemma FS_Read_partial_transfers_witness :
  (exists s', FS_Read 3 1 (reading_fs [2; 0]) = Ret (3, [x01; x02; x03]) s')
  /\ (exists s', FS_Read 3 1 (reading_fs [0; 2; 0; 1]) = Ret (2, [x01; x02]) s')
  /\ (exists s', FS_Read 3 1 (reading_fs [1; -1])
                 = Abort ERR_FATAL "FS_Read: -1 bytes read" s').
Proof.
  split; [|split].
  - refine (proj1 (FS_Read_partial_transfers 1 3 (reading_fs [2; 0])
                     "/home/user/save.dat" mode_rb 0 [x01; x02; x03] _ _ _ _ _ _ _ _) _ _);
      try reflexivity; try discriminate; try (cbn; lia).
    + repeat constructor; lia.
  - refine (proj1 (proj2 (FS_Read_partial_transfers 1 3 (reading_fs [0; 2; 0; 1])
                     "/home/user/save.dat" mode_rb 0 [x01; x02; x03] _ _ _ _ _ _ _ _))
              [0; 2] [1] _ _ _ _);
      try reflexivity; try discriminate; try (cbn; lia).
    + repeat constructor; lia.
  - refine (proj2 (proj2 (FS_Read_partial_transfers 1 3 (reading_fs [1; -1])
                     "/home/user/save.dat" mode_rb 0 [x01; x02; x03] _ _ _ _ _ _ _ _))
              [1] (-1) [] _ _ _ _ _);
      try reflexivity; try discriminate; try (cbn; lia).
    + repeat constructor; lia.
Defined.

Lemma wrote_refl s : wrote s s.
Proof.
  split; [apply only_sys_refl|]. exists []. rewrite app_nil_r. split; [reflexivity|constructor].
Qed.

Lemma wrote_trans s1 s2 s3 : wrote s1 s2 -> wrote s2 s3 -> wrote s1 s3.
Proof.
  intros [Ho1 (c1 & E1 & F1)] [Ho2 (c2 & E2 & F2)].
  split; [eapply only_sys_trans; eauto|].
  exists (c1 ++ c2). rewrite E2, E1, app_assoc. split; [reflexivity|].
  apply Forall_app. auto.
Qed.

Lemma fwrite_spec (d : list byte) (block : Z) (fp : ptr) (s : FS) (st : FILE) :
  streams (sys s) !! fp = Some st ->
  let c := default [] (disk (sys s) !! f_path st) in
  let k := next_count s (Libc.to_size_t block) (Libc.to_size_t block) in
  let wpos := match f_mode st with mode_ab => Z.of_nat (length c) | _ => f_pos st end in
  Libc.fwrite d block fp s
  = Ret k (after_transfer (sys_fwrite fp block) fp st
             (if k <=? 0 then f_pos st else wpos + k)
             (if k <=? 0 then disk (sys s)
              else <[f_path st := Libc.write_at (Z.to_nat wpos) (take (Z.to_nat k) d) c]>
                     (disk (sys s))) s).
Proof.
  intros Hst c k wpos. subst c k wpos. unfold next_count, after_transfer.
  destruct s as [sp0 t gd home base game dbg ls con [dk dr nw sm zp np sc tr]].
  cbn in Hst.
  unfold Libc.fwrite, Libc.stream, Libc.contents, Libc.transfer, Libc.set_pos, Libc.called, Libc.upd,
    bind, ret, gets, modify, undefined.
  cbn. rewrite Hst. cbn.
  destruct sc as [|k sc]; cbn.
  all: destruct (_ <=? 0) eqn:E; unfold set_sys, Libc.set_streams, Libc.set_script, Libc.set_disk; cbn;
    [|reflexivity].
  all: rewrite (insert_id sm fp); [reflexivity|]; destruct st; exact Hst.
Qed.

Lemma writing_after s fp st pos' d sc block :
  streams (sys s) !! fp = Some st -> script (sys s) = sc ->
  let s1 := after_transfer (sys_fwrite fp block) fp st pos' d s in
  writing s1 fp (tl sc) /\ wrote s s1
  /\ streams (sys s1) !! fp = Some (mkFILE (f_path st) (f_mode st) pos').
Proof.
  intros Hfp Hsc s1. subst s1. unfold writing, wrote, after_transfer. cbn.
  rewrite lookup_insert_eq, Hsc. repeat split; eauto.
  exists [sys_fwrite fp block]. split; [reflexivity|]. repeat constructor.
Qed.

Section Writing.

Context `{Platform}.

Lemma FS_Write_loop_prefix pre : forall n rem tries buf fp s rest,
  writing s fp (pre ++ rest) ->
  Forall (fun k => 0 <= k) pre -> 0 <= tries -> stalls pre + tries <= 1 ->
  total pre < rem -> rem < 2 ^ 32 ->
  exists s',
    FS_Write_loop (length pre + n) rem tries buf fp s
    = FS_Write_loop n (rem - total pre) (tries + stalls pre)
        (drop (Z.to_nat (total pre)) buf) fp s'
    /\ writing s' fp rest /\ wrote s s'.
Proof.
  induction pre as [|k pre IH]; intros n rem tries buf fp s rest
    Hwr Hnn Htries Hst Htot Hrem.
  - exists s. cbn. rewrite Z.sub_0_r, !Z.add_0_r.
    split; [reflexivity|]. split; [exact Hwr|apply wrote_refl].
  - apply Forall_cons in Hnn as [Hk Hnn].
    pose proof (total_nonneg pre Hnn) as Htp. pose proof (stalls_nonneg pre) as Hsp.
    cbn [total stalls] in *.
    destruct Hwr as ([st Hfp] & Hsc).
    cbn [length Nat.add FS_Write_loop].
    destruct (Z.eqb_spec rem 0) as [?|_]; [lia|].
    unfold bind at 1.
    rewrite (fwrite_spec buf rem fp s st Hfp). cbv zeta.
    rewrite to_size_t_small by lia.
    assert (next_count s rem rem = k) as ->.
    { unfold next_count. rewrite Hsc. cbn [app].
      destruct (Z.ltb_spec k 0) as [?|_]; lia. }
    match goal with |- context [after_transfer ?call fp st ?pos' ?d s] =>
      destruct (writing_after s fp st pos' d _ rem Hfp Hsc) as (Hwr1 & Hw1 & _);
      set (s1 := after_transfer call fp st pos' d s) in * end.
    cbn [tl app] in Hwr1.
    destruct (Z.eqb_spec k 0) as [->|Hk0].
    + assert (tries = 0) as -> by lia. cbn [Z.eqb negb andb].
      destruct (IH n rem 1 (drop (Z.to_nat 0) buf) fp s1 rest Hwr1) as (s' & Heq & Hwr' & Hw');
        try lia; [exact Hnn|].
      exists s'. rewrite Z.sub_0_r, Heq, !Z.add_0_l.
      split; [reflexivity|]. split; [exact Hwr'|eapply wrote_trans; eauto].
    + cbn [andb].
      destruct (Z.eqb_spec k (-1)) as [?|_]; [lia|].
      destruct (IH n (rem - k) tries (drop (Z.to_nat k) buf) fp s1 rest Hwr1)
        as (s' & Heq & Hwr' & Hw'); try lia; [exact Hnn|].
      exists s'. rewrite Heq, drop_drop, <- Z2Nat.inj_add by lia.
      split; [f_equal; lia|]. split; [exact Hwr'|eapply wrote_trans; eauto].
Qed.

Lemma FS_Write_loop_completes fuel : forall rem tries buf fp s sc,
  writing s fp sc ->
  Forall (fun k => 0 <= k) sc -> 0 <= tries -> stalls sc + tries <= 1 ->
  0 <= rem < 2 ^ 32 ->
  (Z.to_nat rem + Z.to_nat (1 - tries) + 1 <= fuel)%nat ->
  exists s',
    FS_Write_loop fuel rem tries buf fp s = Ret None s'
    /\ wrote s s' /\ is_Some (streams (sys s') !! fp).
Proof.
  induction fuel as [|fuel IH]; intros rem tries buf fp s sc
    Hwr Hnn Htries Hst Hrem Hfuel; [lia|].
  cbn [FS_Write_loop].
  destruct (Z.eqb_spec rem 0) as [->|Hne].
  { exists s. destruct Hwr as (Hfp & _).
    split; [reflexivity|]. split; [apply wrote_refl|exact Hfp]. }
  pose proof Hwr as ([st Hfp] & Hsc).
  unfold bind at 1.
  rewrite (fwrite_spec buf rem fp s st Hfp). cbv zeta.
  rewrite to_size_t_small by lia.
  set (k := next_count s rem rem).
  assert (0 <= k <= rem /\ (k = 0 -> exists sc', sc = 0 :: sc')) as (Hk & Hk0).
  { subst k. unfold next_count. rewrite Hsc. destruct sc as [|k sc']; [split; [lia|intros; lia]|].
    apply Forall_cons in Hnn as [Hk _].
    destruct (Z.ltb_spec k 0) as [?|_]; [lia|]. split; [lia|].
    intros Hz. exists sc'. f_equal. lia. }
  assert (Forall (fun k => 0 <= k) (tl sc)) as Hnn' by (destruct sc; [constructor|now inversion Hnn]).
  pose proof (stalls_nonneg (tl sc)) as Hsp.
  match goal with |- context [after_transfer ?call fp st ?pos' ?d s] =>
    destruct (writing_after s fp st pos' d _ rem Hfp Hsc) as (Hwr1 & Hw1 & _);
    set (s1 := after_transfer call fp st pos' d s) in * end.
  destruct (Z.eqb_spec k 0) as [Ez|Ez].
  - destruct (Hk0 Ez) as (sc' & ->). cbn [stalls tl] in *. cbn [Z.eqb] in Hst.
    assert (tries = 0) as -> by lia. cbn [Z.eqb negb andb].
    destruct (IH (rem - k) 1 (drop (Z.to_nat k) buf) fp s1 sc' Hwr1)
      as (s' & Heq & Hw' & Hfp'); try lia; [exact Hnn'|].
    exists s'. destruct (Z.eqb_spec k (-1)) as [?|_]; [lia|].
    rewrite Heq. split; [reflexivity|]. split; [eapply wrote_trans; eauto|exact Hfp'].
  - cbn [andb].
    destruct (Z.eqb_spec k (-1)) as [?|_]; [lia|].
    destruct (IH (rem - k) tries (drop (Z.to_nat k) buf) fp s1 (tl sc) Hwr1)
      as (s' & Heq & Hw' & Hfp'); try lia; [exact Hnn'| |].
    { destruct sc as [|k0 sc']; cbn [tl stalls] in *; [lia|]. destruct (k0 =? 0); lia. }
    exists s'. rewrite Heq. split; [reflexivity|]. split; [eapply wrote_trans; eauto|exact Hfp'].
Qed.

Lemma FS_Write_loop_second_zero n rem buf fp s rest :
  writing s fp (0 :: rest) -> 0 < rem < 2 ^ 32 ->
  exists s',
    FS_Write_loop (S n) rem 1 buf fp s = Ret (Some 0) s'
    /\ console s' = console s ++ ["FS_Write: 0 bytes written" +:+ CStr.nl]
    /\ exists calls, io (sys s') = io (sys s) ++ calls /\ Forall is_fwrite calls.
Proof.
  intros ([st Hfp] & Hsc) Hrem. cbn [FS_Write_loop].
  destruct (Z.eqb_spec rem 0) as [?|_]; [lia|].
  unfold bind at 1. rewrite (fwrite_spec buf rem fp s st Hfp). cbv zeta.
  rewrite to_size_t_small by lia.
  assert (next_count s rem rem = 0) as ->.
  { unfold next_count. rewrite Hsc. cbn [Z.ltb Z.compare]. lia. }
  cbn. eexists. split; [reflexivity|]. cbn. split; [reflexivity|].
  exists [sys_fwrite fp rem]. split; [reflexivity|repeat constructor].
Qed.

Lemma FS_Write_loop_error n rem tries buf fp s k rest :
  writing s fp (k :: rest) -> k < 0 -> 0 < rem < 2 ^ 32 ->
  exists s',
    FS_Write_loop (S n) rem tries buf fp s = Ret (Some 0) s'
    /\ console s' = console s ++ ["FS_Write: -1 bytes written" +:+ CStr.nl]
    /\ exists calls, io (sys s') = io (sys s) ++ calls /\ Forall is_fwrite calls.
Proof.
  intros ([st Hfp] & Hsc) Hk Hrem. cbn [FS_Write_loop].
  destruct (Z.eqb_spec rem 0) as [?|_]; [lia|].
  unfold bind at 1. rewrite (fwrite_spec buf rem fp s st Hfp). cbv zeta.
  rewrite to_size_t_small by lia.
  assert (next_count s rem rem = -1) as ->.
  { unfold next_count. rewrite Hsc. destruct (Z.ltb_spec k 0) as [_|?]; lia. }
  cbn. eexists. split; [reflexivity|]. cbn. split; [reflexivity|].
  exists [sys_fwrite fp rem]. split; [reflexivity|repeat constructor].
Qed.


Lemma only_sys_fields s s' :
  only_sys s s' ->
  fs_searchpaths s' = fs_searchpaths s /\ fsh s' = fsh s /\ console s' = console s.
Proof. unfold only_sys. intros ->. cbn. auto. Qed.

Lemma fflush_spec fp s :
  is_Some (streams (sys s) !! fp) ->
  exists s', Libc.fflush fp s = Ret 0 s'
    /\ io (sys s') = io (sys s) ++ [sys_fflush fp] /\ console s' = console s.
Proof.
  intros [st Hst].
  unfold Libc.fflush, Libc.stream, Libc.called, Libc.upd, bind, ret, gets, modify, undefined.
  destruct (fp =? NULL); cbn; rewrite ?Hst; cbn; eexists; (split; [reflexivity|]); cbn; auto.
Qed.

Lemma FS_Write_plain buffer len h s :
  fs_searchpaths s <> [] -> 0 < h <= MAX_FILE_HANDLES ->
  handleFiles_file (fsh s !!! h) <> NULL ->
  FS_Write buffer len h s
  = (do r <- FS_Write_loop (Z.to_nat len + 3) len 0 buffer (handleFiles_file (fsh s !!! h));
     match r with
     | Some early => ret early
     | None =>
         do d <- slot h;
         run (if handleSync d
              then (do _ <- Libc.fflush (handleFiles_file (fsh s !!! h)); ret tt)
              else ret tt);
         ret len
     end) s.
Proof.
  intros Hinit Hh Hn. unfold FS_Write.
  unfold bind at 1, gets at 1.
  destruct (fs_searchpaths s); [contradiction|].
  unfold bind at 1, ret at 1.
  destruct (Z.eqb_spec h 0) as [?|_]; [lia|].
  unfold bind at 1. rewrite FS_FileForHandle_ok by (auto; lia). reflexivity.
Qed.

(** C5, as the code has it. [FS_Write] on an open handle; the counts
    that the native writes answer are given by the script, then the
    writes are full. (1) If no count is negative and at most one is zero,
    the length is returned, nothing is logged, and the native calls are
    the writes followed, when the sync flag of the handle is set, by one
    [fflush]. (2) At the second zero-byte write, and (3) at a native count
    of -1, the call returns 0 with one warning line on the console; it
    does not leave through [Com_Error], and the native calls are writes
    only: nothing is flushed. *)
Theorem FS_Write_partial_transfers (h : fileHandle_t) (buffer : list byte) (len : Z) (s : FS) :
  fs_searchpaths s <> [] -> 0 < h <= MAX_FILE_HANDLES ->
  handleFiles_file (fsh s !!! h) <> NULL ->
  is_Some (streams (sys s) !! handleFiles_file (fsh s !!! h)) ->
  0 <= len < 2 ^ 32 ->
  (Forall (fun k => 0 <= k) (script (sys s)) -> stalls (script (sys s)) <= 1 ->
   exists s' calls,
     FS_Write buffer len h s = Ret len s'
     /\ console s' = console s
     /\ io (sys s') = io (sys s) ++ calls
          ++ (if handleSync (fsh s !!! h)
              then [sys_fflush (handleFiles_file (fsh s !!! h))] else [])
     /\ Forall is_fwrite calls)
  /\ (forall pre rest,
        script (sys s) = pre ++ 0 :: rest ->
        Forall (fun k => 0 <= k) pre -> stalls pre = 1 -> total pre < len ->
        exists s' calls,
          FS_Write buffer len h s = Ret 0 s'
          /\ console s' = console s ++ ["FS_Write: 0 bytes written" +:+ CStr.nl]
          /\ io (sys s') = io (sys s) ++ calls /\ Forall is_fwrite calls)
  /\ (forall pre k rest,
        script (sys s) = pre ++ k :: rest -> k < 0 ->
        Forall (fun k => 0 <= k) pre -> stalls pre <= 1 -> total pre < len ->
        exists s' calls,
          FS_Write buffer len h s = Ret 0 s'
          /\ console s' = console s ++ ["FS_Write: -1 bytes written" +:+ CStr.nl]
          /\ io (sys s') = io (sys s) ++ calls /\ Forall is_fwrite calls).
Proof.
  intros Hinit Hh Hn Hfp Hlen.
  rewrite (FS_Write_plain buffer len h s Hinit Hh Hn).
  set (fp := handleFiles_file (fsh s !!! h)) in *.
  split; [|split].
  - intros Hnn Hst.
    destruct (FS_Write_loop_completes (Z.to_nat len + 3) len 0 buffer fp s (script (sys s)))
      as (s1 & Heq & [Hos (calls & Hio & Hcalls)] & Hfp1); try lia; [split; auto|exact Hnn|].
    destruct (only_sys_fields s s1 Hos) as (_ & Hfsh & Hcon).
    unfold bind at 1. rewrite Heq. unfold bind at 1, slot, gets. rewrite Hfsh.
    destruct (handleSync (fsh s !!! h)).
    + destruct (fflush_spec fp s1 Hfp1) as (s2 & Hfl & Hio2 & Hcon2).
      unfold bind at 1 2. rewrite Hfl. cbn.
      exists s2, calls. split; [reflexivity|]. split; [congruence|].
      split; [|exact Hcalls]. rewrite Hio2, Hio, app_assoc. reflexivity.
    + cbn. exists s1, calls. split; [reflexivity|]. split; [exact Hcon|].
      split; [|exact Hcalls]. rewrite Hio, app_nil_r. reflexivity.
  - intros pre rest Hsc Hnn Hst Htot.
    pose proof (length_le_total pre Hnn) as Hl.
    destruct (FS_Write_loop_prefix pre (Z.to_nat len + 3 - length pre) len 0 buffer fp s
                (0 :: rest)) as (s1 & Heq & Hwr & [Hos (c1 & Hio1 & Hc1)]); try lia;
      [split; auto|exact Hnn|].
    replace (Z.to_nat len + 3)%nat with (length pre + (Z.to_nat len + 3 - length pre))%nat by lia.
    unfold bind at 1. rewrite Heq.
    replace (Z.to_nat len + 3 - length pre)%nat
      with (S (Z.to_nat len + 2 - length pre)) by lia.
    rewrite Hst. change (0 + 1) with 1.
    pose proof (total_nonneg pre Hnn).
    destruct (FS_Write_loop_second_zero (Z.to_nat len + 2 - length pre) (len - total pre)
                (drop (Z.to_nat (total pre)) buffer) fp s1 rest Hwr)
      as (s' & Heq' & Hcon & c2 & Hio2 & Hc2); [lia|].
    rewrite Heq'. cbn. exists s', (c1 ++ c2).
    destruct (only_sys_fields s s1 Hos) as (_ & _ & Hcon1).
    split; [reflexivity|]. split; [congruence|].
    split; [rewrite Hio2, Hio1, app_assoc; reflexivity|apply Forall_app; auto].
  - intros pre k rest Hsc Hk Hnn Hst Htot.
    pose proof (length_le_total pre Hnn) as Hl. pose proof (stalls_nonneg pre) as Hs0.
    destruct (FS_Write_loop_prefix pre (Z.to_nat len + 3 - length pre) len 0 buffer fp s
                (k :: rest)) as (s1 & Heq & Hwr & [Hos (c1 & Hio1 & Hc1)]); try lia;
      [split; auto|exact Hnn|].
    replace (Z.to_nat len + 3)%nat with (length pre + (Z.to_nat len + 3 - length pre))%nat by lia.
    unfold bind at 1. rewrite Heq.
    replace (Z.to_nat len + 3 - length pre)%nat
      with (S (Z.to_nat len + 2 - length pre)) by lia.
    pose proof (total_nonneg pre Hnn).
    destruct (FS_Write_loop_error (Z.to_nat len + 2 - length pre) (len - total pre)
                (0 + stalls pre) (drop (Z.to_nat (total pre)) buffer) fp s1 k rest Hwr Hk)
      as (s' & Heq' & Hcon & c2 & Hio2 & Hc2); [lia|].
    rewrite Heq'. cbn. exists s', (c1 ++ c2).
    destruct (only_sys_fields s s1 Hos) as (_ & _ & Hcon1).
    split; [reflexivity|]. split; [congruence|].
    split; [rewrite Hio2, Hio1, app_assoc; reflexivity|apply Forall_app; auto].
Qed.

End Writing.

Lemma FS_Write_partial_transfers_witness :
  (exists s' calls,
     FS_Write (H := unix_build) [x41; x42] 2 1 (writing_fs [1; 0]) = Ret 2 s'
     /\ console s' = []
     /\ io (sys s') = [] ++ calls ++ [sys_fflush 1]
     /\ Forall is_fwrite calls)
  /\ (exists s' calls,
        FS_Write (H := unix_build) [x41; x42] 2 1 (writing_fs [1; 0; 0]) = Ret 0 s'
        /\ console s' = [] ++ ["FS_Write: 0 bytes written" +:+ CStr.nl]
        /\ io (sys s') = [] ++ calls /\ Forall is_fwrite calls)
  /\ (exists s' calls,
        FS_Write (H := unix_build) [x41; x42] 2 1 (writing_fs [-1]) = Ret 0 s'
        /\ console s' = [] ++ ["FS_Write: -1 bytes written" +:+ CStr.nl]
        /\ io (sys s') = [] ++ calls /\ Forall is_fwrite calls).
Proof.
  split; [|split].
  - refine (proj1 (FS_Write_partial_transfers (H := unix_build) 1 [x41; x42] 2 (writing_fs [1; 0])
                     _ _ _ _ _) _ _);
      try discriminate; try (cbn; lia); try (eexists; reflexivity).
    repeat constructor; lia.
  - refine (proj1 (proj2 (FS_Write_partial_transfers (H := unix_build) 1 [x41; x42] 2
                     (writing_fs [1; 0; 0]) _ _ _ _ _)) [1; 0] [] _ _ _ _);
      try reflexivity; try discriminate; try (cbn; lia); try (eexists; reflexivity).
    repeat constructor; lia.
  - refine (proj2 (proj2 (FS_Write_partial_transfers (H := unix_build) 1 [x41; x42] 2
                     (writing_fs [-1]) _ _ _ _ _)) [] (-1) [] _ _ _ _ _);
      try reflexivity; try discriminate; try (cbn; lia); try (eexists; reflexivity).
    constructor.
Defined.

(** Two bytes are to be written through a handle with the sync flag set;
    the first write takes one byte, the next two take none. The call
    returns 0 although one byte is on the disk, and nothing is flushed. *)
Lemma FS_Write_gives_up_with_zero :
  exists s',
    FS_Write (H := unix_build) [x41; x42] 2 1 (writing_fs [1; 0; 0]) = Ret 0 s'
    /\ disk (sys s') !! "/home/user/out.dat" = Some [x41]
    /\ handleSync (fsh s' !!! 1) = true
    /\ io (sys s') = [sys_fwrite 1 2; sys_fwrite 1 1; sys_fwrite 1 1].
Proof.
  eexists. split; [vm_compute; reflexivity|]. repeat split; vm_compute; reflexivity.
Qed.

(** ** Seeking in archive entries *)



Lemma unzReadCurrentFile_spec zp len s es cur r c :
  zips (sys s) !! zp = Some (mkUnz es cur (Some r)) ->
  Unz.entry_at es cur = Some c ->
  let k := Z.min (Libc.to_size_t len) (Z.max 0 (Z.of_nat (length c) - r)) in
  Unz.unzReadCurrentFile zp len s
  = Ret (k, take (Z.to_nat k) (drop (Z.to_nat r) c))
        (after_unz "unzReadCurrentFile" zp (mkUnz es cur (Some (r + k))) s).
Proof.
  intros Ha Hc k. subst k.
  destruct s as [sp0 t gd home base game dbg ls con [dk dr nw sm zs np sc tr]].
  cbn in Ha.
  unfold Unz.unzReadCurrentFile, Unz.archive, Unz.put, Libc.called, Libc.upd, bind, ret, gets,
    modify, undefined, after_unz.
  cbn. rewrite Ha. cbn. rewrite Hc. reflexivity.
Qed.

Lemma only_sys_after_unz fn zp a s : only_sys s (after_unz fn zp a s).
Proof. reflexivity. Qed.

Lemma FS_Read_zip len f s zp es zpos r c :
  fs_searchpaths s <> [] -> f <> 0 ->
  zipFile (fsh s !!! f) = true -> handleFiles_file (fsh s !!! f) = zp ->
  entry_pos s zp es zpos r -> Unz.entry_at es zpos = Some c ->
  0 <= r <= Z.of_nat (length c) -> 0 <= len < 2 ^ 32 ->
  exists s',
    FS_Read len f s
    = Ret (Z.min len (Z.of_nat (length c) - r),
           take (Z.to_nat len) (drop (Z.to_nat r) c)) s'
    /\ entry_pos s' zp es zpos (Z.min (r + len) (Z.of_nat (length c)))
    /\ only_sys s s'.
Proof.
  intros Hinit Hf Hz Hzp Hpos Hc Hr Hlen. unfold FS_Read.
  unfold bind at 1, gets at 1.
  destruct (fs_searchpaths s); [contradiction|].
  unfold bind at 1, ret at 1.
  destruct (Z.eqb_spec f 0) as [?|_]; [contradiction|].
  unfold bind at 1, slot, gets. rewrite Hz, Hzp. cbn [negb].
  rewrite (unzReadCurrentFile_spec zp len s es zpos r c Hpos Hc). cbv zeta.
  rewrite to_size_t_small by lia.
  eexists. split; [|split; [|apply only_sys_after_unz]].
  - f_equal. f_equal; [lia|].
    destruct (Z.le_ge_cases len (Z.of_nat (length c) - r)).
    + rewrite Z.min_l by lia. reflexivity.
    + rewrite Z.min_r by lia.
      rewrite !take_ge; [reflexivity| |]; rewrite length_drop; lia.
  - unfold entry_pos, after_unz. cbn. rewrite lookup_insert_eq. do 3 f_equal. lia.
Qed.

Lemma zip_handle_only_sys s s' f zp zpos :
  only_sys s s' -> zip_handle s f zp zpos -> zip_handle s' f zp zpos.
Proof.
  intros Hos (Hi & Hf & Hz & Hp & Hq).
  destruct (only_sys_fields s s' Hos) as (Esp & Efsh & _).
  unfold zip_handle. rewrite Esp, Efsh. auto.
Qed.

Lemma FS_Read_entry len f s zp es zpos r c :
  zip_handle s f zp zpos ->
  entry_pos s zp es zpos r -> Unz.entry_at es zpos = Some c ->
  0 <= r <= Z.of_nat (length c) -> 0 <= len < 2 ^ 32 ->
  exists s',
    FS_Read len f s
    = Ret (Z.min len (Z.of_nat (length c) - r),
           take (Z.to_nat len) (drop (Z.to_nat r) c)) s'
    /\ entry_pos s' zp es zpos (Z.min (r + len) (Z.of_nat (length c)))
    /\ only_sys s s'.
Proof.
  intros (Hi & Hf & Hz & Hp & _). now apply FS_Read_zip.
Qed.

Lemma seek_discard_spec fuel : forall remainder s f zp es zpos r c,
  zip_handle s f zp zpos ->
  entry_pos s zp es zpos r -> Unz.entry_at es zpos = Some c ->
  0 <= r <= Z.of_nat (length c) -> 0 <= remainder ->
  (Z.to_nat (remainder / PK3_SEEK_BUFFER_SIZE) < fuel)%nat ->
  exists s' left,
    seek_discard fuel remainder f s = Ret left s'
    /\ 0 <= left <= PK3_SEEK_BUFFER_SIZE /\ left <= remainder
    /\ entry_pos s' zp es zpos (Z.min (r + (remainder - left)) (Z.of_nat (length c)))
    /\ only_sys s s'.
Proof.
  unfold PK3_SEEK_BUFFER_SIZE.
  induction fuel as [|fuel IH]; intros remainder s f zp es zpos r c Hh Hpos Hc Hr Hrem Hfuel;
    [lia|].
  cbn [seek_discard]. unfold PK3_SEEK_BUFFER_SIZE.
  destruct (Z.gtb_spec remainder 65536) as [Hgt|Hle].
  - destruct (FS_Read_entry 65536 f s zp es zpos r c Hh Hpos Hc Hr ltac:(lia))
      as (s1 & Hrd & Hpos1 & Hos1).
    unfold bind at 1. rewrite Hrd.
    destruct (IH (remainder - 65536) s1 f zp es zpos
                 (Z.min (r + 65536) (Z.of_nat (length c))) c)
      as (s' & left & Heq & Hl & Hl' & Hpos' & Hos'); try lia.
    { eapply zip_handle_only_sys; eauto. }
    { exact Hpos1. }
    { exact Hc. }
    { replace (remainder - 65536) with (remainder + (-1) * 65536) by lia.
      rewrite Z.div_add by lia.
      assert (1 <= remainder / 65536) by (apply Z.div_le_lower_bound; lia).
      lia. }
    exists s', left. rewrite Heq. split; [reflexivity|]. split; [lia|]. split; [lia|].
    split; [|eapply only_sys_trans; eauto].
    replace (Z.min (r + (remainder - left)) (Z.of_nat (length c)))
      with (Z.min (Z.min (r + 65536) (Z.of_nat (length c)) + (remainder - 65536 - left))
                  (Z.of_nat (length c))) by lia.
    exact Hpos'.
  - exists s, remainder. split; [reflexivity|]. split; [lia|]. split; [lia|].
    split; [|apply only_sys_refl].
    replace (r + (remainder - remainder)) with r by lia.
    rewrite Z.min_l by lia. exact Hpos.
Qed.



Section Seeking.

Context `{Platform}.




Lemma FS_Seek_unfold f offset origin s :
  fs_searchpaths s <> [] ->
  FS_Seek f offset origin s
  = if streamed (fsh s !!! f)
    then match FS_Seek_at f offset origin (streamed_set false f s) with
         | Ret _ s1 => FS_Seek_at f offset origin (streamed_set true f s1)
         | Abort code msg s1 => Abort code msg s1
         | Undef s1 => Undef s1
         end
    else FS_Seek_at f offset origin s.
Proof.
  intros Hinit. unfold FS_Seek.
  unfold bind at 1, gets at 1.
  destruct (fs_searchpaths s); [contradiction|].
  unfold bind at 1, ret at 1. unfold bind at 1, slot at 1, gets at 1.
  destruct (streamed (fsh s !!! f)); [|reflexivity].
  unfold bind at 1. unfold bind at 1. unfold upd_slot at 1, modify at 1.
  fold (streamed_set false f s).
  unfold bind at 1.
  destruct (FS_Seek_at f offset origin (streamed_set false f s)); reflexivity.
Qed.

Lemma entry_pos_streamed b f s zp es zpos r :
  entry_pos s zp es zpos r -> entry_pos (streamed_set b f s) zp es zpos r.
Proof. intros Hp. exact Hp. Qed.





End Seeking.


(** The scenario of the claim: after a seek to 10000 the next sixteen
    bytes are the same through the archive handle and through the plain
    handle on the loose copy. *)
Example FS_Seek_10000_then_read_16_archive :
  exists s1 s2,
    FS_Seek (H := unix_build) 1 10000 FS_SEEK_SET archive_fs = Ret 10000 s1
    /\ FS_Read 16 1 s1
       = Ret (16, [x10; x11; x12; x13; x14; x15; x16; x17;
                   x18; x19; x1a; x1b; x1c; x1d; x1e; x1f]) s2.
Proof.
  do 2 eexists. split.
  - vm_compute. reflexivity.
  - vm_compute. reflexivity.
Qed.

Example FS_Seek_10000_then_read_16_loose :
  exists t1 t2,
    FS_Seek (H := unix_build) 2 10000 FS_SEEK_SET archive_fs = Ret 0 t1
    /\ FS_Read 16 2 t1
       = Ret (16, [x10; x11; x12; x13; x14; x15; x16; x17;
                   x18; x19; x1a; x1b; x1c; x1d; x1e; x1f]) t2.
Proof.
  do 2 eexists. split.
  - vm_compute. reflexivity.
  - vm_compute. reflexivity.
Qed.

(** ** Use before initialization *)

Section Uninitialized.

Context `{Platform}.

(** The entry points that test [fs_searchpaths] leave through
    [Com_Error (ERR_FATAL)] before anything else is done. *)
Lemma uninitialized_use_aborts (s : FS) :
  fs_searchpaths s = [] ->
  (forall n, FS_SV_FOpenFileRead n s = Abort ERR_FATAL uninitialized s)
  /\ (forall n, FS_SV_FOpenFileWrite n s = Abort ERR_FATAL uninitialized s)
  /\ (forall n, FS_SV_FOpenFileAppend n s = Abort ERR_FATAL uninitialized s)
  /\ (forall len f, FS_Read len f s = Abort ERR_FATAL uninitialized s)
  /\ (forall buf len h, FS_Write buf len h s = Abort ERR_FATAL uninitialized s)
  /\ (forall f off origin, FS_Seek f off origin s = Abort ERR_FATAL uninitialized s)
  /\ (forall q buf size, FS_WriteFile q buf size s = Abort ERR_FATAL uninitialized s)
  /\ (forall q buf size, FS_SV_WriteFile q buf size s = Abort ERR_FATAL uninitialized s).
Proof.
  intros Hu.
  repeat split; intros;
    unfold FS_SV_FOpenFileRead, FS_SV_FOpenFileWrite, FS_SV_FOpenFileAppend, FS_Read, FS_Write,
      FS_Seek, FS_WriteFile, FS_SV_WriteFile;
    unfold bind at 1, gets at 1; rewrite Hu; reflexivity.
Qed.

End Uninitialized.

(** C9, where the code departs from it. [FS_FTell] and [FS_Flush] make no
    test of [fs_searchpaths]: before initialization, on the zeroed handle
    table, they hand the [NULL] stream of the slot to [ftell] and to
    [fflush]. No [Com_Error] is raised and the native call is made:
    [ftell] gets a pointer that is no stream, and [fflush (NULL)]
    returns, so that [FS_Flush] returns as if all were well. *)
Lemma FS_FTell_unchecked :
  fs_searchpaths uninit_fs = []
  /\ (exists s', FS_FTell 1 uninit_fs = Undef s' /\ io (sys s') = [sys_ftell NULL])
  /\ (exists s', FS_Flush 1 uninit_fs = Ret tt s' /\ io (sys s') = [sys_fflush NULL]).
Proof. split; [reflexivity|]. split; eexists; split; reflexivity. Qed.

(** ** Comparing names *)

Lemma FS_FilenameCompare_zero (a : string) : forall b,
  FS_FilenameCompare a b = 0 <-> CStr.map_chars fold_char a = CStr.map_chars fold_char b.
Proof.
  induction a as [|c a IH]; intros [|d b]; cbn; try (split; discriminate).
  - split; reflexivity.
  - destruct (Ascii.eqb_spec (fold_char c) (fold_char d)) as [E|E].
    + rewrite IH, E. split; [intros ->; reflexivity|intros [= ?]; assumption].
    + split; [discriminate|intros [= ? _]; contradiction].
Qed.

Lemma FS_FilenameCompare_values (a : string) : forall b,
  FS_FilenameCompare a b = 0 \/ FS_FilenameCompare a b = -1.
Proof.
  induction a as [|c a IH]; intros [|d b]; cbn; auto.
  destruct (Ascii.eqb (fold_char c) (fold_char d)); auto.
Qed.

(** X1. [FS_FilenameCompare] answers 0 or -1, and 0 exactly for two names
    that are the same once letters are upper-cased and [\\] and [:] are
    read as [/]; so it is an equivalence on names. *)
Theorem FS_FilenameCompare_equivalence :
  (forall a b, FS_FilenameCompare a b = 0 \/ FS_FilenameCompare a b = -1)
  /\ (forall a b, FS_FilenameCompare a b = 0
                  <-> CStr.map_chars fold_char a = CStr.map_chars fold_char b)
  /\ (forall a, FS_FilenameCompare a a = 0)
  /\ (forall a b, FS_FilenameCompare a b = FS_FilenameCompare b a)
  /\ (forall a b c, FS_FilenameCompare a b = 0 -> FS_FilenameCompare b c = 0 ->
                    FS_FilenameCompare a c = 0).
Proof.
  split; [exact FS_FilenameCompare_values|].
  split; [intros a b; apply FS_FilenameCompare_zero|].
  split; [intros a; now apply FS_FilenameCompare_zero|].
  split.
  - intros a b.
    destruct (FS_FilenameCompare_values a b) as [E|E],
             (FS_FilenameCompare_values b a) as [E'|E']; try congruence.
    + apply FS_FilenameCompare_zero in E. symmetry in E.
      apply FS_FilenameCompare_zero in E. congruence.
    + apply FS_FilenameCompare_zero in E'. symmetry in E'.
      apply FS_FilenameCompare_zero in E'. congruence.
  - intros a b c Hab Hbc. apply FS_FilenameCompare_zero.
    apply FS_FilenameCompare_zero in Hab, Hbc. congruence.
Qed.

Example FS_FilenameCompare_sample :
  FS_FilenameCompare "Sound:Hit.WAV" "sound/hit.wav" = 0
  /\ FS_FilenameCompare "sound/hit.wav" "sound/hit.wa" = -1.
Proof. split; reflexivity. Qed.

Lemma char_int_inj (c d : ascii) : char_int c = char_int d -> c = d.
Proof.
  unfold char_int. intros E.
  pose proof (nat_ascii_bounded c). pose proof (nat_ascii_bounded d).
  rewrite <- (ascii_nat_embedding c), <- (ascii_nat_embedding d). f_equal.
  destruct (Z.ltb_spec (Z.of_nat (nat_of_ascii c)) 128),
           (Z.ltb_spec (Z.of_nat (nat_of_ascii d)) 128); lia.
Qed.

Lemma fold_char_zero (c : ascii) : char_int (fold_char c) = 0 -> c = Ascii.zero.
Proof.
  destruct c as [[] [] [] [] [] [] [] []]; vm_compute; first [reflexivity|discriminate].
Qed.

Ltac cmp_cases :=
  unfold cmp_step in *;
  repeat match goal with
         | |- context [?x <? ?y] => destruct (Z.ltb_spec x y)
         | |- context [?x >? ?y] => destruct (Z.gtb_spec x y)
         | |- context [?x =? ?y] => destruct (Z.eqb_spec x y)
         | H : context [?x <? ?y] |- _ => destruct (Z.ltb_spec x y)
         | H : context [?x >? ?y] |- _ => destruct (Z.gtb_spec x y)
         | H : context [?x =? ?y] |- _ => destruct (Z.eqb_spec x y)
         end.

Lemma FS_PathCmp_values (a : string) : forall b,
  FS_PathCmp a b = -1 \/ FS_PathCmp a b = 0 \/ FS_PathCmp a b = 1.
Proof.
  induction a as [|c a IH]; intros [|d b]; cbn [FS_PathCmp]; auto.
  - cmp_cases; auto.
  - cmp_cases; auto.
  - specialize (IH b). cmp_cases; auto.
Qed.

Lemma FS_PathCmp_swap (a : string) : forall b, FS_PathCmp b a = - FS_PathCmp a b.
Proof.
  induction a as [|c a IH]; intros [|d b]; cbn [FS_PathCmp]; auto.
  - cmp_cases; lia.
  - cmp_cases; lia.
  - specialize (IH b). cmp_cases; lia.
Qed.

Lemma FS_PathCmp_trans (a : string) : forall b c,
  FS_PathCmp a b <= 0 -> FS_PathCmp b c <= 0 -> FS_PathCmp a c <= 0.
Proof.
  induction a as [|x a IH]; intros [|y b] [|z c]; cbn [FS_PathCmp]; try lia.
  all: try (generalize (char_int (fold_char x)); intros x').
  all: try (generalize (char_int (fold_char y)); intros y').
  all: try (generalize (char_int (fold_char z)); intros z').
  all: try specialize (IH b c).
  all: intros H1 H2; cmp_cases; try lia.
Qed.

Lemma FS_PathCmp_of_equal (a : string) : forall b,
  FS_FilenameCompare a b = 0 -> FS_PathCmp a b = 0.
Proof.
  induction a as [|c a IH]; intros [|d b]; cbn; try discriminate; auto.
  destruct (Ascii.eqb_spec (fold_char c) (fold_char d)) as [E|E]; [|discriminate].
  intros Hab. rewrite E, (IH b Hab). cmp_cases; lia.
Qed.

Lemma FS_PathCmp_zero (a : string) : forall b,
  is_cstring a = true -> is_cstring b = true ->
  FS_PathCmp a b = 0 -> FS_FilenameCompare a b = 0.
Proof.
  induction a as [|c a IH]; intros [|d b]; cbn [FS_PathCmp FS_FilenameCompare is_cstring];
    intros Ha Hb; auto.
  - apply andb_true_iff in Hb as [Hd _].
    intros E. assert (char_int (fold_char d) = 0) as Z0 by (revert E; cmp_cases; lia).
    apply fold_char_zero in Z0. subst d. discriminate.
  - apply andb_true_iff in Ha as [Hc _].
    intros E. assert (char_int (fold_char c) = 0) as Z0 by (revert E; cmp_cases; lia).
    apply fold_char_zero in Z0. subst c. discriminate.
  - apply andb_true_iff in Ha as [Hc Ha]. apply andb_true_iff in Hb as [Hd Hb].
    intros E.
    assert (char_int (fold_char c) = char_int (fold_char d)) as Ecd
      by (revert E; cmp_cases; lia).
    rewrite Ecd in E. apply char_int_inj in Ecd. rewrite Ecd, Ascii.eqb_refl.
    apply IH; [assumption..|].
    revert E. cmp_cases; try lia.
    exfalso. assert (d = Ascii.zero) as -> by now apply fold_char_zero. discriminate.
Qed.

(** X2. [FS_PathCmp] orders names: it answers -1, 0 or 1, swapping the
    names negates the answer, and [<= 0] is transitive. Names that
    [FS_FilenameCompare] takes for equal compare 0, and two strings of C
    that compare 0 are equal for [FS_FilenameCompare]. *)
Theorem FS_PathCmp_order :
  (forall a b, FS_PathCmp a b = -1 \/ FS_PathCmp a b = 0 \/ FS_PathCmp a b = 1)
  /\ (forall a b, FS_PathCmp b a = - FS_PathCmp a b)
  /\ (forall a b c, FS_PathCmp a b <= 0 -> FS_PathCmp b c <= 0 -> FS_PathCmp a c <= 0)
  /\ (forall a b, FS_FilenameCompare a b = 0 -> FS_PathCmp a b = 0)
  /\ (forall a b, is_cstring a = true -> is_cstring b = true ->
                  FS_PathCmp a b = 0 -> FS_FilenameCompare a b = 0).
Proof.
  split; [exact FS_PathCmp_values|].
  split; [intros a b; apply FS_PathCmp_swap|].
  split; [exact FS_PathCmp_trans|].
  split; [exact FS_PathCmp_of_equal|exact FS_PathCmp_zero].
Qed.

(** ** Paths and extensions *)

Lemma fold_char_convert (c : ascii) :
  fold_char (if Ascii.eqb c CStr.backslash || Ascii.eqb c ":"%char then "/"%char else c)
  = fold_char c.
Proof. destruct c as [[] [] [] [] [] [] [] []]; reflexivity. Qed.

Lemma FS_FilenameCompare_folded (a a' : string) :
  CStr.map_chars fold_char a = CStr.map_chars fold_char a' ->
  forall t, FS_FilenameCompare a t = FS_FilenameCompare a' t.
Proof.
  revert a'. induction a as [|c a IH]; intros [|c' a']; cbn; try discriminate; auto.
  intros [= Ec Ea] [|d t]; [reflexivity|]. cbn. rewrite Ec, (IH a' Ea t). reflexivity.
Qed.

Lemma map_chars_char f (s : string) : forall a c b,
  CStr.map_chars f s = a +:+ String c b -> exists c0, c = f c0.
Proof.
  induction s as [|x s IH]; intros [|y a] c b; cbn.
  - rewrite app_empty_l. discriminate.
  - discriminate.
  - rewrite app_empty_l. intros [= <- _]. eauto.
  - rewrite app_cons. intros [= _ E]. eauto.
Qed.

Lemma map_chars_twice f g (s : string) :
  CStr.map_chars f (CStr.map_chars g s) = CStr.map_chars (fun c => f (g c)) s.
Proof. induction s as [|c s IH]; cbn; [reflexivity|now rewrite IH]. Qed.

Lemma map_chars_ext f g (s : string) :
  (forall c, f c = g c) -> CStr.map_chars f s = CStr.map_chars g s.
Proof. intros E. induction s as [|c s IH]; cbn; [reflexivity|now rewrite IH, E]. Qed.

(** X3. [FS_ConvertPath] keeps the length of a name, leaves no [\\] and no
    [:] in it, changes nothing when it is applied again, and does not
    change how the name compares under [FS_FilenameCompare]. *)
Theorem FS_ConvertPath_normalizes (s : string) :
  FS_ConvertPath (FS_ConvertPath s) = FS_ConvertPath s
  /\ CStr.strlen (FS_ConvertPath s) = CStr.strlen s
  /\ (forall a c b, FS_ConvertPath s = a +:+ String c b ->
                    c <> CStr.backslash /\ c <> ":"%char)
  /\ (forall t, FS_FilenameCompare (FS_ConvertPath s) t = FS_FilenameCompare s t).
Proof.
  unfold FS_ConvertPath. repeat split.
  - rewrite map_chars_twice. apply map_chars_ext.
    intros c. destruct c as [[] [] [] [] [] [] [] []]; reflexivity.
  - unfold CStr.strlen. now rewrite map_chars_length.
  - apply map_chars_char in H as [c0 ->].
    destruct c0 as [[] [] [] [] [] [] [] []]; vm_compute; discriminate.
  - apply map_chars_char in H as [c0 ->].
    destruct c0 as [[] [] [] [] [] [] [] []]; vm_compute; discriminate.
  - apply FS_FilenameCompare_folded.
    rewrite map_chars_twice. apply map_chars_ext, fold_char_convert.
Qed.

Lemma length_substring_le (n : nat) (s : string) :
  (String.length (String.substring 0 n s) <= n)%nat.
Proof.
  revert s. induction n as [|n IH]; intros [|c s]; cbn; try lia.
  specialize (IH s). lia.
Qed.

Lemma bounded_length (size : Z) (s : string) :
  0 < size -> CStr.strlen (CStr.bounded size s) < size.
Proof.
  intros Hs. unfold CStr.bounded, CStr.truncate, CStr.strlen.
  pose proof (length_substring_le (Z.to_nat (size - 1)) s). lia.
Qed.

Section Paths.

Context `{Platform}.

(** X4. The OS path that [FS_BuildOSPath] makes is shorter than
    [MAX_OSPATH]. An empty game stands for [fs_gamedir]. When base, game
    and qpath fit the buffer, the path is the base as it stands followed
    by [/game/qpath] with every [/] and [\\] of it turned into
    [PATH_SEP]. Nothing else changes. *)
Theorem FS_BuildOSPath_bounded (base game qpath : string) (s : FS) :
  0 < MAX_OSPATH ->
  exists p,
    FS_BuildOSPath base game qpath s = Ret p s
    /\ CStr.strlen p < MAX_OSPATH
    /\ (let g := match game with EmptyString => fs_gamedir s | _ => game end in
        CStr.strlen base + CStr.strlen g + CStr.strlen qpath + 2 < MAX_OSPATH ->
        p = base +:+ FS_ReplaceSeparators ("/" +:+ g +:+ "/" +:+ qpath)).
Proof.
  intros Hmax. eexists. split; [reflexivity|]. split.
  - now apply bounded_length.
  - intros g Hfit. unfold Com_sprintf.
    assert (0 <= CStr.strlen base) by (unfold CStr.strlen; lia).
    replace (match game with EmptyString => fs_gamedir s | _ => game end) with g
      by reflexivity.
    rewrite (bounded_fits MAX_OSPATH ("/" +:+ g +:+ "/" +:+ qpath)).
    2:{ rewrite !strlen_app. change (CStr.strlen "/") with 1. lia. }
    apply bounded_fits.
    rewrite strlen_app.
    assert (forall x, CStr.strlen (FS_ReplaceSeparators x) = CStr.strlen x) as ->
      by (intros x; unfold CStr.strlen, FS_ReplaceSeparators; now rewrite map_chars_length).
    rewrite !strlen_app. change (CStr.strlen "/") with 1. lia.
Qed.

End Paths.

Lemma FS_BuildOSPath_bounded_witness :
  exists p,
    FS_BuildOSPath (H := unix_build) "/home/user" EmptyString "players\profile.cfg" sample_fs
    = Ret p sample_fs
    /\ CStr.strlen p < 256
    /\ (CStr.strlen "/home/user" + CStr.strlen "main" + CStr.strlen "players\profile.cfg" + 2
        < 256 ->
        p = "/home/user" +:+ "/main/players/profile.cfg").
Proof.
  apply (FS_BuildOSPath_bounded (H := unix_build) "/home/user" EmptyString
           "players\profile.cfg" sample_fs).
  reflexivity.
Defined.

Lemma advance_spec (n : nat) : forall s t,
  advance n s = Some t <-> exists a, s = a +:+ t /\ @eq nat (String.length a) n.
Proof.
  induction n as [|n IH]; intros s t; cbn.
  - split.
    + intros [= ->]. exists EmptyString. now rewrite app_empty_l.
    + intros ([|c a] & -> & Hl); [now rewrite app_empty_l|discriminate].
  - destruct s as [|c s].
    + split; [discriminate|]. intros ([|x a] & E & Hl); [discriminate|]. rewrite app_cons in E.
      discriminate.
    + rewrite IH. split.
      * intros (a & -> & Hl). exists (String c a). rewrite app_cons. cbn. auto.
      * intros ([|x a] & E & Hl); [discriminate|]. rewrite app_cons in E.
        injection E as -> ->. exists a. cbn in Hl. auto.
Qed.

Lemma advance_some (n : nat) : forall s,
  (n <= String.length s)%nat -> exists t, advance n s = Some t.
Proof.
  induction n as [|n IH]; intros s Hn; cbn; [eauto|].
  destruct s as [|c s]; cbn in Hn; [lia|]. apply IH. lia.
Qed.

Lemma app_inv_length (a a' b b' : string) :
  a +:+ b = a' +:+ b' -> @eq nat (String.length b) (String.length b') -> b = b'.
Proof.
  revert a' b b'.
  assert (forall x y z : string, x = y +:+ z -> (String.length z <= String.length x)%nat) as Hle.
  { intros x y z ->. rewrite length_app_string. lia. }
  induction a as [|c a IH]; intros [|c' a'] b b'.
  - now rewrite !app_empty_l.
  - rewrite app_empty_l, app_cons. intros -> E. cbn in E.
    specialize (Hle _ _ _ (eq_refl (a' +:+ b'))). lia.
  - rewrite app_empty_l, app_cons. intros <- E. cbn in E.
    specialize (Hle _ _ _ (eq_refl (a +:+ b))). lia.
  - rewrite !app_cons. intros [= _ E]. now apply (IH a').
Qed.

Lemma same_nocase_length (a b : string) :
  same_nocase a b -> @eq nat (String.length a) (String.length b).
Proof.
  unfold same_nocase. intros E. apply (f_equal String.length) in E.
  now rewrite !map_chars_length in E.
Qed.

(** X5. Called with the length of the name, [FS_IsExt] answers, and it
    answers [qtrue] exactly when the name ends in the extension, the
    case of letters set aside. *)
Theorem FS_IsExt_suffix (filename ext : string) :
  exists b,
    FS_IsExt filename ext (CStr.strlen filename) = Some b
    /\ (b = true <-> exists a e, filename = a +:+ e /\ same_nocase e ext).
Proof.
  unfold FS_IsExt, CStr.strlen.
  destruct (Z.gtb_spec (Z.of_nat (String.length ext)) (Z.of_nat (String.length filename)))
    as [Hlong|Hshort].
  - exists false. split; [reflexivity|]. split; [discriminate|].
    intros (a & e & -> & Hs). apply same_nocase_length in Hs.
    rewrite length_app_string in Hlong. lia.
  - destruct (advance_some (Z.to_nat (Z.of_nat (String.length filename)
                                      - Z.of_nat (String.length ext))) filename)
      as [t Ht]; [lia|].
    rewrite Ht. eexists. split; [reflexivity|].
    apply advance_spec in Ht as (a & Ea & Hl).
    rewrite Z.eqb_eq, Q_stricmp_zero. split.
    + intros Hs. eauto.
    + intros (a' & e & Ea' & Hs). replace t with e; [exact Hs|].
      apply (app_inv_length a' a); [congruence|].
      apply same_nocase_length in Hs. rewrite Hs.
      apply (f_equal String.length) in Ea. rewrite length_app_string in Ea. lia.
Qed.

Example FS_IsExt_sample :
  FS_IsExt "iw_00.IWD" ".iwd" 9 = Some true
  /\ FS_IsExt "iw_00.iwd" ".ff" 9 = Some false
  /\ FS_IsExt "wd" ".iwd" 2 = Some false.
Proof. repeat split; reflexivity. Qed.

(** ** What a write leaves in the file *)

Lemma write_at_inside (w : nat) (d c : list byte) :
  (w <= length c)%nat ->
  Libc.write_at w d c = take w c ++ d ++ drop (w + length d) c.
Proof.
  intros Hw. unfold Libc.write_at.
  replace (w - length c)%nat with 0%nat by lia. reflexivity.
Qed.

Lemma overwrite_nil (w : Z) (c : list byte) : overwrite w [] c = c.
Proof.
  unfold overwrite. cbn [app length]. rewrite Nat.add_0_r. apply take_drop.
Qed.

Lemma overwrite_length (w : Z) (d c : list byte) :
  0 <= w <= Z.of_nat (length c) ->
  Z.of_nat (length (overwrite w d c)) = Z.max (Z.of_nat (length c)) (w + Z.of_nat (length d)).
Proof.
  intros Hw. unfold overwrite. rewrite !length_app, length_take, length_drop. lia.
Qed.

Lemma overwrite_app (w : Z) (d1 d2 c : list byte) :
  0 <= w <= Z.of_nat (length c) ->
  overwrite (w + Z.of_nat (length d1)) d2 (overwrite w d1 c) = overwrite w (d1 ++ d2) c.
Proof.
  intros Hw. unfold overwrite.
  rewrite Z2Nat.inj_add, Nat2Z.id by lia.
  set (P := take (Z.to_nat w) c).
  assert (length P = Z.to_nat w) as Hl by (subst P; rewrite length_take; lia).
  set (R := drop (Z.to_nat w + length d1) c).
  rewrite (app_assoc P d1 R).
  rewrite (take_app_length' (P ++ d1) R) by (rewrite length_app; lia).
  rewrite (drop_app_add' (P ++ d1) R) by (rewrite length_app; lia).
  subst R. rewrite drop_drop, length_app, <- !app_assoc.
  now rewrite Nat.add_assoc.
Qed.

Lemma overwrite_append (d c : list byte) : overwrite (Z.of_nat (length c)) d c = c ++ d.
Proof.
  unfold overwrite. rewrite Nat2Z.id, firstn_all, drop_ge by lia.
  now rewrite app_nil_r.
Qed.

Section WriteContent.

Context `{Platform}.

Lemma FS_Write_loop_stores fuel : forall rem tries buf fp s p m pos c w,
  write_target s fp p m pos c w ->
  Forall (fun k => 0 <= k) (script (sys s)) -> 0 <= tries ->
  stalls (script (sys s)) + tries <= 1 ->
  0 <= rem < 2 ^ 32 -> rem <= Z.of_nat (length buf) ->
  (Z.to_nat rem + Z.to_nat (1 - tries) + 1 <= fuel)%nat ->
  exists s' pos',
    FS_Write_loop fuel rem tries buf fp s = Ret None s'
    /\ only_sys s s'
    /\ streams (sys s') !! fp = Some (mkFILE p m pos')
    /\ disk (sys s') = <[p := overwrite w (take (Z.to_nat rem) buf) c]> (disk (sys s))
    /\ (script (sys s) = [] -> script (sys s') = []).
Proof.
  induction fuel as [|fuel IH]; intros rem tries buf fp s p m pos c w
    Hwt Hnn Htries Hst Hrem Hbuf Hfuel; [lia|].
  cbn [FS_Write_loop].
  pose proof Hwt as (Hfp & Hc & Hw & Hwc).
  destruct (Z.eqb_spec rem 0) as [->|Hne].
  { exists s, pos. split; [reflexivity|]. split; [apply only_sys_refl|].
    split; [exact Hfp|]. split; [|auto].
    cbn. rewrite overwrite_nil. symmetry. now apply insert_id. }
  unfold bind at 1.
  rewrite (fwrite_spec buf rem fp s _ Hfp). cbv zeta. cbn [f_path f_mode f_pos].
  rewrite Hc. cbn [default from_option]. unfold id. fold (write_pos m pos c). rewrite <- Hw.
  rewrite to_size_t_small by lia.
  set (sc := script (sys s)) in *.
  set (k := next_count s rem rem).
  assert (0 <= k <= rem /\ (k = 0 -> exists sc', sc = 0 :: sc')) as (Hk & Hk0).
  { subst k. unfold next_count. fold sc. destruct sc as [|k sc']; [split; [lia|intros; lia]|].
    apply Forall_cons in Hnn as [Hk _].
    destruct (Z.ltb_spec k 0) as [?|_]; [lia|]. split; [lia|].
    intros Hz. exists sc'. f_equal. lia. }
  assert (Forall (fun k => 0 <= k) (tl sc)) as Hnn' by (destruct sc; [constructor|now inversion Hnn]).
  pose proof (stalls_nonneg (tl sc)) as Hsp.
  destruct (Z.eqb_spec k 0) as [Ez|Ez].
  - destruct (Hk0 Ez) as (sc' & Esc). rewrite Esc in *. cbn [stalls tl] in *. cbn [Z.eqb] in Hst.
    rewrite Ez. cbn [Z.leb Z.compare].
    assert (tries = 0) as -> by lia. cbn [Z.eqb negb andb].
    set (s1 := after_transfer _ _ _ _ _ s).
    assert (write_target s1 fp p m pos c w) as Hwt1.
    { subst s1. unfold write_target, after_transfer. cbn. rewrite lookup_insert_eq. auto. }
    destruct (IH (rem - 0) 1 (drop (Z.to_nat 0) buf) fp s1 p m pos c w Hwt1)
      as (s' & pos' & Heq & Hos & Hfp' & Hd' & Hsc'); try lia.
    { subst s1. unfold after_transfer. cbn. fold sc. rewrite Esc. exact Hnn'. }
    { subst s1. unfold after_transfer. cbn. fold sc. rewrite Esc. cbn. lia. }
    { change (Z.to_nat 0) with 0%nat. rewrite drop_0. lia. }
    exists s', pos'. rewrite Heq. split; [reflexivity|].
    split; [eapply only_sys_trans; [apply only_sys_after_transfer|exact Hos]|].
    split; [exact Hfp'|]. split.
    + rewrite Hd'. rewrite Z.sub_0_r. reflexivity.
    + discriminate.
  - destruct (Z.leb_spec k 0) as [?|_]; [lia|]. cbn [andb].
    destruct (Z.eqb_spec k (-1)) as [?|_]; [lia|].
    rewrite write_at_inside by lia. fold (overwrite w (take (Z.to_nat k) buf) c).
    set (d1 := take (Z.to_nat k) buf).
    assert (Z.of_nat (length d1) = k) as Hd1 by (subst d1; rewrite length_take; lia).
    set (c1 := overwrite w d1 c).
    set (s1 := after_transfer _ _ _ _ _ s).
    assert (write_target s1 fp p m (w + k) c1 (w + k)) as Hwt1.
    { subst s1. unfold write_target, after_transfer. cbn.
      rewrite !lookup_insert_eq. repeat split; try lia.
      - unfold write_pos. destruct m; try reflexivity.
        subst c1. rewrite overwrite_length by lia.
        unfold write_pos in Hw. lia.
      - subst c1. rewrite overwrite_length by lia. lia. }
    destruct (IH (rem - k) tries (drop (Z.to_nat k) buf) fp s1 p m (w + k) c1 (w + k) Hwt1)
      as (s' & pos' & Heq & Hos & Hfp' & Hd' & Hsc'); try lia.
    { subst s1. unfold after_transfer. cbn. exact Hnn'. }
    { subst s1. unfold after_transfer. cbn. fold sc.
      destruct sc as [|k0 sc']; cbn [tl stalls] in *; [lia|]. destruct (k0 =? 0); lia. }
    { rewrite length_drop. lia. }
    exists s', pos'. rewrite Heq. split; [reflexivity|].
    split; [eapply only_sys_trans; [apply only_sys_after_transfer|exact Hos]|].
    split; [exact Hfp'|]. split.
    + rewrite Hd'. subst s1. unfold after_transfer. cbn. rewrite insert_insert_eq. f_equal.
      subst c1. rewrite <- Hd1 at 1. rewrite overwrite_app by lia. f_equal.
      subst d1. rewrite take_take_drop. f_equal. lia.
    + intros Esc. apply Hsc'. subst s1. unfold after_transfer. cbn. fold sc. now rewrite Esc.
Qed.

End WriteContent.

Lemma traced_twice c1 c2 s : traced c2 (traced c1 s) = traced (c1 ++ c2) s.
Proof. unfold traced. cbn. unfold set_sys. cbn. now rewrite app_assoc. Qed.

Lemma only_sys_traced calls s : only_sys s (traced calls s).
Proof. reflexivity. Qed.

Lemma fflush_traced fp s :
  is_Some (streams (sys s) !! fp) ->
  Libc.fflush fp s = Ret 0 (traced [sys_fflush fp] s).
Proof.
  intros [st Hst].
  unfold Libc.fflush, Libc.stream, Libc.called, Libc.upd, bind, ret, gets, modify, undefined.
  destruct (fp =? NULL); cbn; rewrite ?Hst; reflexivity.
Qed.

Section WriteStores.

Context `{Platform}.

(** What a complete [FS_Write] leaves behind. *)
Lemma FS_Write_spec (h : fileHandle_t) (buffer : list byte) (len : Z) (s : FS)
    (p : string) (m : fmode) (pos : Z) (c : list byte) (w : Z) :
  fs_searchpaths s <> [] -> 0 < h <= MAX_FILE_HANDLES ->
  handleFiles_file (fsh s !!! h) <> NULL ->
  write_target s (handleFiles_file (fsh s !!! h)) p m pos c w ->
  Forall (fun k => 0 <= k) (script (sys s)) -> stalls (script (sys s)) <= 1 ->
  0 <= len < 2 ^ 31 -> len <= Z.of_nat (length buffer) ->
  exists s',
    FS_Write buffer len h s = Ret len s'
    /\ disk (sys s') = <[p := overwrite w (take (Z.to_nat len) buffer) c]> (disk (sys s))
    /\ only_sys s s'
    /\ is_Some (streams (sys s') !! handleFiles_file (fsh s !!! h))
    /\ (script (sys s) = [] -> script (sys s') = []).
Proof.
  intros Hinit Hh Hn Hwt Hnn Hst Hlen Hbuf.
  rewrite (FS_Write_plain buffer len h s Hinit Hh Hn).
  destruct (FS_Write_loop_stores (Z.to_nat len + 3) len 0 buffer _ s p m pos c w Hwt Hnn)
    as (s1 & pos' & Heq & Hos & Hfp & Hd & Hsc); try lia.
  unfold bind at 1. rewrite Heq.
  destruct (only_sys_fields s s1 Hos) as (_ & Efsh & _).
  unfold bind at 1, slot at 1, gets at 1. rewrite Efsh.
  destruct (handleSync (fsh s !!! h)).
  - unfold bind at 1. unfold bind at 1. rewrite fflush_traced by eauto.
    unfold ret. eexists. split; [reflexivity|]. cbn.
    split; [exact Hd|]. split; [|split; [eauto|exact Hsc]].
    eapply only_sys_trans; [exact Hos|apply only_sys_traced].
  - unfold bind at 1, ret. eexists. split; [reflexivity|].
    split; [exact Hd|]. split; [exact Hos|]. split; [eauto|exact Hsc].
Qed.

(** Closing a plain handle. *)
Lemma FS_FCloseFile_plain h s :
  zipFile (fsh s !!! h) = false -> handleFiles_file (fsh s !!! h) <> NULL ->
  is_Some (streams (sys s) !! handleFiles_file (fsh s !!! h)) ->
  exists s',
    FS_FCloseFile h s = Ret true s'
    /\ same_setup s s'
    /\ fsh s' = <[h := zeroed]> (fsh s)
    /\ disk (sys s') = disk (sys s)
    /\ script (sys s') = script (sys s)
    /\ streams (sys s') = delete (handleFiles_file (fsh s !!! h)) (streams (sys s))
    /\ io (sys s') = io (sys s) ++ [sys_fclose (handleFiles_file (fsh s !!! h))]
    /\ console s' = console s.
Proof.
  intros Hz Hn [st Hst].
  unfold FS_FCloseFile. unfold bind at 1, slot, gets. rewrite Hz.
  destruct (Z.eqb_spec (handleFiles_file (fsh s !!! h)) NULL) as [?|_]; [contradiction|].
  cbn [negb].
  unfold Libc.fclose, Libc.stream, Libc.called, Libc.upd, set_slot, bind, ret, gets, modify,
    undefined.
  cbn. rewrite Hst. cbn. eexists. split; [reflexivity|]. cbn.
  repeat split; reflexivity.
Qed.

(** X6. [FS_Write] through partial transfers, up to the close. Whatever
    the pieces in which the native writes take the data (no error, at
    most one write of nothing), [FS_Write] returns [len] and changes
    neither the handle table nor the configuration. Once the handle is
    closed by [FS_FCloseFile] the file holds its old bytes with the first
    [len] bytes of the buffer put over them from the write position on;
    that is the end of the file for a stream opened to append. On a
    handle with [handleSync] this is so when [FS_Write] returns: its
    last native call is then the [fflush] of the stream. *)
Theorem FS_Write_stores (h : fileHandle_t) (buffer : list byte) (len : Z) (s : FS)
    (p : string) (m : fmode) (pos : Z) (c : list byte) (w : Z) :
  fs_searchpaths s <> [] -> 0 < h < MAX_FILE_HANDLES ->
  zipFile (fsh s !!! h) = false -> handleFiles_file (fsh s !!! h) <> NULL ->
  write_target s (handleFiles_file (fsh s !!! h)) p m pos c w ->
  Forall (fun k => 0 <= k) (script (sys s)) -> stalls (script (sys s)) <= 1 ->
  0 <= len < 2 ^ 31 -> len <= Z.of_nat (length buffer) ->
  let content := overwrite w (take (Z.to_nat len) buffer) c in
  exists s1 s2,
    FS_Write buffer len h s = Ret len s1
    /\ only_sys s s1
    /\ FS_FCloseFile h s1 = Ret true s2
    /\ disk (sys s2) = <[p := content]> (disk (sys s))
    /\ (handleSync (fsh s !!! h) = true ->
        disk (sys s1) = <[p := content]> (disk (sys s))
        /\ last (io (sys s1)) = Some (sys_fflush (handleFiles_file (fsh s !!! h)))).
Proof.
  intros Hinit Hh Hz Hn Hwt Hnn Hst Hlen Hbuf content.
  assert (exists s1,
            FS_Write buffer len h s = Ret len s1
            /\ only_sys s s1
            /\ disk (sys s1) = <[p := content]> (disk (sys s))
            /\ is_Some (streams (sys s1) !! handleFiles_file (fsh s !!! h))
            /\ (handleSync (fsh s !!! h) = true ->
                last (io (sys s1)) = Some (sys_fflush (handleFiles_file (fsh s !!! h)))))
    as (s1 & Heq & Hos & Hd & Hfp & Hfl).
  { assert (0 < h <= MAX_FILE_HANDLES) as Hh' by lia.
    rewrite (FS_Write_plain buffer len h s Hinit Hh' Hn).
    destruct (FS_Write_loop_stores (Z.to_nat len + 3) len 0 buffer _ s p m pos c w Hwt Hnn)
      as (s1 & pos' & Heq & Hos & Hfp & Hd & Hsc); try lia.
    unfold bind at 1. rewrite Heq.
    destruct (only_sys_fields s s1 Hos) as (_ & Efsh & _).
    unfold bind at 1, slot at 1, gets at 1. rewrite Efsh.
    destruct (handleSync (fsh s !!! h)).
    - unfold bind at 1. unfold bind at 1. rewrite fflush_traced by eauto.
      unfold ret. eexists. split; [reflexivity|]. cbn.
      split; [eapply only_sys_trans; [exact Hos|apply only_sys_traced]|].
      split; [exact Hd|]. split; [eauto|]. intros _. apply last_snoc.
    - unfold bind at 1, ret. eexists. split; [reflexivity|].
      split; [exact Hos|]. split; [exact Hd|]. split; [eauto|]. discriminate. }
  destruct (only_sys_fields s s1 Hos) as (_ & Efsh & _).
  destruct (FS_FCloseFile_plain h s1) as (s2 & Hcl & _ & _ & Hd2 & _);
    rewrite ?Efsh; auto.
  exists s1, s2. split; [exact Heq|]. split; [exact Hos|]. split; [exact Hcl|].
  split; [now rewrite Hd2|]. intros Hsync. split; [exact Hd|]. now apply Hfl.
Qed.

End WriteStores.

Lemma FS_Write_stores_witness :
  let content := overwrite 0 (take (Z.to_nat 3) [x0a; x0b; x0c; x0d]) [] in
  exists s1 s2,
    FS_Write (H := unix_build) [x0a; x0b; x0c; x0d] 3 1 (writing_fs [1; 0; 5]) = Ret 3 s1
    /\ only_sys (writing_fs [1; 0; 5]) s1
    /\ FS_FCloseFile 1 s1 = Ret true s2
    /\ disk (sys s2) = <["/home/user/out.dat" := content]> (disk (sys (writing_fs [1; 0; 5])))
    /\ (handleSync (fsh (writing_fs [1; 0; 5]) !!! 1) = true ->
        disk (sys s1) = <["/home/user/out.dat" := content]> (disk (sys (writing_fs [1; 0; 5])))
        /\ last (io (sys s1))
           = Some (sys_fflush (handleFiles_file (fsh (writing_fs [1; 0; 5]) !!! 1)))).
Proof.
  apply (FS_Write_stores (H := unix_build) 1 [x0a; x0b; x0c; x0d] 3 (writing_fs [1; 0; 5])
           "/home/user/out.dat" mode_wb 0 [] 0).
  - discriminate.
  - cbn. lia.
  - reflexivity.
  - discriminate.
  - repeat split; cbn; lia.
  - repeat constructor; lia.
  - cbn. lia.
  - lia.
  - cbn. lia.
Defined.

(** ** Making directories *)

Lemma mkdirs_done_twice dr1 c1 dr2 c2 s :
  mkdirs_done dr2 c2 (mkdirs_done dr1 c1 s) = mkdirs_done dr2 (c1 ++ c2) s.
Proof. unfold mkdirs_done. cbn. unfold set_sys. cbn. now rewrite app_assoc. Qed.

Lemma mkdirs_done_none s : mkdirs_done (dirs (sys s)) [] s = s.
Proof. destruct s as [? ? ? ? ? ? ? ? ? []]. unfold mkdirs_done. cbn. now rewrite app_nil_r. Qed.

Lemma app_empty_r (a : string) : a +:+ EmptyString = a.
Proof. induction a as [|c a IH]; [reflexivity|now rewrite app_cons, IH]. Qed.

Lemma split_cons (c : ascii) (rest r1 r2 : string) (sep : ascii) :
  String c rest = r1 +:+ String sep r2 <->
  (r1 = EmptyString /\ c = sep /\ rest = r2)
  \/ exists r1', r1 = String c r1' /\ rest = r1' +:+ String sep r2.
Proof.
  destruct r1 as [|x r1].
  - rewrite app_empty_l. split.
    + intros [= -> ->]. auto.
    + intros [(_ & -> & ->)|(r & Hr & _)]; [reflexivity|discriminate].
  - rewrite app_cons. split.
    + intros [= -> ->]. right. eauto.
    + intros [(Hr & _)|(r & [= <- <-] & ->)]; [discriminate|reflexivity].
Qed.

Section CreatePath.

Context `{Platform}.

Lemma Sys_Mkdir_spec p s :
  exists b dr,
    Sys_Mkdir p s = Ret b (mkdirs_done dr [sys_mkdir p] s)
    /\ dirs (sys s) ⊆ dr
    /\ (forall q, q ∈ dr -> q ∈ dirs (sys s) \/ q = p)
    /\ dir_settled (sys s) dr p.
Proof.
  unfold Sys_Mkdir, Libc.mkdir, bind, Libc.called, Libc.upd, modify, gets, ret, mkdirs_done,
    dir_settled.
  destruct s as [sp0 t gd home base game dbg ls con [dk dr nw sm zs np sc tr]]. cbn.
  destruct (bool_decide (p ∈ dr)) eqn:E1; cbn.
  { apply bool_decide_eq_true in E1. exists true, dr. repeat split; auto. }
  destruct (bool_decide (is_Some (dk !! p))) eqn:E2; cbn.
  { apply bool_decide_eq_true in E2. exists true, dr. repeat split; auto. }
  destruct (bool_decide (p ∈ nw)) eqn:E3; cbn.
  { apply bool_decide_eq_true in E3. exists false, dr. repeat split; auto. }
  exists true, ({[p]} ∪ dr). split; [reflexivity|].
  split; [set_solver|]. split; [|left; set_solver].
  intros q Hq. apply elem_of_union in Hq as [Hq|Hq]; [right; now apply elem_of_singleton in Hq|auto].
Qed.

Lemma create_dirs_spec rest : forall done s,
  exists dr calls,
    create_dirs done rest s = Ret tt (mkdirs_done dr calls s)
    /\ dirs (sys s) ⊆ dr
    /\ (forall q, q ∈ dr ->
          q ∈ dirs (sys s) \/ (String.length q < String.length (done +:+ rest))%nat)
    /\ (forall call, In call calls <->
          exists r1 r2, rest = r1 +:+ String PATH_SEP r2 /\ call = sys_mkdir (done +:+ r1))
    /\ (forall r1 r2, rest = r1 +:+ String PATH_SEP r2 -> dir_settled (sys s) dr (done +:+ r1)).
Proof.
  induction rest as [|c rest IH]; intros done s.
  - exists (dirs (sys s)), []. cbn. rewrite mkdirs_done_none.
    split; [reflexivity|]. split; [reflexivity|]. split; [auto|]. split.
    + intros call. split; [intros []|].
      intros ([|x r1] & r2 & E & _); [rewrite app_empty_l in E|rewrite app_cons in E];
        discriminate.
    + intros [|x r1] r2 E; [rewrite app_empty_l in E|rewrite app_cons in E]; discriminate.
  - cbn [create_dirs]. unfold bind at 1.
    assert (forall q, (String.length q < String.length ((done +:+ String c EmptyString) +:+ rest))%nat ->
                      (String.length q < String.length (done +:+ String c rest))%nat) as Hlen.
    { intros q. rewrite !length_app_string. cbn. lia. }
    assert (forall r, (done +:+ String c EmptyString) +:+ r = done +:+ String c r) as Hsnoc.
    { intros r. rewrite app_assoc_string, app_cons, app_empty_l. reflexivity. }
    destruct (Ascii.eqb_spec c PATH_SEP) as [Ec|Ec].
    + destruct (Sys_Mkdir_spec done s) as (b & dr1 & Hmk & Hsub1 & Hdr1 & Hset1).
      unfold bind at 1. rewrite Hmk. cbn [ret].
      destruct (IH (done +:+ String c EmptyString) (mkdirs_done dr1 [sys_mkdir done] s))
        as (dr2 & calls & Heq & Hsub2 & Hdr2 & Hcalls & Hset2).
      cbn in Hsub2, Hset2.
      exists dr2, ([sys_mkdir done] ++ calls). rewrite Heq, mkdirs_done_twice.
      split; [reflexivity|]. split; [now transitivity dr1|]. split; [|split].
      * intros q Hq.
        destruct (Hdr2 q Hq) as [Hq1|Hq1]; [|right; now apply Hlen].
        cbn in Hq1. destruct (Hdr1 q Hq1) as [?| ->]; [auto|right].
        rewrite length_app_string. cbn. lia.
      * intros call. cbn [app In]. split.
        -- intros [<-|Hin].
           ++ exists EmptyString, rest. rewrite app_empty_l, Ec, app_empty_r. auto.
           ++ destruct (proj1 (Hcalls call) Hin) as (r1 & r2 & -> & ->).
              exists (String c r1), r2. rewrite app_cons, Hsnoc. auto.
        -- intros (r1 & r2 & E & ->). apply split_cons in E as [(-> & _ & ->)|(r1' & -> & ->)].
           ++ left. now rewrite app_empty_r.
           ++ right. apply Hcalls. exists r1', r2. rewrite Hsnoc. auto.
      * intros r1 r2 E. apply split_cons in E as [(-> & _ & ->)|(r1' & -> & ->)].
        -- rewrite app_empty_r.
           destruct Hset1 as [Hd|[?|?]]; [left|right; left; assumption|right; right; assumption].
           revert Hd. now apply elem_of_subseteq.
        -- rewrite <- Hsnoc. now apply (Hset2 r1' r2).
    + cbn [ret].
      destruct (IH (done +:+ String c EmptyString) s)
        as (dr2 & calls & Heq & Hsub2 & Hdr2 & Hcalls & Hset2).
      exists dr2, calls. rewrite Heq. split; [reflexivity|]. split; [exact Hsub2|].
      split; [|split].
      * intros q Hq. destruct (Hdr2 q Hq) as [?|?]; [auto|right; now apply Hlen].
      * intros call. split.
        -- intros Hin. destruct (proj1 (Hcalls call) Hin) as (r1 & r2 & -> & ->).
           exists (String c r1), r2. rewrite app_cons, Hsnoc. auto.
        -- intros (r1 & r2 & E & ->). apply split_cons in E as [(_ & ? & _)|(r1' & -> & ->)];
             [contradiction|].
           apply Hcalls. exists r1', r2. rewrite Hsnoc. auto.
      * intros r1 r2 E. apply split_cons in E as [(_ & ? & _)|(r1' & -> & ->)];
          [contradiction|].
        rewrite <- Hsnoc. now apply (Hset2 r1' r2).
Qed.

End CreatePath.

Section CreatePathParents.

Context `{Platform}.

Lemma FS_CreatePath_spec OSPath s :
  OSPath <> EmptyString ->
  ~ has_substring ".." OSPath -> ~ has_substring "::" OSPath ->
  exists dr calls,
    FS_CreatePath OSPath s = Ret false (mkdirs_done dr calls s)
    /\ dirs (sys s) ⊆ dr
    /\ (forall q, q ∈ dr ->
          q ∈ dirs (sys s) \/ (String.length q < String.length OSPath)%nat)
    /\ (forall call, In call calls <->
          exists a b, a <> EmptyString /\ OSPath = a +:+ String PATH_SEP b
                      /\ call = sys_mkdir a)
    /\ (forall a b, a <> EmptyString -> OSPath = a +:+ String PATH_SEP b ->
                    dir_settled (sys s) dr a).
Proof.
  intros Hne Hdd Hcc. unfold FS_CreatePath.
  replace (CStr.strstr OSPath "..") with false
    by (symmetry; apply not_true_is_false; intros E; apply strstr_spec in E; contradiction).
  replace (CStr.strstr OSPath "::") with false
    by (symmetry; apply not_true_is_false; intros E; apply strstr_spec in E; contradiction).
  cbn [orb]. destruct OSPath as [|c rest]; [contradiction|].
  destruct (create_dirs_spec rest (String c EmptyString) s)
    as (dr & calls & Heq & Hsub & Hdr & Hcalls & Hset).
  unfold bind at 1. rewrite Heq. exists dr, calls.
  split; [reflexivity|]. split; [exact Hsub|]. split; [exact Hdr|]. split.
  - intros call. rewrite Hcalls. split.
    + intros (r1 & r2 & -> & ->). exists (String c r1), r2.
      rewrite !app_cons, app_empty_l. repeat split. discriminate.
    + intros ([|x a] & b & Ha & E & ->); [contradiction|].
      rewrite app_cons in E. injection E as -> ->.
      exists a, b. now rewrite app_cons, app_empty_l.
  - intros [|x a] b Ha E; [contradiction|].
    rewrite app_cons in E. injection E as -> ->.
    specialize (Hset a b eq_refl). now rewrite app_cons, app_empty_l in Hset.
Qed.

(** X7. [FS_CreatePath] on a path with no [..] and no [::] answers [qfalse]
    whatever [mkdir] answers. It calls [mkdir] on the text before every
    [PATH_SEP] after the first character, and on nothing else, so not
    on the path itself; afterwards each of these is a directory, unless
    a file of that name or the OS stood in the way. No file changes. *)
Theorem FS_CreatePath_makes_parents (OSPath : string) (s : FS) :
  OSPath <> EmptyString ->
  ~ has_substring ".." OSPath -> ~ has_substring "::" OSPath ->
  exists s' calls,
    FS_CreatePath OSPath s = Ret false s'
    /\ only_sys s s'
    /\ disk (sys s') = disk (sys s)
    /\ io (sys s') = io (sys s) ++ calls
    /\ (forall call, In call calls <->
          exists a b, a <> EmptyString /\ OSPath = a +:+ String PATH_SEP b
                      /\ call = sys_mkdir a)
    /\ (forall a b, a <> EmptyString -> OSPath = a +:+ String PATH_SEP b ->
                    dir_settled (sys s) (dirs (sys s')) a)
    /\ dirs (sys s) ⊆ dirs (sys s').
Proof.
  intros Hne Hdd Hcc.
  destruct (FS_CreatePath_spec OSPath s Hne Hdd Hcc)
    as (dr & calls & Heq & Hsub & _ & Hcalls & Hset).
  exists (mkdirs_done dr calls s), calls.
  split; [exact Heq|]. split; [reflexivity|]. cbn. auto.
Qed.

End CreatePathParents.

Lemma FS_CreatePath_makes_parents_witness :
  exists s' calls,
    FS_CreatePath (H := unix_build) "/home/user/saves/slot1.sav" sample_fs = Ret false s'
    /\ only_sys sample_fs s'
    /\ disk (sys s') = disk (sys sample_fs)
    /\ io (sys s') = io (sys sample_fs) ++ calls
    /\ (forall call, In call calls <->
          exists a b, a <> EmptyString
                      /\ "/home/user/saves/slot1.sav" = a +:+ String "/"%char b
                      /\ call = sys_mkdir a)
    /\ (forall a b, a <> EmptyString ->
                    "/home/user/saves/slot1.sav" = a +:+ String "/"%char b ->
                    dir_settled (sys sample_fs) (dirs (sys s')) a)
    /\ dirs (sys sample_fs) ⊆ dirs (sys s').
Proof.
  apply (FS_CreatePath_makes_parents (H := unix_build) "/home/user/saves/slot1.sav" sample_fs).
  - discriminate.
  - intros E. apply strstr_spec in E. discriminate.
  - intros E. apply strstr_spec in E. discriminate.
Defined.

(** ** Server-side files *)

Section ServerFiles.

Context `{Platform}.

Lemma FS_BuildOSPath_spec base game qpath s :
  FS_BuildOSPath base game qpath s = Ret (os_path (fs_gamedir s) base game qpath) s.
Proof. reflexivity. Qed.

Lemma sv_ospath_chop gd base filename :
  CStr.chop (os_path gd base filename EmptyString) = sv_ospath gd base filename.
Proof. reflexivity. Qed.

Lemma first_free_none_inv t i n :
  first_free t i n = None ->
  forall k, i <= k < i + Z.of_nat n -> handleFiles_file (t !!! k) <> NULL.
Proof.
  revert i; induction n as [|n IH]; intros i Hf k Hk; [lia|].
  simpl in Hf. destruct (Z.eqb_spec (handleFiles_file (t !!! i)) NULL) as [E|E]; [discriminate|].
  destruct (Z.eq_dec k i) as [->|Hne]; [exact E|]. apply (IH (i + 1) Hf). lia.
Qed.

Lemma FS_HandleForFile_free s :
  has_free_handle s ->
  exists f, (forall s', fsh s' = fsh s -> FS_HandleForFile s' = Ret f s')
            /\ 1 <= f < MAX_FILE_HANDLES /\ handleFiles_file (fsh s !!! f) = NULL
            /\ (forall k, 1 <= k < f -> handleFiles_file (fsh s !!! k) <> NULL).
Proof.
  intros (i & Hi & Hnull).
  destruct (first_free (fsh s) 1 (Z.to_nat (MAX_FILE_HANDLES - 1))) as [f|] eqn:E.
  - exists f. apply first_free_some in E as Hf. destruct Hf as (Hr & Hn & Hlow).
    split; [|split; [lia|split; [exact Hn|exact Hlow]]].
    intros s' Hs'. unfold FS_HandleForFile, bind, gets, ret. rewrite Hs', E. reflexivity.
  - exfalso. apply (first_free_none_inv _ _ _ E i); [lia|exact Hnull].
Qed.

Lemma zeroed_restores (t : gmap Z fileHandleData_t) f d i :
  handleFiles_file (t !!! f) = NULL ->
  handleFiles_file (<[f := zeroed]> (<[f := d]> t) !!! i) = handleFiles_file (t !!! i).
Proof.
  intros Hn. rewrite insert_insert_eq.
  destruct (Z.eq_dec i f) as [->|Hne].
  - rewrite lookup_total_insert_eq. cbn. now rewrite Hn.
  - now rewrite lookup_total_insert_ne by congruence.
Qed.

(** The server-side open for writing, or for appending, on a name whose
    file can be made. *)
Lemma FS_SV_FOpenFileWrite_ok filename s f :
  fs_searchpaths s <> [] ->
  (forall s', fsh s' = fsh s -> FS_HandleForFile s' = Ret f s') ->
  writable s (sv_home s filename) ->
  exists s1 d1,
    FS_SV_FOpenFileWrite filename s = Ret f s1
    /\ same_setup s s1
    /\ fsh s1 = <[f := d1]> (fsh s)
    /\ zipFile d1 = false /\ handleSync d1 = false
    /\ handleFiles_file d1 <> NULL
    /\ streams (sys s1) !! handleFiles_file d1 = Some (mkFILE (sv_home s filename) mode_wb 0)
    /\ disk (sys s1) = <[sv_home s filename := []]> (disk (sys s))
    /\ script (sys s1) = script (sys s).
Proof.
  intros Hinit Hfree (Hne & Hdd & Hcc & Hnw & Hnd).
  unfold FS_SV_FOpenFileWrite.
  unfold bind at 1, gets at 1.
  destruct (fs_searchpaths s) as [|sp sps] eqn:Esp; [contradiction|].
  unfold bind at 1, ret at 1. unfold bind at 1, gets at 1.
  unfold bind at 1. rewrite FS_BuildOSPath_spec. rewrite sv_ospath_chop. fold (sv_home s filename).
  remember (sv_home s filename) as ospath eqn:Eos. clear Eos.
  unfold bind at 1. rewrite (Hfree s eq_refl).
  destruct s as [sp0 t gd home base game dbg ls con [dk dr nw sm zs np sc tr]].
  cbn in Hnw, Hnd, Esp. subst sp0.
  unfold debug_print, upd_slot, slot, set_slot, bind, ret, gets, modify, Com_Printf.
  destruct dbg; cbn.
  all: match goal with |- context [FS_CreatePath ?o ?st] =>
         destruct (FS_CreatePath_spec o st Hne Hdd Hcc) as (dr' & calls & Heq & _ & Hdr & _);
         rewrite Heq; cbn in Hdr end.
  all: assert (ospath ∉ dr') as Hnd'
         by (intros Hin; destruct (Hdr _ Hin) as [?|?]; [contradiction|lia]).
  all: unfold Libc.fopen, Libc.called, Libc.upd, mkdirs_done,
         bind, ret, gets, modify; cbn.
  all: rewrite (bool_decide_eq_false_2 _ Hnw), (bool_decide_eq_false_2 _ Hnd'); crunch.
  all: do 2 eexists; (split; [reflexivity|]); crunch.
  all: repeat split; try reflexivity; try discriminate.
  all: cbn; apply lookup_insert_eq.
Qed.

Lemma FS_SV_FOpenFileAppend_ok filename s f :
  fs_searchpaths s <> [] ->
  (forall s', fsh s' = fsh s -> FS_HandleForFile s' = Ret f s') ->
  writable s (sv_home s filename) ->
  let old := default [] (disk (sys s) !! sv_home s filename) in
  exists s1 d1,
    FS_SV_FOpenFileAppend filename s = Ret f s1
    /\ same_setup s s1
    /\ fsh s1 = <[f := d1]> (fsh s)
    /\ zipFile d1 = false /\ handleSync d1 = false
    /\ handleFiles_file d1 <> NULL
    /\ streams (sys s1) !! handleFiles_file d1
       = Some (mkFILE (sv_home s filename) mode_ab (Z.of_nat (length old)))
    /\ disk (sys s1) = <[sv_home s filename := old]> (disk (sys s))
    /\ script (sys s1) = script (sys s).
Proof.
  intros Hinit Hfree (Hne & Hdd & Hcc & Hnw & Hnd) old. subst old.
  unfold FS_SV_FOpenFileAppend.
  unfold bind at 1, gets at 1.
  destruct (fs_searchpaths s) as [|sp sps] eqn:Esp; [contradiction|].
  unfold bind at 1, ret at 1.
  unfold bind at 1. rewrite (Hfree s eq_refl).
  unfold bind at 1, upd_slot at 1, modify at 1.
  unfold bind at 1, upd_slot at 1, modify at 1.
  unfold bind at 1, gets at 1.
  unfold bind at 1. rewrite FS_BuildOSPath_spec. cbn [fs_gamedir fs_homepath set_fsh].
  rewrite sv_ospath_chop. fold (sv_home s filename).
  remember (sv_home s filename) as ospath eqn:Eos. clear Eos.
  destruct s as [sp0 t gd home base game dbg ls con [dk dr nw sm zs np sc tr]].
  cbn in Hnw, Hnd, Esp. subst sp0.
  unfold debug_print, upd_slot, slot, set_slot, bind, ret, gets, modify, Com_Printf.
  destruct dbg; cbn.
  all: match goal with |- context [FS_CreatePath ?o ?st] =>
         destruct (FS_CreatePath_spec o st Hne Hdd Hcc) as (dr' & calls & Heq & _ & Hdr & _);
         rewrite Heq; cbn in Hdr end.
  all: assert (ospath ∉ dr') as Hnd'
         by (intros Hin; destruct (Hdr _ Hin) as [?|?]; [contradiction|lia]).
  all: unfold Libc.fopen, Libc.called, Libc.upd, mkdirs_done,
         bind, ret, gets, modify; cbn.
  all: rewrite (bool_decide_eq_false_2 _ Hnw), (bool_decide_eq_false_2 _ Hnd'); crunch.
  all: do 2 eexists; (split; [reflexivity|]); crunch.
  all: repeat split; try reflexivity; try discriminate.
  all: cbn; apply lookup_insert_eq.
Qed.

End ServerFiles.

Section ServerRead.

Context `{Platform}.

Lemma FS_SV_FOpenFileRead_home filename s f c :
  fs_searchpaths s <> [] ->
  (forall s', fsh s' = fsh s -> FS_HandleForFile s' = Ret f s') ->
  1 <= f < MAX_FILE_HANDLES ->
  disk (sys s) !! sv_home s filename = Some c ->
  exists s1 d1,
    FS_SV_FOpenFileRead filename s = Ret (Z.of_nat (length c), f) s1
    /\ same_setup s s1
    /\ fsh s1 = <[f := d1]> (fsh s)
    /\ zipFile d1 = false
    /\ handleFiles_file d1 <> NULL
    /\ streams (sys s1) !! handleFiles_file d1 = Some (mkFILE (sv_home s filename) mode_rb 0)
    /\ disk (sys s1) = disk (sys s)
    /\ script (sys s1) = script (sys s).
Proof.
  intros Hinit Hfree Hf Hc.
  unfold FS_SV_FOpenFileRead.
  unfold bind at 1, gets at 1.
  destruct (fs_searchpaths s) as [|sp sps] eqn:Esp; [contradiction|].
  unfold bind at 1, ret at 1.
  unfold bind at 1. rewrite (Hfree s eq_refl).
  unfold bind at 1, upd_slot at 1, modify at 1.
  unfold bind at 1, upd_slot at 1, modify at 1.
  unfold bind at 1, gets at 1.
  unfold bind at 1. rewrite FS_BuildOSPath_spec. cbn [fs_gamedir fs_homepath set_fsh].
  rewrite sv_ospath_chop. fold (sv_home s filename).
  remember (sv_home s filename) as ospath eqn:Eos. clear Eos.
  destruct s as [sp0 t gd home base game dbg ls con [dk dr nw sm zs np sc tr]].
  cbn in Hc, Esp. subst sp0.
  unfold debug_print, Libc.fopen, FS_filelength, FS_FileForHandle,
    Libc.ftell, Libc.fseek, Libc.stream, Libc.contents, Libc.set_pos, Libc.called, Libc.upd,
    upd_slot, slot, set_slot, bind, ret, gets, modify, Com_Printf, Com_Error, undefined.
  destruct dbg; cbn; rewrite Hc; crunch.
  all: destruct (Z.eqb_spec f 0) as [?|_]; [lia|]; cbn.
  all: replace ((f <? 0) || (f >? MAX_FILE_HANDLES)) with false by lia; crunch.
  all: rewrite Hc; crunch.
  all: destruct (Z.ltb_spec (Z.of_nat (length c) + 0) 0); [lia|]; crunch.
  all: change (0 + 0 <? 0) with false; crunch.
  all: rewrite Z.add_0_r; do 2 eexists; (split; [reflexivity|]); crunch.
  all: repeat split; try reflexivity; try discriminate.
  all: cbn; apply lookup_insert_eq.
Qed.

Lemma overwrite_empty (d : list byte) : overwrite 0 d [] = d.
Proof. unfold overwrite. cbn. now rewrite drop_nil, app_nil_r. Qed.

(** X8. A whole file written through the server-side call is what the
    server-side open for reading and [FS_Read] give back: the length
    returned by the open is the number of bytes written, and the read
    returns these bytes. The file of the home root holds the bytes,
    whatever it held before, and no handle stays in use. *)
Theorem FS_SV_WriteFile_then_read (filename : string) (bytes : list byte) (s : FS) :
  fs_searchpaths s <> [] -> has_free_handle s ->
  writable s (sv_home s filename) ->
  script (sys s) = [] -> Z.of_nat (length bytes) < 2 ^ 31 ->
  exists s1,
    FS_SV_WriteFile filename (Some bytes) (Z.of_nat (length bytes)) s = Ret tt s1
    /\ disk (sys s1) = <[sv_home s filename := bytes]> (disk (sys s))
    /\ same_handles s s1
    /\ exists f s2 s3,
         FS_SV_FOpenFileRead filename s1 = Ret (Z.of_nat (length bytes), f) s2
         /\ f <> 0
         /\ FS_Read (Z.of_nat (length bytes)) f s2 = Ret (Z.of_nat (length bytes), bytes) s3.
Proof.
  intros Hinit Hslot Hw Hsc Hlen.
  destruct (FS_HandleForFile_free s Hslot) as (f & Hfree & Hf & Hfnull & Hlow).
  set (target := sv_home s filename) in *.
  (* the write *)
  destruct (FS_SV_FOpenFileWrite_ok filename s f Hinit Hfree Hw)
    as (w1 & d1 & Hopen & Hset1 & Hfsh1 & Hz1 & Hsy1 & Hn1 & Hst1 & Hd1 & Hsc1).
  fold target in Hst1, Hd1.
  destruct Hset1 as (Esp1 & Egd1 & Ehome1 & _).
  assert (fsh w1 !!! f = d1) as Hslot1 by (rewrite Hfsh1; apply lookup_total_insert_eq).
  destruct (FS_Write_spec f bytes (Z.of_nat (length bytes)) w1 target mode_wb 0 [] 0)
    as (w2 & Hwr & Hd2 & Hos2 & Hst2 & Hsc2); try (rewrite ?Hslot1; first [assumption|lia]).
  { rewrite Esp1. exact Hinit. }
  { rewrite Hslot1. split; [exact Hst1|]. split; [rewrite Hd1; apply lookup_insert_eq|].
    split; [reflexivity|cbn; lia]. }
  { rewrite Hsc1, Hsc. constructor. }
  { rewrite Hsc1, Hsc. cbn. lia. }
  rewrite Nat2Z.id, firstn_all, overwrite_empty in Hd2.
  rewrite Hslot1 in Hst2.
  destruct (only_sys_fields w1 w2 Hos2) as (Esp2 & Efsh2 & _).
  assert (fs_gamedir w2 = fs_gamedir w1 /\ fs_homepath w2 = fs_homepath w1) as (Egd2 & Ehome2)
    by (unfold only_sys in Hos2; rewrite Hos2; cbn; auto).
  destruct (FS_FCloseFile_plain f w2) as (w3 & Hcl & Hset3 & Hfsh3 & Hd3 & Hsc3 & _);
    try (rewrite Efsh2, Hslot1; assumption).
  destruct Hset3 as (Esp3 & Egd3 & Ehome3 & _).
  assert (disk (sys w3) = <[target := bytes]> (disk (sys s))) as Hdisk3.
  { rewrite Hd3, Hd2, Hd1. apply insert_insert_eq. }
  assert (fsh w3 = <[f := zeroed]> (<[f := d1]> (fsh s))) as Htab3 by congruence.
  assert (script (sys w3) = []) as Hsc3' by (rewrite Hsc3; apply Hsc2; congruence).
  assert (sv_home w3 filename = target) as Etarget
    by (unfold target, sv_home; congruence).
  exists w3. split; [|split; [exact Hdisk3|split]].
  - unfold FS_SV_WriteFile. unfold bind at 1, gets at 1.
    destruct (fs_searchpaths s); [contradiction|].
    unfold bind at 1, ret at 1. unfold bind at 1. rewrite Hopen.
    destruct (Z.eqb_spec f 0) as [?|_]; [lia|].
    unfold bind at 1. rewrite Hwr. unfold bind at 1. rewrite Hcl. reflexivity.
  - intros i. rewrite Htab3. now apply zeroed_restores.
  - (* the read *)
    assert (forall s', fsh s' = fsh w3 -> FS_HandleForFile s' = Ret f s') as Hfree3.
    { intros s' Hs'. unfold FS_HandleForFile, bind, gets, ret.
      assert (first_free (fsh s') 1 (Z.to_nat (MAX_FILE_HANDLES - 1)) = Some f) as ->;
        [|reflexivity].
      apply first_free_skip; [| |lia].
      - intros k Hk. rewrite Hs', Htab3, zeroed_restores by exact Hfnull. apply Hlow. lia.
      - rewrite Hs', Htab3, zeroed_restores by exact Hfnull. exact Hfnull. }
    assert (fs_searchpaths w3 <> []) as Hinit3 by congruence.
    destruct (FS_SV_FOpenFileRead_home filename w3 f bytes Hinit3 Hfree3 Hf)
      as (r1 & e1 & Hropen & Hsetr & Hfshr & Hzr & Hnr & Hstr & Hdr & Hscr).
    { rewrite Etarget, Hdisk3. apply lookup_insert_eq. }
    rewrite Etarget in Hstr.
    assert (fsh r1 !!! f = e1) as Hslotr by (rewrite Hfshr; apply lookup_total_insert_eq).
    destruct (FS_Read_full f (Z.of_nat (length bytes)) r1 target mode_rb 0 bytes)
      as (r3 & Hrd & _); try lia.
    { destruct Hsetr as (-> & _). exact Hinit3. }
    { rewrite Hslotr. exact Hzr. }
    { unfold reading. rewrite Hslotr.
      repeat split; [exact Hstr|rewrite Hdr, Hdisk3; apply lookup_insert_eq]. }
    { rewrite Hscr, Hsc3'. constructor. }
    { rewrite Hscr, Hsc3'. cbn. lia. }
    exists f, r1, r3. split; [exact Hropen|]. split; [lia|].
    rewrite Hrd. change (Z.to_nat 0) with 0%nat. now rewrite drop_0, Nat2Z.id, firstn_all.
Qed.

(** X9. Appending keeps what the file holds. After the server-side open to
    append, [FS_Write] and [FS_FCloseFile], the file of the home root
    holds its old bytes (none for a new file) followed by the data, and
    no handle stays in use. *)
Theorem FS_SV_FOpenFileAppend_appends (filename : string) (data : list byte) (s : FS) :
  fs_searchpaths s <> [] -> has_free_handle s ->
  writable s (sv_home s filename) ->
  script (sys s) = [] -> Z.of_nat (length data) < 2 ^ 31 ->
  let old := default [] (disk (sys s) !! sv_home s filename) in
  exists f s1 s2 s3,
    FS_SV_FOpenFileAppend filename s = Ret f s1
    /\ f <> 0
    /\ FS_Write data (Z.of_nat (length data)) f s1 = Ret (Z.of_nat (length data)) s2
    /\ FS_FCloseFile f s2 = Ret true s3
    /\ disk (sys s3) = <[sv_home s filename := old ++ data]> (disk (sys s))
    /\ same_handles s s3.
Proof.
  intros Hinit Hslot Hw Hsc Hlen old.
  destruct (FS_HandleForFile_free s Hslot) as (f & Hfree & Hf & Hfnull & Hlow).
  set (target := sv_home s filename) in *.
  destruct (FS_SV_FOpenFileAppend_ok filename s f Hinit Hfree Hw)
    as (w1 & d1 & Hopen & Hset1 & Hfsh1 & Hz1 & Hsy1 & Hn1 & Hst1 & Hd1 & Hsc1).
  fold target in Hst1, Hd1. fold old in Hst1, Hd1.
  destruct Hset1 as (Esp1 & _).
  assert (fsh w1 !!! f = d1) as Hslot1 by (rewrite Hfsh1; apply lookup_total_insert_eq).
  destruct (FS_Write_spec f data (Z.of_nat (length data)) w1 target mode_ab
              (Z.of_nat (length old)) old (Z.of_nat (length old)))
    as (w2 & Hwr & Hd2 & Hos2 & Hst2 & Hsc2); try (rewrite ?Hslot1; first [assumption|lia]).
  { rewrite Esp1. exact Hinit. }
  { rewrite Hslot1. split; [exact Hst1|]. split; [rewrite Hd1; apply lookup_insert_eq|].
    split; [reflexivity|lia]. }
  { rewrite Hsc1, Hsc. constructor. }
  { rewrite Hsc1, Hsc. cbn. lia. }
  rewrite Nat2Z.id, firstn_all, overwrite_append in Hd2.
  rewrite Hslot1 in Hst2.
  destruct (only_sys_fields w1 w2 Hos2) as (Esp2 & Efsh2 & _).
  destruct (FS_FCloseFile_plain f w2) as (w3 & Hcl & _ & Hfsh3 & Hd3 & _);
    try (rewrite Efsh2, Hslot1; assumption).
  exists f, w1, w2, w3. split; [exact Hopen|]. split; [lia|]. split; [exact Hwr|].
  split; [exact Hcl|]. split.
  - rewrite Hd3, Hd2, Hd1. apply insert_insert_eq.
  - intros i. rewrite Hfsh3, Efsh2, Hfsh1. now apply zeroed_restores.
Qed.

(** X10. The server-side opens for writing and for appending go through
    [FS_CreatePath]: on a name whose OS path holds [..] or [::] they
    return handle 0, and so [FS_SV_WriteFile] writes nothing. No native
    call is made, no file or directory changes, no handle is taken. *)
Theorem FS_SV_write_refuses (filename : string) (s : FS) :
  fs_searchpaths s <> [] -> has_free_handle s ->
  has_substring ".." (sv_home s filename) \/ has_substring "::" (sv_home s filename) ->
  (exists s', FS_SV_FOpenFileWrite filename s = Ret 0 s'
              /\ sys s' = sys s /\ same_handles s s')
  /\ (exists s', FS_SV_FOpenFileAppend filename s = Ret 0 s'
                 /\ sys s' = sys s /\ same_handles s s')
  /\ (forall data size,
        exists s', FS_SV_WriteFile filename (Some data) size s = Ret tt s'
                   /\ sys s' = sys s /\ same_handles s s'
                   /\ last (console s') = Some ("Failed to open " +:+ filename +:+ CStr.nl)).
Proof.
  intros Hinit Hslot Hbad.
  destruct (FS_HandleForFile_free s Hslot) as (f & Hfree & Hf & Hfnull & _).
  assert (CStr.strstr (sv_home s filename) ".." || CStr.strstr (sv_home s filename) "::" = true)
    as E.
  { apply orb_true_iff. destruct Hbad as [Hb|Hb]; [left|right]; now apply strstr_spec. }
  assert (forall d i, handleFiles_file d = NULL ->
            handleFiles_file (<[f := d]> (fsh s) !!! i) = handleFiles_file (fsh s !!! i)) as Hsame.
  { intros d i Hd. destruct (Z.eq_dec i f) as [->|Hne].
    - rewrite lookup_total_insert_eq. congruence.
    - now rewrite lookup_total_insert_ne by congruence. }
  assert (exists s', FS_SV_FOpenFileWrite filename s = Ret 0 s'
                     /\ sys s' = sys s /\ same_handles s s') as Hwrite.
  { unfold FS_SV_FOpenFileWrite.
    unfold bind at 1, gets at 1.
    destruct (fs_searchpaths s) as [|sp sps] eqn:Esp; [contradiction|].
    unfold bind at 1, ret at 1. unfold bind at 1, gets at 1.
    unfold bind at 1. rewrite FS_BuildOSPath_spec, sv_ospath_chop. fold (sv_home s filename).
    unfold bind at 1. rewrite (Hfree s eq_refl).
    unfold FS_CreatePath. rewrite E.
    unfold debug_print, upd_slot, bind, gets, modify, Com_Printf, ret.
    destruct (fs_debug _); cbn.
    all: eexists; split; [reflexivity|]; cbn; split; [reflexivity|].
    all: intros i; cbn; apply Hsame; cbn; exact Hfnull. }
  split; [exact Hwrite|]. split.
  - unfold FS_SV_FOpenFileAppend.
    unfold bind at 1, gets at 1.
    destruct (fs_searchpaths s) as [|sp sps] eqn:Esp; [contradiction|].
    unfold bind at 1, ret at 1.
    unfold bind at 1. rewrite (Hfree s eq_refl).
    unfold bind at 1, upd_slot at 1, modify at 1.
    unfold bind at 1, upd_slot at 1, modify at 1.
    unfold bind at 1, gets at 1.
    unfold bind at 1. rewrite FS_BuildOSPath_spec. cbn [fs_gamedir fs_homepath set_fsh].
    rewrite sv_ospath_chop. fold (sv_home s filename).
    unfold FS_CreatePath. rewrite E.
    unfold debug_print, upd_slot, bind, gets, modify, Com_Printf, ret.
    destruct (fs_debug _); cbn.
    all: eexists; split; [reflexivity|]; cbn; split; [reflexivity|].
    all: intros i; cbn; rewrite insert_insert_eq; apply Hsame; cbn.
    all: rewrite lookup_total_insert_eq; cbn; exact Hfnull.
  - intros data size. destruct Hwrite as (s1 & Hopen & Hsys & Hh).
    unfold FS_SV_WriteFile. unfold bind at 1, gets at 1.
    destruct (fs_searchpaths s); [contradiction|].
    unfold bind at 1, ret at 1. unfold bind at 1. rewrite Hopen.
    cbn [Z.eqb]. unfold Com_Printf. eexists. split; [reflexivity|]. cbn.
    split; [exact Hsys|]. split; [exact Hh|]. apply last_snoc.
Qed.

(** X11. The server-side open for reading looks under the home root first.
    When nothing of that name is there, neither a file nor a directory,
    it looks under the base root, but only if [Q_stricmp] tells the two
    roots apart; a file found there is opened and its length returned.
    When the roots are the same, or nothing of that name is under the
    base root either, the answer is length 0 and handle 0, and no
    handle or stream stays in use. *)
Theorem FS_SV_FOpenFileRead_falls_back (filename : string) (s : FS) :
  fs_searchpaths s <> [] -> has_free_handle s ->
  disk (sys s) !! sv_home s filename = None ->
  sv_home s filename ∉ dirs (sys s) ->
  let base_file := sv_ospath (fs_gamedir s) (fs_basepath s) filename in
  (forall c,
     Q_stricmp (fs_homepath s) (fs_basepath s) <> 0 ->
     disk (sys s) !! base_file = Some c -> Z.of_nat (length c) < 2 ^ 31 ->
     exists f s',
       FS_SV_FOpenFileRead filename s = Ret (Z.of_nat (length c), f) s'
       /\ f <> 0
       /\ streams (sys s') !! handleFiles_file (fsh s' !!! f) = Some (mkFILE base_file mode_rb 0))
  /\ (Q_stricmp (fs_homepath s) (fs_basepath s) = 0
      \/ (disk (sys s) !! base_file = None /\ base_file ∉ dirs (sys s)) ->
      exists s',
        FS_SV_FOpenFileRead filename s = Ret (0, 0) s'
        /\ same_handles s s'
        /\ disk (sys s') = disk (sys s)
        /\ streams (sys s') = streams (sys s)).
Proof.
  intros Hinit Hslot Hmiss Hnodir base_file.
  destruct (FS_HandleForFile_free s Hslot) as (f & Hfree & Hf & Hfnull & _).
  assert (forall d i, handleFiles_file d = NULL ->
            handleFiles_file (<[f := d]> (fsh s) !!! i) = handleFiles_file (fsh s !!! i)) as Hsame.
  { intros d i Hd. destruct (Z.eq_dec i f) as [->|Hne].
    - rewrite lookup_total_insert_eq. congruence.
    - now rewrite lookup_total_insert_ne by congruence. }
  subst base_file. split.
  - intros c Hneq Hc _.
    unfold FS_SV_FOpenFileRead.
    unfold bind at 1. unfold gets at 1.
    destruct (fs_searchpaths s) as [|sp sps] eqn:Esp; [contradiction|].
    unfold bind at 1. unfold ret at 1.
    unfold bind at 1. rewrite (Hfree s eq_refl).
    destruct s as [sp0 t gd home base game dbg ls con [dk dr nw st zp np sc tr]].
    unfold sv_home, sv_ospath in *. cbn in Hmiss, Hnodir, Hc, Esp, Hneq, Hfnull. subst sp0.
    unfold debug_print, FS_BuildOSPath, Libc.fopen, FS_filelength, FS_FileForHandle,
      Libc.ftell, Libc.fseek, Libc.stream, Libc.contents, Libc.set_pos, Libc.called, Libc.upd,
      upd_slot, slot, set_slot, bind, ret, gets, modify, Com_Printf, Com_Error, undefined.
    destruct dbg; cbn; rewrite Hmiss, (bool_decide_eq_false_2 _ Hnodir); crunch.
    all: destruct (Z.eqb_spec (Q_stricmp home base) 0) as [?|_]; [contradiction|]; crunch.
    all: rewrite Hc; crunch.
    all: destruct (Z.eqb_spec f 0) as [?|_]; [lia|]; cbn.
    all: replace ((f <? 0) || (f >? MAX_FILE_HANDLES)) with false by lia; crunch.
    all: rewrite Hc; crunch.
    all: destruct (Z.ltb_spec (Z.of_nat (length c) + 0) 0); [lia|]; crunch.
    all: change (0 + 0 <? 0) with false; crunch.
    all: rewrite Z.add_0_r; do 2 eexists; (split; [reflexivity|]); crunch.
    all: split; [lia|reflexivity].
  - intros Hor.
    unfold FS_SV_FOpenFileRead.
    unfold bind at 1. unfold gets at 1.
    destruct (fs_searchpaths s) as [|sp sps] eqn:Esp; [contradiction|].
    unfold bind at 1. unfold ret at 1.
    unfold bind at 1. rewrite (Hfree s eq_refl).
    destruct s as [sp0 t gd home base game dbg ls con [dk dr nw st zp np sc tr]].
    unfold sv_home, sv_ospath, same_handles in *.
    cbn in Hmiss, Hnodir, Hor, Esp, Hfnull, Hsame. subst sp0.
    unfold debug_print, FS_BuildOSPath, Libc.fopen, FS_filelength, FS_FileForHandle,
      Libc.ftell, Libc.fseek, Libc.stream, Libc.contents, Libc.set_pos, Libc.called, Libc.upd,
      upd_slot, slot, set_slot, bind, ret, gets, modify, Com_Printf, Com_Error, undefined.
    destruct dbg; cbn; rewrite Hmiss, (bool_decide_eq_false_2 _ Hnodir); crunch.
    all: destruct (Z.eqb_spec (Q_stricmp home base) 0) as [Eq|Eq]; crunch.
    all: try (destruct Hor as [?|[Hnone Hnd]]; [contradiction|];
              rewrite Hnone, (bool_decide_eq_false_2 _ Hnd); crunch).
    all: eexists; (split; [reflexivity|]); crunch.
    all: split; [|split; reflexivity].
    all: intros i; apply Hsame; reflexivity.
Qed.

End ServerRead.

Ltac no_substring := intros E; apply strstr_spec in E; vm_compute in E; discriminate.

Lemma FS_SV_WriteFile_then_read_witness :
  exists s1,
    FS_SV_WriteFile (H := unix_build) "saves/slot1.sav" (Some [x0a; x0b]) 2 sample_fs = Ret tt s1
    /\ disk (sys s1) = <["/home/user/saves/slot1.sav" := [x0a; x0b]]> (disk (sys sample_fs))
    /\ same_handles sample_fs s1
    /\ exists f s2 s3,
         FS_SV_FOpenFileRead (H := unix_build) "saves/slot1.sav" s1 = Ret (2, f) s2
         /\ f <> 0
         /\ FS_Read 2 f s2 = Ret (2, [x0a; x0b]) s3.
Proof.
  apply (FS_SV_WriteFile_then_read (H := unix_build) "saves/slot1.sav" [x0a; x0b] sample_fs).
  - discriminate.
  - exists 1. split; [cbn; lia|reflexivity].
  - repeat split; [discriminate|no_substring|no_substring|apply not_elem_of_empty..].
  - reflexivity.
  - cbn. lia.
Defined.

Lemma FS_SV_FOpenFileAppend_appends_witness :
  exists f s1 s2 s3,
    FS_SV_FOpenFileAppend (H := unix_build) "save.dat" sample_fs = Ret f s1
    /\ f <> 0
    /\ FS_Write (H := unix_build) [x04; x05] 2 f s1 = Ret 2 s2
    /\ FS_FCloseFile f s2 = Ret true s3
    /\ disk (sys s3)
       = <["/home/user/save.dat" := [x01; x02; x03] ++ [x04; x05]]> (disk (sys sample_fs))
    /\ same_handles sample_fs s3.
Proof.
  apply (FS_SV_FOpenFileAppend_appends (H := unix_build) "save.dat" [x04; x05] sample_fs).
  - discriminate.
  - exists 1. split; [cbn; lia|reflexivity].
  - repeat split; [discriminate|no_substring|no_substring|apply not_elem_of_empty..].
  - reflexivity.
  - cbn. lia.
Defined.

Lemma FS_SV_write_refuses_witness :
  (exists s', FS_SV_FOpenFileWrite (H := unix_build) "../admin/secret.dat" sample_fs = Ret 0 s'
              /\ sys s' = sys sample_fs /\ same_handles sample_fs s')
  /\ (exists s', FS_SV_FOpenFileAppend (H := unix_build) "../admin/secret.dat" sample_fs
                 = Ret 0 s'
                 /\ sys s' = sys sample_fs /\ same_handles sample_fs s')
  /\ (forall data size,
        exists s', FS_SV_WriteFile (H := unix_build) "../admin/secret.dat" (Some data) size
                     sample_fs = Ret tt s'
                   /\ sys s' = sys sample_fs /\ same_handles sample_fs s'
                   /\ last (console s')
                      = Some ("Failed to open " +:+ "../admin/secret.dat" +:+ CStr.nl)).
Proof.
  apply (FS_SV_write_refuses (H := unix_build) "../admin/secret.dat" sample_fs).
  - discriminate.
  - exists 1. split; [cbn; lia|reflexivity].
  - left. exists "/home/user/", "/admin/secret.dat". reflexivity.
Defined.

Lemma FS_SV_FOpenFileRead_falls_back_witness :
  (forall c,
     Q_stricmp "/home/user" "/opt/cod4" <> 0 ->
     disk (sys base_fs) !! "/opt/cod4/server.cfg" = Some c ->
     Z.of_nat (length c) < 2 ^ 31 ->
     exists f s',
       FS_SV_FOpenFileRead (H := unix_build) "server.cfg" base_fs
       = Ret (Z.of_nat (length c), f) s'
       /\ f <> 0
       /\ streams (sys s') !! handleFiles_file (fsh s' !!! f)
          = Some (mkFILE "/opt/cod4/server.cfg" mode_rb 0))
  /\ (Q_stricmp "/home/user" "/opt/cod4" = 0
      \/ (disk (sys base_fs) !! "/opt/cod4/server.cfg" = None
          /\ "/opt/cod4/server.cfg" ∉ dirs (sys base_fs)) ->
      exists s',
        FS_SV_FOpenFileRead (H := unix_build) "server.cfg" base_fs = Ret (0, 0) s'
        /\ same_handles base_fs s'
        /\ disk (sys s') = disk (sys base_fs)
        /\ streams (sys s') = streams (sys base_fs)).
Proof.
  apply (FS_SV_FOpenFileRead_falls_back (H := unix_build) "server.cfg" base_fs).
  - discriminate.
  - exists 1. split; [cbn; lia|reflexivity].
  - reflexivity.
  - apply not_elem_of_empty.
Defined.

Example FS_SV_FOpenFileRead_base_sample :
  exists s', FS_SV_FOpenFileRead (H := unix_build) "server.cfg" base_fs = Ret (2, 1) s'.
Proof. eexists. vm_compute. reflexivity. Qed.

(** ** Whole files *)

Section WholeFiles.

Context `{Platform}.








End WholeFiles.



(** ** The life of a handle *)

Section HandleLife.

Context `{Platform}.

(** X12. Closing a plain handle closes its stream and zeroes its slot; the
    other slots and the files are as before. The handle is then dead: a
    second [FS_FCloseFile] finds nothing to close, answers [qfalse] and
    changes nothing, and [FS_FileForHandle] refuses the handle. *)
Theorem FS_FCloseFile_releases (f : fileHandle_t) (s : FS) :
  0 <= f < MAX_FILE_HANDLES ->
  zipFile (fsh s !!! f) = false -> handleFiles_file (fsh s !!! f) <> NULL ->
  is_Some (streams (sys s) !! handleFiles_file (fsh s !!! f)) ->
  exists s1,
    FS_FCloseFile f s = Ret true s1
    /\ fsh s1 !!! f = zeroed
    /\ (forall i, i <> f -> fsh s1 !!! i = fsh s !!! i)
    /\ streams (sys s1) = delete (handleFiles_file (fsh s !!! f)) (streams (sys s))
    /\ disk (sys s1) = disk (sys s)
    /\ io (sys s1) = io (sys s) ++ [sys_fclose (handleFiles_file (fsh s !!! f))]
    /\ FS_FCloseFile f s1 = Ret false s1
    /\ FS_FileForHandle f s1 = Abort ERR_DROP "FS_FileForHandle: NULL" s1.
Proof.
  intros Hf Hz Hn Hst.
  destruct (FS_FCloseFile_plain f s Hz Hn Hst)
    as (s1 & Hcl & _ & Hfsh & Hd & _ & Hstr & Hio & _).
  exists s1. split; [exact Hcl|].
  assert (fsh s1 !!! f = zeroed) as Hslot by (rewrite Hfsh; apply lookup_total_insert_eq).
  split; [exact Hslot|].
  split; [intros i Hi; rewrite Hfsh; now apply lookup_total_insert_ne|].
  split; [exact Hstr|]. split; [exact Hd|]. split; [exact Hio|]. split.
  - unfold FS_FCloseFile, bind, slot, gets, set_slot, modify, ret. rewrite Hslot. cbn.
    f_equal. rewrite Hfsh, insert_insert_eq, <- Hfsh.
    destruct s1; reflexivity.
  - unfold FS_FileForHandle, bind, slot, gets, ret, Com_Error.
    replace ((f <? 0) || (f >? MAX_FILE_HANDLES)) with false
      by (symmetry; apply orb_false_iff; lia).
    rewrite Hslot. reflexivity.
Qed.

(** X13. A handle whose slot is empty (never opened, or closed). [FS_Write],
    [FS_Seek] and [FS_filelength] go through [FS_FileForHandle] and
    leave through [Com_Error (ERR_DROP)] with nothing done. [FS_Read]
    does not: for a length that is not 0 it hands the [NULL] stream of
    the slot to [fread]. *)
Theorem stale_handle_use (f : fileHandle_t) (s : FS) :
  fs_searchpaths s <> [] -> 0 < f < MAX_FILE_HANDLES ->
  fsh s !!! f = zeroed -> streams (sys s) !! NULL = None ->
  (forall buffer len, FS_Write buffer len f s = Abort ERR_DROP "FS_FileForHandle: NULL" s)
  /\ (forall offset origin,
        FS_Seek f offset origin s = Abort ERR_DROP "FS_FileForHandle: NULL" s)
  /\ FS_filelength f s = Abort ERR_DROP "FS_FileForHandle: NULL" s
  /\ (forall len, len <> 0 ->
        exists s', FS_Read len f s = Undef s'
                   /\ io (sys s') = io (sys s) ++ [sys_fread NULL len]).
Proof.
  intros Hinit Hf Hslot Hnull.
  assert (FS_FileForHandle f s = Abort ERR_DROP "FS_FileForHandle: NULL" s) as Hffh.
  { unfold FS_FileForHandle, bind, slot, gets, ret, Com_Error.
    replace ((f <? 0) || (f >? MAX_FILE_HANDLES)) with false
      by (symmetry; apply orb_false_iff; lia).
    rewrite Hslot. reflexivity. }
  split; [|split; [|split]].
  - intros buffer len. unfold FS_Write. unfold bind at 1, gets at 1.
    destruct (fs_searchpaths s); [contradiction|].
    unfold bind at 1, ret at 1.
    destruct (Z.eqb_spec f 0) as [?|_]; [lia|].
    unfold bind at 1. rewrite Hffh. reflexivity.
  - intros offset origin. rewrite (FS_Seek_unfold f offset origin s Hinit), Hslot.
    cbn [streamed zeroed]. unfold FS_Seek_at. unfold bind at 1, slot, gets. rewrite Hslot.
    cbn [zipFile zeroed]. unfold bind at 1. rewrite Hffh. reflexivity.
  - unfold FS_filelength. unfold bind at 1. rewrite Hffh. reflexivity.
  - intros len Hlen. unfold FS_Read. unfold bind at 1, gets at 1.
    destruct (fs_searchpaths s); [contradiction|].
    unfold bind at 1, ret at 1.
    destruct (Z.eqb_spec f 0) as [?|_]; [lia|].
    unfold bind at 1, slot, gets. rewrite Hslot. cbn [zipFile zeroed negb handleFiles_file].
    replace (Z.to_nat len + 3)%nat with (S (Z.to_nat len + 2)) by lia.
    cbn [FS_Read_loop].
    destruct (Z.eqb_spec len 0) as [?|_]; [contradiction|].
    unfold bind at 1, Libc.fread.
    unfold bind, Libc.called, Libc.upd, modify, Libc.stream, gets, undefined. cbn.
    rewrite Hnull. eexists. split; reflexivity.
Qed.

End HandleLife.

(** Handle 1 of the sample installation, open on the save file. *)
Lemma FS_FCloseFile_releases_witness :
  exists s1,
    FS_FCloseFile 1 (reading_fs []) = Ret true s1
    /\ fsh s1 !!! 1 = zeroed
    /\ (forall i, i <> 1 -> fsh s1 !!! i = fsh (reading_fs []) !!! i)
    /\ streams (sys s1)
       = delete (handleFiles_file (fsh (reading_fs []) !!! 1)) (streams (sys (reading_fs [])))
    /\ disk (sys s1) = disk (sys (reading_fs []))
    /\ io (sys s1)
       = io (sys (reading_fs [])) ++ [sys_fclose (handleFiles_file (fsh (reading_fs []) !!! 1))]
    /\ FS_FCloseFile 1 s1 = Ret false s1
    /\ FS_FileForHandle (H := unix_build) 1 s1 = Abort ERR_DROP "FS_FileForHandle: NULL" s1.
Proof.
  apply (FS_FCloseFile_releases (H := unix_build) 1 (reading_fs [])).
  - cbn. lia.
  - reflexivity.
  - discriminate.
  - eexists. reflexivity.
Defined.

Lemma stale_handle_use_witness :
  (forall buffer len,
     FS_Write (H := unix_build) buffer len 5 sample_fs
     = Abort ERR_DROP "FS_FileForHandle: NULL" sample_fs)
  /\ (forall offset origin,
        FS_Seek (H := unix_build) 5 offset origin sample_fs
        = Abort ERR_DROP "FS_FileForHandle: NULL" sample_fs)
  /\ FS_filelength (H := unix_build) 5 sample_fs
     = Abort ERR_DROP "FS_FileForHandle: NULL" sample_fs
  /\ (forall len, len <> 0 ->
        exists s', FS_Read len 5 sample_fs = Undef s'
                   /\ io (sys s') = io (sys sample_fs) ++ [sys_fread NULL len]).
Proof.
  apply (stale_handle_use (H := unix_build) 5 sample_fs).
  - discriminate.
  - cbn. lia.
  - reflexivity.
  - reflexivity.
Defined.

(** ** Files by OS path *)

Lemma fopen_rb_hit path s c :
  disk (sys s) !! path = Some c ->
  Libc.fopen path mode_rb s = Ret (Z.pos (next_ptr (sys s))) (opened (mkFILE path mode_rb 0) s).
Proof.
  intros Hd. destruct s as [sp0 t gd home base game dbg ls con [dk dr nw sm zs np sc tr]].
  cbn in Hd. unfold Libc.fopen, Libc.called, Libc.upd, bind, ret, gets, modify, opened.
  cbn. rewrite Hd. reflexivity.
Qed.

Lemma fopen_rb_miss path s :
  disk (sys s) !! path = None -> path ∉ dirs (sys s) ->
  Libc.fopen path mode_rb s = Ret NULL (traced [sys_fopen path mode_rb] s).
Proof.
  intros Hd Hn. destruct s as [sp0 t gd home base game dbg ls con [dk dr nw sm zs np sc tr]].
  cbn in Hd, Hn. unfold Libc.fopen, Libc.called, Libc.upd, bind, ret, gets, modify, traced.
  cbn. rewrite Hd, (bool_decide_eq_false_2 _ Hn). reflexivity.
Qed.

Lemma fclose_spec fp s :
  is_Some (streams (sys s) !! fp) -> Libc.fclose fp s = Ret 0 (closed fp s).
Proof.
  intros [st Hst].
  unfold Libc.fclose, Libc.stream, Libc.called, Libc.upd, bind, ret, gets, modify, undefined.
  cbn. rewrite Hst. reflexivity.
Qed.

Lemma ftell_spec fp s st :
  streams (sys s) !! fp = Some st -> Libc.ftell fp s = Ret (f_pos st) (traced [sys_ftell fp] s).
Proof.
  intros Hst.
  unfold Libc.ftell, Libc.stream, Libc.called, Libc.upd, bind, ret, gets, modify, undefined.
  cbn. rewrite Hst. reflexivity.
Qed.

Lemma fseek_spec fp off whence s st c (base := if whence =? Libc.SEEK_SET then 0
                                                else if whence =? Libc.SEEK_CUR then f_pos st
                                                else Z.of_nat (length c)) :
  streams (sys s) !! fp = Some st -> disk (sys s) !! f_path st = Some c ->
  Libc.fseek fp off whence s
  = if base + off <? 0 then Ret (-1) (traced [sys_fseek fp off whence] s)
    else Ret 0 (after_fseek fp st off whence (base + off) s).
Proof.
  intros Hst Hc. subst base.
  destruct s as [sp0 t gd home bs game dbg ls con [dk dr nw sm zs np sc tr]].
  cbn in Hst, Hc.
  unfold Libc.fseek, Libc.stream, Libc.contents, Libc.set_pos, Libc.called, Libc.upd,
    bind, ret, gets, modify, undefined, after_fseek, traced.
  cbn. rewrite Hst. cbn. rewrite Hc. cbn.
  destruct (_ <? 0); reflexivity.
Qed.

Section FilesByPath.

Context `{Platform}.

(** X14. The length of a file through an open handle. [FS_filelength]
    answers the number of bytes of the file and leaves the stream at
    the position where it was; [FS_fplength] does the same for the
    stream itself. Files and handle table are untouched. *)
Theorem FS_filelength_keeps_position (f : fileHandle_t) (s : FS)
    (p : string) (m : fmode) (pos : Z) (c : list byte) :
  0 <= f < MAX_FILE_HANDLES -> handleFiles_file (fsh s !!! f) <> NULL ->
  streams (sys s) !! handleFiles_file (fsh s !!! f) = Some (mkFILE p m pos) ->
  disk (sys s) !! p = Some c -> 0 <= pos -> Z.of_nat (length c) < 2 ^ 31 ->
  exists s',
    FS_filelength f s = Ret (Z.of_nat (length c)) s'
    /\ FS_fplength (handleFiles_file (fsh s !!! f)) s = Ret (Z.of_nat (length c)) s'
    /\ streams (sys s') = streams (sys s)
    /\ disk (sys s') = disk (sys s)
    /\ only_sys s s'.
Proof.
  intros Hf Hn Hst Hc Hpos _.
  unfold FS_filelength. unfold bind at 1. rewrite FS_FileForHandle_ok by (auto; lia).
  set (fp := handleFiles_file (fsh s !!! f)) in *.
  assert (exists s', FS_fplength fp s = Ret (Z.of_nat (length c)) s'
                     /\ streams (sys s') = streams (sys s)
                     /\ disk (sys s') = disk (sys s) /\ only_sys s s') as (s' & Heq & Hrest).
  { unfold FS_fplength.
    unfold bind at 1. rewrite (ftell_spec fp s _ Hst). cbn [f_pos].
    unfold bind at 1.
    rewrite (fseek_spec fp 0 Libc.SEEK_END _ (mkFILE p m pos) c) by (cbn; assumption).
    change (Libc.SEEK_END =? Libc.SEEK_SET) with false.
    change (Libc.SEEK_END =? Libc.SEEK_CUR) with false. cbn match.
    destruct (Z.ltb_spec (Z.of_nat (length c) + 0) 0) as [?|_]; [lia|].
    rewrite Z.add_0_r.
    set (s1 := after_fseek _ _ _ _ _ _).
    assert (streams (sys s1) !! fp = Some (mkFILE p m (Z.of_nat (length c)))) as Hst1
      by (subst s1; unfold after_fseek; cbn; apply lookup_insert_eq).
    unfold bind at 1. rewrite (ftell_spec fp s1 _ Hst1). cbn [f_pos].
    unfold bind at 1.
    rewrite (fseek_spec fp pos Libc.SEEK_SET _ (mkFILE p m (Z.of_nat (length c))) c).
    2:{ cbn. apply lookup_insert_eq. }
    2:{ cbn. exact Hc. }
    change (Libc.SEEK_SET =? Libc.SEEK_SET) with true. cbn match.
    destruct (Z.ltb_spec (0 + pos) 0) as [?|_]; [lia|].
    unfold ret. eexists. split; [reflexivity|]. cbn.
    split; [|split; reflexivity].
    rewrite insert_insert_eq. apply insert_id. exact Hst. }
  exists s'. rewrite Heq. auto.
Qed.

Lemma fopen_rb_spec path s :
  Libc.fopen path mode_rb s
  = if present (sys s) path
    then Ret (Z.pos (next_ptr (sys s))) (opened (mkFILE path mode_rb 0) s)
    else Ret NULL (traced [sys_fopen path mode_rb] s).
Proof.
  destruct s as [sp0 t gd home base game dbg ls con [dk dr nw sm zs np sc tr]].
  unfold Libc.fopen, Libc.called, Libc.upd, bind, ret, gets, modify, traced, opened, present.
  cbn. destruct (_ || _); reflexivity.
Qed.

Lemma present_file n p c : disk n !! p = Some c -> present n p = true.
Proof. intros E. unfold present. now rewrite bool_decide_eq_true_2 by eauto. Qed.

Lemma present_none n p : disk n !! p = None -> p ∉ dirs n -> present n p = false.
Proof.
  intros E Hn. unfold present.
  rewrite bool_decide_eq_false_2 by (rewrite E; intros [? ?]; discriminate).
  now rewrite bool_decide_eq_false_2.
Qed.

Lemma FS_FileExists_spec file s (p := os_path (fs_gamedir s) (fs_homepath s) EmptyString file) :
  FS_FileExists file s
  = if present (sys s) p
    then Ret true (closed (Z.pos (next_ptr (sys s))) (opened (mkFILE p mode_rb 0) s))
    else Ret false (traced [sys_fopen p mode_rb] s).
Proof.
  unfold FS_FileExists. unfold bind at 1, gets at 1.
  unfold bind at 1. rewrite FS_BuildOSPath_spec. fold p.
  unfold bind at 1. rewrite fopen_rb_spec.
  destruct (present _ _); [|reflexivity].
  change (negb (Z.pos (next_ptr (sys s)) =? NULL)) with true. cbn match.
  unfold bind at 1. rewrite fclose_spec; [reflexivity|].
  unfold opened. cbn. rewrite lookup_insert_eq. eauto.
Qed.

(** X15. [FS_FileExists] tells whether [fopen] can open, for reading,
    the path under the home root in the current game directory: it
    answers [qtrue] for a regular file and for a directory alike, and
    leaves no stream open. [FS_HomeRemove] makes the same path of a
    name. When that is no directory, it answers whether the file was
    there, the file is gone afterwards and no other file is touched,
    and [FS_FileExists] then answers [qfalse]. *)
Theorem FS_HomeRemove_then_FileExists (file : string) (s : FS) :
  streams (sys s) !! Z.pos (next_ptr (sys s)) = None ->
  let p := os_path (fs_gamedir s) (fs_homepath s) EmptyString file in
  (exists s',
     FS_FileExists file s = Ret (present (sys s) p) s'
     /\ disk (sys s') = disk (sys s)
     /\ dirs (sys s') = dirs (sys s)
     /\ streams (sys s') = streams (sys s)
     /\ fsh s' = fsh s)
  /\ (p ∉ dirs (sys s) ->
      exists s1,
        FS_HomeRemove file s = Ret (bool_decide (is_Some (disk (sys s) !! p))) s1
        /\ disk (sys s1) = delete p (disk (sys s))
        /\ exists s2, FS_FileExists file s1 = Ret false s2).
Proof.
  intros Hfresh p. split.
  - rewrite FS_FileExists_spec. fold p.
    destruct (present (sys s) p).
    + eexists. split; [reflexivity|]. cbn. split; [reflexivity|]. split; [reflexivity|].
      split; [|reflexivity].
      rewrite delete_insert_eq. now apply delete_id.
    + eexists. split; [reflexivity|]. cbn. auto.
  - intros Hnodir.
    assert (exists s1, FS_HomeRemove file s = Ret (bool_decide (is_Some (disk (sys s) !! p))) s1
                       /\ disk (sys s1) = delete p (disk (sys s))
                       /\ dirs (sys s1) = dirs (sys s)
                       /\ fs_gamedir s1 = fs_gamedir s /\ fs_homepath s1 = fs_homepath s)
      as (s1 & Hrm & Hd & Hdr & Egd & Ehome).
    { unfold FS_HomeRemove. unfold bind at 1, gets at 1.
      unfold bind at 1. rewrite FS_BuildOSPath_spec. fold p.
      unfold Libc.remove, Libc.called, Libc.upd, bind, gets, modify, ret. cbn.
      destruct (disk (sys s) !! p) as [c|] eqn:E.
      - rewrite !bool_decide_eq_true_2 by eauto. cbn.
        eexists. split; [reflexivity|]. cbn. auto.
      - rewrite !bool_decide_eq_false_2 by (intros [? ?]; discriminate). cbn.
        eexists. split; [reflexivity|]. cbn. split; [|auto].
        symmetry. now apply delete_id. }
    exists s1. split; [exact Hrm|]. split; [exact Hd|].
    rewrite FS_FileExists_spec, Egd, Ehome. fold p.
    rewrite present_none; [eauto| |].
    + rewrite Hd. apply lookup_delete_eq.
    + rewrite Hdr. exact Hnodir.
Qed.

(** X16. [FS_SV_GetFilepath] answers the path under the home root if
    [fopen] can open it for reading, be it a regular file or a
    directory, else the path under the base root on the same test, else
    [NULL]; unlike [FS_SV_FOpenFileRead] it does not ask whether the two
    roots differ. It changes no file and takes no handle. *)
Theorem FS_SV_GetFilepath_order (file : string) (s : FS) :
  let h := sv_home s file in
  let b := sv_ospath (fs_gamedir s) (fs_basepath s) file in
  exists s',
    FS_SV_GetFilepath file s
    = Ret (if present (sys s) h then Some h
           else if present (sys s) b then Some b
           else None) s'
    /\ disk (sys s') = disk (sys s)
    /\ fsh s' = fsh s.
Proof.
  intros h b.
  unfold FS_SV_GetFilepath. unfold bind at 1, gets at 1.
  unfold bind at 1. rewrite FS_BuildOSPath_spec, sv_ospath_chop. fold (sv_home s file). fold h.
  unfold bind at 1. rewrite fopen_rb_spec.
  destruct (present (sys s) h).
  - change (negb (Z.pos (next_ptr (sys s)) =? NULL)) with true. cbn match.
    unfold bind at 1. rewrite fclose_spec by (unfold opened; cbn; rewrite lookup_insert_eq; eauto).
    eexists. split; [reflexivity|]. cbn. auto.
  - cbn [negb Z.eqb NULL].
    unfold bind at 1, gets at 1.
    unfold bind at 1. rewrite FS_BuildOSPath_spec, sv_ospath_chop. cbn [fs_gamedir fs_basepath traced set_sys].
    fold b.
    unfold bind at 1. rewrite fopen_rb_spec.
    change (present (sys (traced [sys_fopen h mode_rb] s)) b) with (present (sys s) b).
    destruct (present (sys s) b).
    + match goal with |- context [negb (?x =? NULL)] => change (negb (x =? NULL)) with true end.
      cbn match.
      unfold bind at 1. rewrite fclose_spec by (unfold opened; cbn; rewrite lookup_insert_eq; eauto).
      eexists. split; [reflexivity|]. cbn. auto.
    + cbn [negb Z.eqb NULL]. eexists. split; [reflexivity|]. cbn. auto.
Qed.

End FilesByPath.

Lemma FS_filelength_keeps_position_witness :
  exists s',
    FS_filelength (H := unix_build) 1 (reading_fs []) = Ret 3 s'
    /\ FS_fplength 1 (reading_fs []) = Ret 3 s'
    /\ streams (sys s') = streams (sys (reading_fs []))
    /\ disk (sys s') = disk (sys (reading_fs []))
    /\ only_sys (reading_fs []) s'.
Proof.
  apply (FS_filelength_keeps_position (H := unix_build) 1 (reading_fs [])
           "/home/user/save.dat" mode_rb 0 [x01; x02; x03]).
  - cbn. lia.
  - discriminate.
  - reflexivity.
  - reflexivity.
  - lia.
  - cbn. lia.
Defined.

Lemma FS_HomeRemove_then_FileExists_witness :
  (exists s',
     FS_FileExists (H := unix_build) "sound/explosion.wav" archive_fs = Ret true s'
     /\ disk (sys s') = disk (sys archive_fs)
     /\ dirs (sys s') = dirs (sys archive_fs)
     /\ streams (sys s') = streams (sys archive_fs)
     /\ fsh s' = fsh archive_fs)
  /\ ("/home/user/main/sound/explosion.wav" ∉ dirs (sys archive_fs) ->
      exists s1,
        FS_HomeRemove (H := unix_build) "sound/explosion.wav" archive_fs = Ret true s1
        /\ disk (sys s1) = delete "/home/user/main/sound/explosion.wav" (disk (sys archive_fs))
        /\ exists s2, FS_FileExists (H := unix_build) "sound/explosion.wav" s1 = Ret false s2).
Proof.
  apply (FS_HomeRemove_then_FileExists (H := unix_build) "sound/explosion.wav" archive_fs).
  reflexivity.
Defined.

(** A directory answers as a file does: with the directory [sound] under
    the game directory of the home root, [FS_FileExists] answers [qtrue]
    for it and [FS_SV_GetFilepath] answers its path. *)
Example FS_FileExists_directory_sample :
  (exists s', FS_FileExists (H := unix_build) "sound" sound_dir_fs = Ret true s')
  /\ (exists s', FS_SV_GetFilepath (H := unix_build) "main/sound" sound_dir_fs
                 = Ret (Some "/home/user/main/sound") s').
Proof. split; eexists; vm_compute; reflexivity. Qed.

(** ** Copying *)

Lemma fopen_wb_ok path s :
  path ∉ nowrite (sys s) -> path ∉ dirs (sys s) ->
  Libc.fopen path mode_wb s = Ret (Z.pos (next_ptr (sys s))) (created path s).
Proof.
  intros Hnw Hnd. destruct s as [sp0 t gd home base game dbg ls con [dk dr nw sm zs np sc tr]].
  cbn in Hnw, Hnd.
  unfold Libc.fopen, Libc.called, Libc.upd, bind, ret, gets, modify, created.
  cbn. rewrite (bool_decide_eq_false_2 _ Hnw), (bool_decide_eq_false_2 _ Hnd). reflexivity.
Qed.

Section Copy.

Context `{Platform}.

(** X17. [FS_SV_HomeCopyFile] copies a file of the home root: afterwards the
    target holds the bytes of the source, whatever it held before, and
    no other file has changed. No handle of the table is taken and no
    stream is left open. *)
Theorem FS_SV_HomeCopyFile_copies (from to : string) (s : FS) (c : list byte) :
  disk (sys s) !! sv_home s from = Some c ->
  writable s (sv_home s to) ->
  script (sys s) = [] -> Z.of_nat (length c) < 2 ^ 31 ->
  exists s',
    FS_SV_HomeCopyFile from to s = Ret tt s'
    /\ disk (sys s') = <[sv_home s to := c]> (disk (sys s))
    /\ fsh s' = fsh s
    /\ (forall q, is_Some (streams (sys s') !! q) -> is_Some (streams (sys s) !! q)).
Proof.
  intros Hsrc (Hne & Hdd & Hcc & Hnw & Hnd) Hsc Hlen.
  unfold FS_SV_HomeCopyFile. unfold bind at 1, gets at 1.
  unfold bind at 1. rewrite FS_BuildOSPath_spec.
  unfold bind at 1. rewrite FS_BuildOSPath_spec.
  rewrite !sv_ospath_chop. fold (sv_home s from). fold (sv_home s to).
  set (src := sv_home s from) in *. set (dst := sv_home s to) in *.
  unfold bind at 1.
  match goal with |- context [debug_print ?m s] =>
    assert (exists sd, debug_print m s = Ret tt sd /\ sys sd = sys s /\ fsh sd = fsh s)
      as (sd & -> & Hsys & Hfsh)
      by (unfold debug_print, bind, gets, Com_Printf, ret; destruct (fs_debug s); eauto) end.
  (* the source is read *)
  unfold bind at 1. rewrite (fopen_rb_hit src sd c) by (rewrite Hsys; exact Hsrc).
  set (fp := Z.pos (next_ptr (sys sd))).
  change (fp =? NULL) with false. cbn match.
  set (s1 := opened _ sd).
  assert (disk (sys s1) !! src = Some c) as Hc1 by (subst s1; cbn; rewrite Hsys; exact Hsrc).
  unfold bind at 1.
  rewrite (fseek_spec fp 0 Libc.SEEK_END s1 (mkFILE src mode_rb 0) c)
    by (subst s1; cbn; first [apply lookup_insert_eq|rewrite Hsys; exact Hsrc]).
  change (Libc.SEEK_END =? Libc.SEEK_SET) with false.
  change (Libc.SEEK_END =? Libc.SEEK_CUR) with false. cbn match.
  rewrite Z.add_0_r.
  destruct (Z.ltb_spec (Z.of_nat (length c)) 0) as [?|_]; [lia|].
  set (s2 := after_fseek _ _ _ _ _ s1).
  unfold bind at 1.
  rewrite (ftell_spec fp s2 (mkFILE src mode_rb (Z.of_nat (length c))))
    by (subst s2; cbn; apply lookup_insert_eq).
  cbn [f_pos]. set (s3 := traced _ s2).
  unfold bind at 1.
  rewrite (fseek_spec fp 0 Libc.SEEK_SET s3 (mkFILE src mode_rb (Z.of_nat (length c))) c)
    by (subst s3 s2; cbn; first [apply lookup_insert_eq|rewrite Hsys; exact Hsrc]).
  change (Libc.SEEK_SET =? Libc.SEEK_SET) with true. cbn match.
  change (0 + 0 <? 0) with false. cbn match. change (0 + 0) with 0.
  set (s4 := after_fseek _ _ _ _ _ s3).
  unfold bind at 1.
  rewrite (fread_spec (Z.of_nat (length c)) fp s4 (mkFILE src mode_rb 0) c)
    by (subst s4 s3 s2; cbn; first [apply lookup_insert_eq|rewrite Hsys; exact Hsrc]).
  cbn [f_pos f_path f_mode].
  assert (script (sys s4) = []) as Hsc4 by (subst s4 s3 s2 s1; cbn; rewrite Hsys; exact Hsc).
  rewrite to_size_t_small by lia.
  assert (next_count s4 (Z.of_nat (length c)) (Z.max 0 (Z.of_nat (length c) - 0))
          = Z.of_nat (length c)) as -> by (unfold next_count; rewrite Hsc4; lia).
  assert ((if Z.of_nat (length c) <=? 0 then []
           else take (Z.to_nat (Z.of_nat (length c))) (drop (Z.to_nat 0) c)) = c) as ->.
  { destruct (Z.leb_spec (Z.of_nat (length c)) 0).
    - destruct c; [reflexivity|cbn in *; lia].
    - change (Z.to_nat 0) with 0%nat. now rewrite drop_0, Nat2Z.id, firstn_all. }
  rewrite Z.eqb_refl. cbn [negb]. unfold bind at 1, ret at 1.
  set (s5 := after_transfer _ _ _ _ _ s4).
  unfold bind at 1.
  rewrite (fclose_spec fp s5) by (subst s5; cbn; rewrite lookup_insert_eq; eauto).
  set (s6 := closed fp s5).
  (* the target is written *)
  assert (dirs (sys s6) = dirs (sys s) /\ nowrite (sys s6) = nowrite (sys s)
          /\ disk (sys s6) = disk (sys s) /\ script (sys s6) = [] /\ fsh s6 = fsh s)
    as (Edr & Enw & Edk & Esc & Efsh).
  { subst s6 s5 s4 s3 s2 s1. cbn. rewrite Hsys, Hsc. auto. }
  destruct (FS_CreatePath_spec dst s6 Hne Hdd Hcc) as (dr' & calls & Hcp & _ & Hdr & _).
  unfold bind at 1. rewrite Hcp.
  assert (dst ∉ dr') as Hnd'.
  { intros Hin. destruct (Hdr _ Hin) as [Hq|?]; [rewrite Edr in Hq; contradiction|lia]. }
  set (s7 := mkdirs_done dr' calls s6).
  unfold bind at 1.
  assert (dst ∉ nowrite (sys s7)) as Hnw7
    by (subst s7; unfold mkdirs_done; cbn [sys set_sys nowrite]; rewrite Enw; exact Hnw).
  assert (dst ∉ dirs (sys s7)) as Hnd7 by exact Hnd'.
  rewrite (fopen_wb_ok dst s7 Hnw7 Hnd7).
  set (fp2 := Z.pos (next_ptr (sys s7))).
  change (fp2 =? NULL) with false. cbn match.
  set (s8 := created dst s7).
  unfold bind at 1.
  rewrite (fwrite_spec c (Z.of_nat (length c)) fp2 s8 (mkFILE dst mode_wb 0))
    by (subst s8; cbn; apply lookup_insert_eq).
  cbv zeta. cbn [f_pos f_path f_mode].
  assert (script (sys s8) = []) as Hsc8 by (subst s8 s7; cbn; exact Esc).
  rewrite to_size_t_small by lia.
  assert (next_count s8 (Z.of_nat (length c)) (Z.of_nat (length c)) = Z.of_nat (length c))
    as -> by (unfold next_count; rewrite Hsc8; lia).
  rewrite Z.eqb_refl. cbn [negb]. unfold bind at 1, ret at 1.
  set (s9 := after_transfer _ _ _ _ _ s8).
  unfold bind at 1.
  rewrite (fclose_spec fp2 s9) by (subst s9; cbn; rewrite lookup_insert_eq; eauto).
  assert (disk (sys s8) = <[dst := []]> (disk (sys s))) as Hd8
    by (subst s8 s7; unfold created, mkdirs_done; cbn [sys set_sys disk]; now rewrite Edk).
  assert (fsh s8 = fsh s) as Efsh8 by exact Efsh.
  assert (forall q, is_Some (streams (sys s6) !! q) -> is_Some (streams (sys s) !! q)) as Hstr6.
  { intros q. subst s6 s5 s4 s3 s2 s1.
    unfold closed, after_transfer, after_fseek, traced, opened. cbn [sys set_sys streams].
    rewrite !insert_insert_eq, delete_insert_eq.
    destruct (Z.eq_dec q fp) as [->|Hq]; [rewrite lookup_delete_eq; intros [? ?]; discriminate|].
    rewrite lookup_delete_ne by (intros E; apply Hq; symmetry; exact E). now rewrite Hsys. }
  unfold ret. eexists. split; [reflexivity|]. split; [|split].
  - subst s9. unfold closed, after_transfer. cbn [sys set_sys disk]. rewrite Hd8.
    rewrite lookup_insert_eq. cbn [default from_option]. unfold id.
    destruct (Z.leb_spec (Z.of_nat (length c)) 0).
    + destruct c; [reflexivity|cbn in *; lia].
    + rewrite insert_insert_eq. f_equal.
      unfold Libc.write_at. cbn. now rewrite Nat2Z.id, firstn_all, drop_nil, app_nil_r.
  - exact Efsh8.
  - intros q. subst s9 s8 s7.
    unfold closed, after_transfer, created, mkdirs_done. cbn [sys set_sys streams].
    rewrite insert_insert_eq, delete_insert_eq.
    destruct (Z.eq_dec q fp2) as [->|Hq2]; [rewrite lookup_delete_eq; intros [? ?]; discriminate|].
    rewrite lookup_delete_ne by (intros E; apply Hq2; symmetry; exact E). apply Hstr6.
Qed.

End Copy.

Lemma FS_SV_HomeCopyFile_copies_witness :
  exists s',
    FS_SV_HomeCopyFile (H := unix_build) "save.dat" "backup/save.bak" sample_fs = Ret tt s'
    /\ disk (sys s') = <["/home/user/backup/save.bak" := [x01; x02; x03]]> (disk (sys sample_fs))
    /\ fsh s' = fsh sample_fs
    /\ (forall q, is_Some (streams (sys s') !! q) -> is_Some (streams (sys sample_fs) !! q)).
Proof.
  apply (FS_SV_HomeCopyFile_copies (H := unix_build) "save.dat" "backup/save.bak" sample_fs
           [x01; x02; x03]).
  - reflexivity.
  - repeat split; [discriminate|no_substring|no_substring|apply not_elem_of_empty..].
  - reflexivity.
  - cbn. lia.
Defined.

(** ** Seeking on plain and archive handles *)

Section SeekPlain.

Context `{Platform}.

Lemma FS_Seek_at_plain g offset origin t p m pos c :
  0 <= g < MAX_FILE_HANDLES ->
  zipFile (fsh t !!! g) = false -> handleFiles_file (fsh t !!! g) <> NULL ->
  streams (sys t) !! handleFiles_file (fsh t !!! g) = Some (mkFILE p m pos) ->
  disk (sys t) !! p = Some c ->
  (forall k, origin <> FS_SEEK_other k) ->
  let target := seek_target origin offset pos (Z.of_nat (length c)) in
  exists t',
    FS_Seek_at g offset origin t = Ret (if target <? 0 then -1 else 0) t'
    /\ streams (sys t') !! handleFiles_file (fsh t !!! g)
       = Some (mkFILE p m (if target <? 0 then pos else target))
    /\ disk (sys t') = disk (sys t)
    /\ only_sys t t'.
Proof.
  intros Hg Hz Hn Hst Hc Ho target. subst target.
  unfold FS_Seek_at. unfold bind at 1, slot, gets. rewrite Hz.
  unfold bind at 1. rewrite FS_FileForHandle_ok by (auto; lia).
  set (fp := handleFiles_file (fsh t !!! g)) in *.
  destruct origin as [| | |k]; [| | |exfalso; now apply (Ho k)].
  all: unfold bind at 1, ret at 1.
  all: rewrite (fseek_spec fp offset _ t (mkFILE p m pos) c Hst Hc); cbn [f_pos seek_target].
  - change (Libc.SEEK_CUR =? Libc.SEEK_SET) with false.
    change (Libc.SEEK_CUR =? Libc.SEEK_CUR) with true. cbn match.
    destruct (pos + offset <? 0).
    + eexists. split; [reflexivity|]. cbn. auto using only_sys_traced.
    + eexists. split; [reflexivity|]. unfold after_fseek. cbn. rewrite lookup_insert_eq.
      repeat split.
  - change (Libc.SEEK_END =? Libc.SEEK_SET) with false.
    change (Libc.SEEK_END =? Libc.SEEK_CUR) with false. cbn match.
    destruct (Z.of_nat (length c) + offset <? 0).
    + eexists. split; [reflexivity|]. cbn. auto using only_sys_traced.
    + eexists. split; [reflexivity|]. unfold after_fseek. cbn. rewrite lookup_insert_eq.
      repeat split.
  - change (Libc.SEEK_SET =? Libc.SEEK_SET) with true. cbn match. rewrite Z.add_0_l.
    destruct (offset <? 0).
    + eexists. split; [reflexivity|]. cbn. auto using only_sys_traced.
    + eexists. split; [reflexivity|]. unfold after_fseek. cbn. rewrite lookup_insert_eq.
      repeat split.
Qed.

(** X18. [FS_Seek] on a plain handle that is not streamed answers what the
    native [fseek] answers: 0 when the stream was moved, to the offset
    counted from the start, the position or the end of the file, and -1
    with the stream left in place when that would be before the start.
    An origin that is none of the three is fatal. *)
Theorem FS_Seek_plain (g : fileHandle_t) (offset : Z) (origin : fsOrigin_t) (t : FS)
    (p : string) (m : fmode) (pos : Z) (c : list byte) :
  fs_searchpaths t <> [] -> 0 <= g < MAX_FILE_HANDLES ->
  zipFile (fsh t !!! g) = false -> streamed (fsh t !!! g) = false ->
  handleFiles_file (fsh t !!! g) <> NULL ->
  streams (sys t) !! handleFiles_file (fsh t !!! g) = Some (mkFILE p m pos) ->
  disk (sys t) !! p = Some c ->
  match origin with
  | FS_SEEK_other _ => FS_Seek g offset origin t = Abort ERR_FATAL "Bad origin in FS_Seek" t
  | _ =>
      let target := seek_target origin offset pos (Z.of_nat (length c)) in
      exists t',
        FS_Seek g offset origin t = Ret (if target <? 0 then -1 else 0) t'
        /\ streams (sys t') !! handleFiles_file (fsh t !!! g)
           = Some (mkFILE p m (if target <? 0 then pos else target))
        /\ disk (sys t') = disk (sys t)
        /\ only_sys t t'
  end.
Proof.
  intros Hinit Hg Hz Hs Hn Hst Hc.
  rewrite (FS_Seek_unfold g offset origin t Hinit), Hs.
  destruct origin as [| | |k].
  1-3: apply (FS_Seek_at_plain g offset _ t p m pos c); auto; discriminate.
  unfold FS_Seek_at. unfold bind at 1, slot, gets. rewrite Hz.
  unfold bind at 1. rewrite FS_FileForHandle_ok by (auto; lia). reflexivity.
Qed.

(** X19. On a plain handle whose [streamed] flag is set, [FS_Seek] seeks
    twice: the call it makes on itself with the flag cleared moves the
    stream, and the seek is then done once more. From the current
    position the stream ends up [2 * offset] further; the flag is set
    again afterwards. *)
Theorem FS_Seek_streamed_twice (g : fileHandle_t) (offset : Z) (t : FS)
    (p : string) (m : fmode) (pos : Z) (c : list byte) :
  fs_searchpaths t <> [] -> 0 <= g < MAX_FILE_HANDLES ->
  zipFile (fsh t !!! g) = false -> streamed (fsh t !!! g) = true ->
  handleFiles_file (fsh t !!! g) <> NULL ->
  streams (sys t) !! handleFiles_file (fsh t !!! g) = Some (mkFILE p m pos) ->
  disk (sys t) !! p = Some c ->
  0 <= pos + offset -> 0 <= pos + 2 * offset ->
  exists t',
    FS_Seek g offset FS_SEEK_CUR t = Ret 0 t'
    /\ streams (sys t') !! handleFiles_file (fsh t !!! g) = Some (mkFILE p m (pos + 2 * offset))
    /\ streamed (fsh t' !!! g) = true
    /\ disk (sys t') = disk (sys t).
Proof.
  intros Hinit Hg Hz Hs Hn Hst Hc Hp1 Hp2.
  rewrite (FS_Seek_unfold g offset FS_SEEK_CUR t Hinit), Hs.
  set (t0 := streamed_set false g t).
  assert (fsh t0 !!! g = with_streamed false (fsh t !!! g)) as Hslot0
    by (subst t0; unfold streamed_set; cbn; apply lookup_total_insert_eq).
  destruct (FS_Seek_at_plain g offset FS_SEEK_CUR t0 p m pos c)
    as (t1 & Heq1 & Hst1 & Hd1 & Hos1).
  { lia. }
  { rewrite Hslot0. exact Hz. }
  { rewrite Hslot0. exact Hn. }
  { rewrite Hslot0. exact Hst. }
  { exact Hc. }
  { discriminate. }
  rewrite Heq1.
  cbn [seek_target] in Hst1. rewrite Hslot0 in Hst1. cbn [handleFiles_file with_streamed] in Hst1.
  destruct (Z.ltb_spec (pos + offset) 0) as [?|_]; [lia|].
  destruct (only_sys_fields t0 t1 Hos1) as (_ & Efsh1 & _).
  set (t2 := streamed_set true g t1).
  assert (fsh t2 !!! g = with_streamed true (fsh t !!! g)) as Hslot2.
  { subst t2. unfold streamed_set. cbn. rewrite lookup_total_insert_eq, Efsh1, Hslot0.
    reflexivity. }
  destruct (FS_Seek_at_plain g offset FS_SEEK_CUR t2 p m (pos + offset) c)
    as (t3 & Heq3 & Hst3 & Hd3 & Hos3).
  { lia. }
  { rewrite Hslot2. exact Hz. }
  { rewrite Hslot2. exact Hn. }
  { rewrite Hslot2. exact Hst1. }
  { change (disk (sys t2)) with (disk (sys t1)). rewrite Hd1. exact Hc. }
  { discriminate. }
  cbn [seek_target] in Heq3, Hst3. rewrite Hslot2 in Hst3.
  cbn [handleFiles_file with_streamed] in Hst3.
  destruct (Z.ltb_spec (pos + offset + offset) 0) as [?|_]; [lia|].
  destruct (only_sys_fields t2 t3 Hos3) as (_ & Efsh3 & _).
  exists t3. split; [exact Heq3|]. split; [|split].
  - rewrite Hst3. do 2 f_equal. lia.
  - rewrite Efsh3, Hslot2. reflexivity.
  - rewrite Hd3. exact Hd1.
Qed.

End SeekPlain.

Lemma FS_Seek_plain_witness :
  exists t',
    FS_Seek (H := unix_build) 1 (-1) FS_SEEK_END (reading_fs []) = Ret 0 t'
    /\ streams (sys t') !! handleFiles_file (fsh (reading_fs []) !!! 1)
       = Some (mkFILE "/home/user/save.dat" mode_rb 2)
    /\ disk (sys t') = disk (sys (reading_fs []))
    /\ only_sys (reading_fs []) t'.
Proof.
  apply (FS_Seek_plain (H := unix_build) 1 (-1) FS_SEEK_END (reading_fs [])
           "/home/user/save.dat" mode_rb 0 [x01; x02; x03]).
  - discriminate.
  - cbn. lia.
  - reflexivity.
  - reflexivity.
  - discriminate.
  - reflexivity.
  - reflexivity.
Defined.

Lemma FS_Seek_streamed_twice_witness :
  exists t',
    FS_Seek (H := unix_build) 1 1 FS_SEEK_CUR (streamed_set true 1 (reading_fs [])) = Ret 0 t'
    /\ streams (sys t') !! handleFiles_file (fsh (streamed_set true 1 (reading_fs [])) !!! 1)
       = Some (mkFILE "/home/user/save.dat" mode_rb (0 + 2 * 1))
    /\ streamed (fsh t' !!! 1) = true
    /\ disk (sys t') = disk (sys (streamed_set true 1 (reading_fs []))).
Proof.
  apply (FS_Seek_streamed_twice (H := unix_build) 1 1 (streamed_set true 1 (reading_fs []))
           "/home/user/save.dat" mode_rb 0 [x01; x02; x03]).
  - discriminate.
  - cbn. lia.
  - reflexivity.
  - reflexivity.
  - discriminate.
  - reflexivity.
  - reflexivity.
  - lia.
  - lia.
Defined.

Section SeekArchive.

Context `{Platform}.

(** X20. [FS_Seek] from the current position on an archive handle reads
    [offset] bytes of the entry away and answers [offset]; the entry is
    then read from [offset] bytes further on, or from its end when it
    has fewer bytes left. An origin that is none of the three is fatal. *)
Theorem FS_Seek_archive_forward (f : fileHandle_t) (offset : Z) (s : FS) (zp : ptr)
    (es : list (Z * (string * list byte))) (zpos r : Z) (c : list byte) :
  0 < f < MAX_FILE_HANDLES ->
  zip_handle s f zp zpos -> streamed (fsh s !!! f) = false ->
  entry_pos s zp es zpos r -> Unz.entry_at es zpos = Some c ->
  0 <= r <= Z.of_nat (length c) -> 0 <= offset < 2 ^ 31 ->
  (exists s',
     FS_Seek f offset FS_SEEK_CUR s = Ret offset s'
     /\ entry_pos s' zp es zpos (Z.min (r + offset) (Z.of_nat (length c)))
     /\ forall n, 0 <= n < 2 ^ 31 ->
          exists s'',
            FS_Read n f s'
            = Ret (Z.min n (Z.of_nat (length c) - Z.min (r + offset) (Z.of_nat (length c))),
                   take (Z.to_nat n) (drop (Z.to_nat (r + offset)) c)) s'')
  /\ (forall k, FS_Seek f offset (FS_SEEK_other k) s
                = Abort ERR_FATAL "Bad origin in FS_Seek" s).
Proof.
  intros _ Hh Hs Hpos Hc Hr Hoff. pose proof Hh as (Hi & Hf & Hz & Hp & Hq). split.
  - rewrite (FS_Seek_unfold f offset FS_SEEK_CUR s Hi), Hs.
    unfold FS_Seek_at. unfold bind at 1, slot, gets. rewrite Hz.
    destruct (Z.ltb_spec offset 0) as [?|_]; [lia|]. cbn [orb].
    destruct (seek_discard_spec (Z.to_nat (offset / PK3_SEEK_BUFFER_SIZE) + 1) offset s f zp es
                zpos r c Hh Hpos Hc Hr ltac:(lia) ltac:(lia))
      as (s3 & left & Hdis & Hl & Hl' & Hpos3 & Hos3).
    unfold bind at 1. rewrite Hdis.
    assert (zip_handle s3 f zp zpos) as Hh3 by (eapply zip_handle_only_sys; eauto).
    unfold PK3_SEEK_BUFFER_SIZE in Hl.
    destruct (FS_Read_entry left f s3 zp es zpos _ c Hh3 Hpos3 Hc ltac:(lia) ltac:(lia))
      as (s4 & Hrd & Hpos4 & Hos4).
    unfold bind at 1. rewrite Hrd. cbv beta iota. unfold ret.
    assert (entry_pos s4 zp es zpos (Z.min (r + offset) (Z.of_nat (length c)))) as Hpos5.
    { replace (Z.min (r + offset) (Z.of_nat (length c)))
        with (Z.min (Z.min (r + (offset - left)) (Z.of_nat (length c)) + left)
                    (Z.of_nat (length c))) by lia.
      exact Hpos4. }
    assert (zip_handle s4 f zp zpos) as Hh4 by (eapply zip_handle_only_sys; eauto).
    exists s4. split; [reflexivity|]. split; [exact Hpos5|].
    intros n Hn.
    destruct (FS_Read_entry n f s4 zp es zpos _ c Hh4 Hpos5 Hc ltac:(lia) ltac:(lia))
      as (s5 & Hrd5 & _).
    exists s5. rewrite Hrd5. f_equal. f_equal.
    destruct (Z.le_ge_cases (r + offset) (Z.of_nat (length c))).
    + rewrite Z.min_l by lia. reflexivity.
    + rewrite Z.min_r by lia. rewrite Nat2Z.id.
      rewrite !drop_ge by lia. reflexivity.
  - intros k. rewrite (FS_Seek_unfold f offset (FS_SEEK_other k) s Hi), Hs.
    unfold FS_Seek_at. unfold bind at 1, slot, gets. rewrite Hz.
    destruct (Z.ltb_spec offset 0) as [?|_]; [lia|]. reflexivity.
Qed.

End SeekArchive.

Lemma FS_Seek_archive_forward_witness :
  (exists s',
     FS_Seek (H := unix_build) 1 9997 FS_SEEK_CUR archive_fs = Ret 9997 s'
     /\ entry_pos s' 5 [(100, ("sound/explosion.wav", sample_entry))] 100
          (Z.min (3 + 9997) (Z.of_nat (length sample_entry)))
     /\ forall n, 0 <= n < 2 ^ 31 ->
          exists s'',
            FS_Read n 1 s'
            = Ret (Z.min n (Z.of_nat (length sample_entry)
                            - Z.min (3 + 9997) (Z.of_nat (length sample_entry))),
                   take (Z.to_nat n) (drop (Z.to_nat (3 + 9997)) sample_entry)) s'')
  /\ (forall k, FS_Seek (H := unix_build) 1 9997 (FS_SEEK_other k) archive_fs
                = Abort ERR_FATAL "Bad origin in FS_Seek" archive_fs).
Proof.
  apply (FS_Seek_archive_forward (H := unix_build) 1 9997 archive_fs 5
           [(100, ("sound/explosion.wav", sample_entry))] 100 3 sample_entry).
  - cbn. lia.
  - repeat split; discriminate.
  - reflexivity.
  - reflexivity.
  - reflexivity.
  - unfold sample_entry. rewrite !length_app, !length_replicate. cbn [length]. lia.
  - lia.
Defined.

(** ** Reading to the end of a file *)

Section EndOfFile.

Context `{Platform}.

Lemma FS_Read_loop_eof fuel : forall len rem tries buf fp s p m pos c,
  reading s fp p m pos c [] -> Z.of_nat (length c) <= pos ->
  0 < rem < 2 ^ 32 -> 0 <= tries <= 1 ->
  (Z.to_nat (2 - tries) <= fuel)%nat ->
  exists s',
    FS_Read_loop fuel len rem tries buf fp s = Ret (len - rem, buf) s'
    /\ reading s' fp p m pos c [] /\ only_sys s s'.
Proof.
  induction fuel as [|fuel IH]; intros len rem tries buf fp s p m pos c
    Hrd Hend Hrem Htries Hfuel; [lia|].
  cbn [FS_Read_loop].
  destruct (Z.eqb_spec rem 0) as [?|_]; [lia|].
  pose proof Hrd as (Hfp & Hc & Hsc).
  unfold bind at 1.
  rewrite (fread_spec rem fp s _ c Hfp Hc). cbn [f_pos f_path f_mode].
  rewrite to_size_t_small by lia.
  assert (next_count s rem (Z.max 0 (Z.of_nat (length c) - pos)) = 0) as ->
    by (unfold next_count; rewrite Hsc; lia).
  cbn [Z.leb Z.compare Z.eqb].
  match goal with |- context [after_transfer ?call _ _ _ _ _] =>
    pose proof (reading_after call s fp p m pos pos c _ Hrd) as Hrd1;
    set (s1 := after_transfer call fp (mkFILE p m pos) pos (disk (sys s)) s) in * end.
  cbn [tl] in Hrd1.
  assert (only_sys s s1) as Hos1 by apply only_sys_after_transfer.
  destruct (Z.eqb_spec tries 0) as [->|Hne]; cbn [negb andb].
  - rewrite Z.sub_0_r.
    destruct (IH len rem 1 (buf ++ []) fp s1 p m pos c Hrd1 Hend Hrem ltac:(lia) ltac:(lia))
      as (s' & Heq & Hrd' & Hos').
    exists s'. rewrite Heq, app_nil_r. split; [reflexivity|]. split; [exact Hrd'|].
    eapply only_sys_trans; [exact Hos1|exact Hos'].
  - exists s1. split; [reflexivity|]. split; [exact Hrd1|exact Hos1].
Qed.

(** [FS_Read] on a plain handle when the native reads are not disturbed:
    it returns the bytes from the position on, as many as were asked
    for or, when the file ends before, as many as are left (the short
    count comes after a read of nothing has been tried twice). The
    stream is then past the bytes returned. *)
Lemma FS_Read_unscripted len f s p m pos c :
  fs_searchpaths s <> [] -> f <> 0 -> zipFile (fsh s !!! f) = false ->
  reading s (handleFiles_file (fsh s !!! f)) p m pos c [] ->
  0 <= pos -> 0 <= len < 2 ^ 31 ->
  let k := Z.min len (Z.max 0 (Z.of_nat (length c) - pos)) in
  exists s',
    FS_Read len f s = Ret (k, take (Z.to_nat k) (drop (Z.to_nat pos) c)) s'
    /\ reading s' (handleFiles_file (fsh s !!! f)) p m (pos + k) c []
    /\ only_sys s s'.
Proof.
  intros Hinit Hf Hz Hrd Hpos Hlen k.
  rewrite (FS_Read_plain len f s Hinit Hf Hz).
  set (fp := handleFiles_file (fsh s !!! f)) in *.
  replace (Z.to_nat len + 3)%nat with (S (Z.to_nat len + 2)) by lia.
  cbn [FS_Read_loop].
  destruct (Z.eqb_spec len 0) as [E0|E0].
  { exists s. assert (k = 0) as -> by lia. rewrite Z.add_0_r. subst len.
    split; [reflexivity|]. split; [exact Hrd|apply only_sys_refl]. }
  pose proof Hrd as (Hfp & Hc & Hsc).
  unfold bind at 1.
  rewrite (fread_spec len fp s _ c Hfp Hc). cbn [f_pos f_path f_mode].
  rewrite to_size_t_small by lia.
  assert (next_count s len (Z.max 0 (Z.of_nat (length c) - pos)) = k) as ->
    by (unfold next_count; rewrite Hsc; reflexivity).
  cbn [Z.eqb negb andb]. rewrite andb_false_r.
  destruct (Z.eqb_spec k (-1)) as [?|_]; [lia|].
  destruct (Z.leb_spec k 0) as [Hk0|Hk0].
  - (* the file has ended *)
    assert (k = 0) as Ek by lia. rewrite Ek. cbn [Z.eqb].
    match goal with |- context [after_transfer ?call _ _ _ _ _] =>
      pose proof (reading_after call s fp p m pos pos c _ Hrd) as Hrd1;
      set (s1 := after_transfer call fp (mkFILE p m pos) pos (disk (sys s)) s) in * end.
    cbn [tl] in Hrd1.
    destruct (FS_Read_loop_eof (Z.to_nat len + 2) len (len - 0) 1 ([] ++ []) fp s1 p m pos c Hrd1)
      as (s' & Heq & Hrd' & Hos'); try lia.
    exists s'. rewrite Heq. cbn [app Z.to_nat take]. rewrite Z.add_0_r.
    split; [f_equal; f_equal; lia|]. split; [exact Hrd'|].
    eapply only_sys_trans; [apply only_sys_after_transfer|exact Hos'].
  - destruct (Z.eqb_spec k 0) as [?|_]; [lia|].
    match goal with |- context [after_transfer ?call _ _ _ _ _] =>
      pose proof (reading_after call s fp p m pos (pos + k) c _ Hrd) as Hrd1;
      set (s1 := after_transfer call fp (mkFILE p m pos) (pos + k) (disk (sys s)) s) in * end.
    cbn [tl] in Hrd1. cbn [app].
    destruct (Z.eq_dec k len) as [Ek|Ek].
    + (* everything was there *)
      replace (Z.to_nat len + 2)%nat with (S (Z.to_nat len + 1)) by lia.
      cbn [FS_Read_loop]. rewrite Ek, Z.sub_diag. cbn [Z.eqb].
      exists s1. split; [reflexivity|]. rewrite <- Ek. split; [exact Hrd1|].
      apply only_sys_after_transfer.
    + destruct (FS_Read_loop_eof (Z.to_nat len + 2) len (len - k) 0
                  (take (Z.to_nat k) (drop (Z.to_nat pos) c)) fp s1 p m (pos + k) c Hrd1)
        as (s' & Heq & Hrd' & Hos'); try lia.
      exists s'. rewrite Heq. split; [f_equal; f_equal; lia|]. split; [exact Hrd'|].
      eapply only_sys_trans; [apply only_sys_after_transfer|exact Hos'].
Qed.

(** X21. Reading past the end of a file. When fewer bytes are left than are
    asked for, [FS_Read] returns the bytes that are left and their
    number; a read after that returns 0 and no byte. Neither is an
    error. *)
Theorem FS_Read_at_end_of_file (f : fileHandle_t) (len : Z) (s : FS)
    (p : string) (m : fmode) (pos : Z) (c : list byte) :
  fs_searchpaths s <> [] -> 0 < f < MAX_FILE_HANDLES -> zipFile (fsh s !!! f) = false ->
  reading s (handleFiles_file (fsh s !!! f)) p m pos c [] ->
  0 <= pos <= Z.of_nat (length c) -> Z.of_nat (length c) - pos < len < 2 ^ 31 ->
  exists s1 s2,
    FS_Read len f s = Ret (Z.of_nat (length c) - pos, drop (Z.to_nat pos) c) s1
    /\ FS_Read len f s1 = Ret (0, []) s2.
Proof.
  intros Hinit Hrange Hz Hrd Hpos Hlen.
  assert (f <> 0) as Hf by lia.
  destruct (FS_Read_unscripted len f s p m pos c Hinit Hf Hz Hrd ltac:(lia) ltac:(lia))
    as (s1 & Heq1 & Hrd1 & Hos1).
  rewrite Z.min_r, Z.max_r in Heq1, Hrd1 by lia.
  destruct (only_sys_fields s s1 Hos1) as (Esp & Efsh & _).
  destruct (FS_Read_unscripted len f s1 p m (pos + (Z.of_nat (length c) - pos)) c)
    as (s2 & Heq2 & _); try (rewrite ?Esp, ?Efsh; first [assumption|lia]).
  rewrite Z.min_r, Z.max_l in Heq2 by lia.
  exists s1, s2. split; [|exact Heq2].
  rewrite Heq1. f_equal. f_equal. apply take_ge. rewrite length_drop. lia.
Qed.

(** X22. Reads follow one another: on a plain handle, a read of [n1] bytes
    and then one of [n2] bytes return, one after the other, the bytes
    that a single read of [n1 + n2] bytes returns. *)
Theorem FS_Read_sequential (f : fileHandle_t) (n1 n2 : Z) (s : FS)
    (p : string) (m : fmode) (pos : Z) (c : list byte) :
  fs_searchpaths s <> [] -> 0 < f < MAX_FILE_HANDLES -> zipFile (fsh s !!! f) = false ->
  reading s (handleFiles_file (fsh s !!! f)) p m pos c [] ->
  0 <= pos -> 0 <= n1 -> 0 <= n2 -> n1 + n2 < 2 ^ 31 ->
  pos + n1 + n2 <= Z.of_nat (length c) ->
  exists b1 b2 s1 s2 s3,
    FS_Read n1 f s = Ret (n1, b1) s1
    /\ FS_Read n2 f s1 = Ret (n2, b2) s2
    /\ FS_Read (n1 + n2) f s = Ret (n1 + n2, b1 ++ b2) s3
    /\ b1 ++ b2 = take (Z.to_nat (n1 + n2)) (drop (Z.to_nat pos) c)
    /\ streams (sys s2) !! handleFiles_file (fsh s !!! f)
       = streams (sys s3) !! handleFiles_file (fsh s !!! f).
Proof.
  intros Hinit Hrange Hz Hrd Hpos Hn1 Hn2 Hn Hfit.
  assert (f <> 0) as Hf by lia.
  destruct (FS_Read_unscripted n1 f s p m pos c Hinit Hf Hz Hrd ltac:(lia) ltac:(lia))
    as (s1 & Heq1 & Hrd1 & Hos1).
  rewrite Z.min_l in Heq1, Hrd1 by lia.
  destruct (only_sys_fields s s1 Hos1) as (Esp & Efsh & _).
  destruct (FS_Read_unscripted n2 f s1 p m (pos + n1) c)
    as (s2 & Heq2 & Hrd2 & Hos2); try (rewrite ?Esp, ?Efsh; first [assumption|lia]).
  rewrite Z.min_l in Heq2, Hrd2 by lia.
  destruct (FS_Read_unscripted (n1 + n2) f s p m pos c Hinit Hf Hz Hrd ltac:(lia) ltac:(lia))
    as (s3 & Heq3 & Hrd3 & Hos3).
  rewrite Z.min_l in Heq3, Hrd3 by lia.
  assert (take (Z.to_nat n1) (drop (Z.to_nat pos) c)
          ++ take (Z.to_nat n2) (drop (Z.to_nat (pos + n1)) c)
          = take (Z.to_nat (n1 + n2)) (drop (Z.to_nat pos) c)) as Happ
    by (apply take_chunk; lia).
  do 2 eexists. exists s1, s2, s3.
  split; [exact Heq1|]. split; [exact Heq2|]. split; [rewrite Happ; exact Heq3|].
  split; [exact Happ|].
  rewrite Efsh in Hrd2.
  destruct Hrd2 as (-> & _). destruct Hrd3 as (-> & _). do 2 f_equal. lia.
Qed.

End EndOfFile.

Lemma FS_Read_at_end_of_file_witness :
  exists s1 s2,
    FS_Read 10 1 (reading_fs [])
    = Ret (Z.of_nat (length [x01; x02; x03]) - 0, drop (Z.to_nat 0) [x01; x02; x03]) s1
    /\ FS_Read 10 1 s1 = Ret (0, []) s2.
Proof.
  apply (FS_Read_at_end_of_file (H := unix_build) 1 10 (reading_fs [])
           "/home/user/save.dat" mode_rb 0 [x01; x02; x03]).
  - discriminate.
  - cbn. lia.
  - reflexivity.
  - repeat split.
  - cbn. lia.
  - cbn. lia.
Defined.

Lemma FS_Read_sequential_witness :
  exists b1 b2 s1 s2 s3,
    FS_Read 1 1 (reading_fs []) = Ret (1, b1) s1
    /\ FS_Read 2 1 s1 = Ret (2, b2) s2
    /\ FS_Read (1 + 2) 1 (reading_fs []) = Ret (1 + 2, b1 ++ b2) s3
    /\ b1 ++ b2 = take (Z.to_nat (1 + 2)) (drop (Z.to_nat 0) [x01; x02; x03])
    /\ streams (sys s2) !! handleFiles_file (fsh (reading_fs []) !!! 1)
       = streams (sys s3) !! handleFiles_file (fsh (reading_fs []) !!! 1).
Proof.
  apply (FS_Read_sequential (H := unix_build) 1 1 2 (reading_fs [])
           "/home/user/save.dat" mode_rb 0 [x01; x02; x03]).
  - discriminate.
  - cbn. lia.
  - reflexivity.
  - repeat split.
  - lia.
  - lia.
  - lia.
  - lia.
  - cbn. lia.
Defined.

(** ** Reading with the streamed flag *)

Lemma table_free_bind {A B} (m : M A) (k : A -> M B) :
  table_free m -> (forall a, table_free (k a)) -> table_free (bind m k).
Proof.
  intros Hm Hk t s. unfold bind. rewrite Hm.
  destruct (m s) as [a s1|code msg s1|s1]; cbn; [apply Hk|reflexivity..].
Qed.

Lemma table_free_ret {A} (a : A) : table_free (ret a).
Proof. intros t s. reflexivity. Qed.

Lemma table_free_fread block fp : table_free (Libc.fread block fp).
Proof.
  intros t s. destruct s as [sp0 t0 gd home base game dbg ls con [dk dr nw sm zs np sc tr]].
  unfold Libc.fread, Libc.stream, Libc.contents, Libc.transfer, Libc.set_pos, Libc.called,
    Libc.upd, bind, ret, gets, modify, undefined.
  cbn. destruct (sm !! fp); cbn; [|reflexivity].
  destruct sc; cbn; destruct (_ <=? 0); reflexivity.
Qed.

Lemma table_free_unzRead zp len : table_free (Unz.unzReadCurrentFile zp len).
Proof.
  intros t s. destruct s as [sp0 t0 gd home base game dbg ls con [dk dr nw sm zs np sc tr]].
  unfold Unz.unzReadCurrentFile, Unz.archive, Unz.put, Libc.called, Libc.upd,
    bind, ret, gets, modify, undefined.
  cbn. destruct (zs !! zp) as [a|]; cbn; [|reflexivity].
  destruct (Unz.entry_at _ _); [|reflexivity]. destruct (z_read a); reflexivity.
Qed.

Lemma table_free_FS_Read_loop fuel : forall len rem tries buf fp,
  table_free (FS_Read_loop fuel len rem tries buf fp).
Proof.
  induction fuel as [|fuel IH]; intros len rem tries buf fp; cbn [FS_Read_loop].
  - intros t s. reflexivity.
  - destruct (rem =? 0); [apply table_free_ret|].
    apply table_free_bind; [apply table_free_fread|intros [read data]].
    destruct (_ && _); [apply table_free_ret|].
    destruct (read =? -1); [intros t s; reflexivity|apply IH].
Qed.

(** [FS_Read] as a function of the slot it is given. *)
Lemma FS_Read_slot len f s :
  fs_searchpaths s <> [] -> f <> 0 ->
  FS_Read len f s
  = (if negb (zipFile (fsh s !!! f))
     then FS_Read_loop (Z.to_nat len + 3) len len 0 [] (handleFiles_file (fsh s !!! f))
     else Unz.unzReadCurrentFile (handleFiles_file (fsh s !!! f)) len) s.
Proof.
  intros Hinit Hf. unfold FS_Read. unfold bind at 1, gets at 1.
  destruct (fs_searchpaths s); [contradiction|].
  unfold bind at 1, ret at 1.
  destruct (Z.eqb_spec f 0) as [?|_]; [contradiction|]. reflexivity.
Qed.

(** X23. [FS_Read2] reads what [FS_Read] reads: the [streamed] flag that it
    clears around the read has no part in reading, and it is set again
    when the read returns. *)
Theorem FS_Read2_is_FS_Read `{Platform} (len : Z) (f : fileHandle_t) (s : FS) :
  0 <= f < MAX_FILE_HANDLES ->
  same_outcome (FS_Read2 len f s) (FS_Read len f s).
Proof.
  intros _.
  assert (forall (o : outcome (Z * list byte)), same_outcome o o) as Hrefl.
  { intros [a s1|code msg s1|s1]; cbn; auto. }
  unfold FS_Read2. unfold bind at 1, gets at 1.
  destruct (fs_searchpaths s) as [|sp sps] eqn:Esp.
  { unfold FS_Read, bind, gets. rewrite Esp. cbn. auto. }
  unfold bind at 1, ret at 1.
  destruct (Z.eqb_spec f 0) as [->|Hf].
  { unfold FS_Read, bind, gets, ret. rewrite Esp. cbn. auto. }
  unfold bind at 1, slot at 1, gets at 1.
  destruct (streamed (fsh s !!! f)) eqn:Estr; [|apply Hrefl].
  unfold bind at 1, upd_slot at 1, modify at 1.
  set (t0 := <[f := with_streamed false (fsh s !!! f)]> (fsh s)).
  assert (fs_searchpaths s <> []) as Hinit by (rewrite Esp; discriminate).
  rewrite (FS_Read_slot len f s Hinit Hf).
  unfold bind at 1.
  rewrite (FS_Read_slot len f (set_fsh t0 s)) by (cbn; assumption).
  cbn [fsh set_fsh]. subst t0. rewrite lookup_total_insert_eq.
  cbn [zipFile handleFiles_file with_streamed].
  set (body := if negb (zipFile (fsh s !!! f)) then _ else _).
  assert (table_free body) as Hfree.
  { subst body. destruct (negb _); [apply table_free_FS_Read_loop|apply table_free_unzRead]. }
  rewrite Hfree.
  assert (body s = with_table (fsh s) (body s)) as Hown.
  { rewrite <- Hfree. f_equal. destruct s; reflexivity. }
  destruct (body s) as [r s1|code msg s1|s1]; cbn [with_table] in *.
  - injection Hown as Hown. unfold bind, upd_slot, modify, ret.
    cbn [same_outcome]. split; [reflexivity|]. split; [destruct s1; reflexivity|].
    intros i. cbn [fsh set_fsh]. rewrite Hown. cbn [fsh set_fsh].
    rewrite lookup_total_insert_eq.
    destruct (Z.eq_dec i f) as [->|Hne].
    + rewrite lookup_total_insert_eq.
      destruct (fsh s !!! f); cbn in *. now rewrite Estr.
    + now rewrite !lookup_total_insert_ne by congruence.
  - cbn. repeat split.
  - cbn. reflexivity.
Qed.

Lemma FS_Read2_is_FS_Read_witness :
  same_outcome (FS_Read2 2 1 archive_fs) (FS_Read 2 1 archive_fs).
Proof.
  apply (FS_Read2_is_FS_Read (H := unix_build) 2 1 archive_fs).
  cbn. lia.
Defined.

(** ** The handle table stays well-formed *)

Section Invariant.

Context `{Platform}.

Lemma keeps_ret {A} (a : A) (Q : A -> Prop) : Q a -> keeps (ret a) Q.
Proof. intros HQ s Hwf. split; [exact Hwf|]. intros a' s' [= <- _]. exact HQ. Qed.

Lemma keeps_bind {A B} (m : M A) (k : A -> M B) (P : A -> Prop) (Q : B -> Prop) :
  keeps m P -> (forall a, P a -> keeps (k a) Q) -> keeps (bind m k) Q.
Proof.
  intros Hm Hk s Hwf. destruct (Hm s Hwf) as (Hwf1 & HP). unfold bind.
  destruct (m s) as [a s1|code msg s1|s1]; cbn in Hwf1; [|split; [exact Hwf1|discriminate]..].
  apply (Hk a (HP a s1 eq_refl) s1 Hwf1).
Qed.

Lemma keeps_weaken {A} (m : M A) (P Q : A -> Prop) :
  keeps m P -> (forall a, P a -> Q a) -> keeps m Q.
Proof.
  intros Hm HPQ s Hwf. destruct (Hm s Hwf) as (Hwf1 & HP). split; [exact Hwf1|].
  intros a s' E. eauto.
Qed.

Lemma keeps_gets {A} (f : FS -> A) : keeps (gets f) (fun _ => True).
Proof. intros s Hwf. split; [exact Hwf|auto]. Qed.

Lemma keeps_modify (g : FS -> FS) :
  (forall s, handles_wf s -> handles_wf (g s)) -> keeps (modify g) (fun _ => True).
Proof. intros Hg s Hwf. split; [apply Hg, Hwf|auto]. Qed.

Lemma keeps_Com_Error {A} code msg (Q : A -> Prop) : keeps (Com_Error code msg) Q.
Proof. intros s Hwf. split; [exact Hwf|discriminate]. Qed.

Lemma keeps_undefined {A} (Q : A -> Prop) : keeps undefined Q.
Proof. intros s Hwf. split; [exact Hwf|discriminate]. Qed.

Lemma keeps_Com_Printf msg : keeps (Com_Printf msg) (fun _ => True).
Proof. intros s Hwf. split; [exact Hwf|auto]. Qed.

Lemma handles_wf_same f d s :
  handles_wf s -> handleFiles_file d = handleFiles_file (fsh s !!! f) ->
  handles_wf (set_fsh (<[f := d]> (fsh s)) s).
Proof.
  intros Hwf Hd i Hi. cbn. destruct (Z.eq_dec i f) as [->|Hne].
  - rewrite lookup_total_insert_eq, Hd. now apply Hwf.
  - rewrite lookup_total_insert_ne by congruence. now apply Hwf.
Qed.

Lemma handles_wf_null f d s :
  handles_wf s -> handleFiles_file d = NULL ->
  handles_wf (set_fsh (<[f := d]> (fsh s)) s).
Proof.
  intros Hwf Hd i Hi. cbn. destruct (Z.eq_dec i f) as [->|Hne].
  - now rewrite lookup_total_insert_eq.
  - rewrite lookup_total_insert_ne by congruence. now apply Hwf.
Qed.

Lemma keeps_FS_HandleForFile : keeps FS_HandleForFile (fun f => 1 <= f < MAX_FILE_HANDLES).
Proof.
  intros s Hwf. split.
  - unfold FS_HandleForFile, bind, gets, ret, Com_Error.
    destruct (first_free _ _ _); exact Hwf.
  - intros f s' E. apply FS_HandleForFile_lowest in E. tauto.
Qed.

End Invariant.

Ltac keeps_side :=
  intros ? ?;
  first [ assumption
        | apply handles_wf_same; [assumption|reflexivity]
        | apply handles_wf_null; [assumption|reflexivity]
        | apply handles_wf_store; assumption ].

Ltac keeps_step :=
  lazymatch goal with
  | |- keeps (bind FS_HandleForFile _) _ =>
      eapply keeps_bind; [apply keeps_FS_HandleForFile|intros ? ?]
  | |- keeps (bind _ _) _ => apply (keeps_bind _ _ (fun _ => True)); [|intros ? _]
  | |- keeps (ret _) _ => apply keeps_ret; exact I
  | |- keeps (gets _) _ => apply keeps_gets
  | |- keeps (modify _) _ => apply keeps_modify; keeps_side
  | |- keeps (Com_Error _ _) _ => apply keeps_Com_Error
  | |- keeps (Com_Printf _) _ => apply keeps_Com_Printf
  | |- keeps undefined _ => apply keeps_undefined
  | |- keeps (if ?b then _ else _) _ => destruct b
  | |- keeps (match ?x with _ => _ end) _ => destruct x
  end.

Ltac keeps_unfold :=
  progress unfold slot, set_slot, upd_slot, debug_print,
    Libc.upd, Libc.called, Libc.mkdir, Libc.fopen, Libc.stream, Libc.fclose, Libc.transfer,
    Libc.contents, Libc.set_pos, Libc.fread, Libc.fwrite, Libc.fseek, Libc.ftell, Libc.fflush,
    Libc.remove,
    Unz.archive, Unz.put, Unz.unzSetOffset, Unz.unzOpenCurrentFile, Unz.unzReadCurrentFile,
    Unz.unzCloseCurrentFile, Unz.unzClose.

Ltac keeps_auto := repeat first [keeps_step | keeps_unfold | solve [eauto with fs_keeps]].

Create HintDb fs_keeps.

Section InvariantCalls.

Context `{Platform}.

Lemma keeps_FS_FileForHandle f : keeps (FS_FileForHandle f) (fun _ => True).
Proof. unfold FS_FileForHandle. keeps_auto. Qed.

Lemma keeps_Sys_Mkdir p : keeps (Sys_Mkdir p) (fun _ => True).
Proof. unfold Sys_Mkdir. keeps_auto. Qed.

Lemma keeps_create_dirs rest : forall done, keeps (create_dirs done rest) (fun _ => True).
Proof.
  induction rest as [|c rest IH]; intros done; cbn [create_dirs].
  - keeps_auto.
  - apply (keeps_bind _ _ (fun _ => True)); [|intros ? _; apply IH].
    destruct (Ascii.eqb c PATH_SEP); [|keeps_auto].
    apply (keeps_bind _ _ (fun _ => True)); [apply keeps_Sys_Mkdir|intros ? _; keeps_auto].
Qed.

Lemma keeps_FS_CreatePath p : keeps (FS_CreatePath p) (fun _ => True).
Proof.
  unfold FS_CreatePath. destruct (_ || _); [keeps_auto|].
  destruct p; [keeps_auto|].
  apply (keeps_bind _ _ (fun _ => True)); [apply keeps_create_dirs|intros ? _; keeps_auto].
Qed.

Lemma keeps_FS_BuildOSPath base game qpath :
  keeps (FS_BuildOSPath base game qpath) (fun _ => True).
Proof. unfold FS_BuildOSPath. keeps_auto. Qed.

Lemma keeps_FS_filelength f : keeps (FS_filelength f) (fun _ => True).
Proof.
  unfold FS_filelength.
  apply (keeps_bind _ _ (fun _ => True)); [apply keeps_FS_FileForHandle|intros ? _].
  keeps_auto.
Qed.

Lemma keeps_FS_fplength h : keeps (FS_fplength h) (fun _ => True).
Proof. unfold FS_fplength. keeps_auto. Qed.

Lemma keeps_FS_Read_loop fuel : forall len rem tries buf fp,
  keeps (FS_Read_loop fuel len rem tries buf fp) (fun _ => True).
Proof.
  induction fuel as [|fuel IH]; intros len rem tries buf fp; cbn [FS_Read_loop].
  - keeps_auto.
  - destruct (rem =? 0); [keeps_auto|].
    apply (keeps_bind _ _ (fun _ => True)); [keeps_auto|intros [read data] _].
    destruct (_ && _); [keeps_auto|].
    destruct (read =? -1); [keeps_auto|apply IH].
Qed.

Lemma keeps_FS_Read len f : keeps (FS_Read len f) (fun _ => True).
Proof.
  unfold FS_Read.
  apply (keeps_bind _ _ (fun _ => True)); [keeps_auto|intros sp _].
  apply (keeps_bind _ _ (fun _ => True)); [keeps_auto|intros ? _].
  destruct (f =? 0); [keeps_auto|].
  apply (keeps_bind _ _ (fun _ => True)); [keeps_auto|intros d _].
  destruct (negb _); [apply keeps_FS_Read_loop|keeps_auto].
Qed.

Lemma keeps_FS_Write_loop fuel : forall rem tries buf fp,
  keeps (FS_Write_loop fuel rem tries buf fp) (fun _ => True).
Proof.
  induction fuel as [|fuel IH]; intros rem tries buf fp; cbn [FS_Write_loop].
  - keeps_auto.
  - destruct (rem =? 0); [keeps_auto|].
    apply (keeps_bind _ _ (fun _ => True)); [keeps_auto|intros written _].
    destruct (_ && _); [keeps_auto|].
    destruct (written =? -1); [keeps_auto|apply IH].
Qed.

Lemma keeps_FS_Write buffer len h : keeps (FS_Write buffer len h) (fun _ => True).
Proof.
  unfold FS_Write.
  apply (keeps_bind _ _ (fun _ => True)); [keeps_auto|intros sp _].
  apply (keeps_bind _ _ (fun _ => True)); [keeps_auto|intros ? _].
  destruct (h =? 0); [keeps_auto|].
  apply (keeps_bind _ _ (fun _ => True)); [apply keeps_FS_FileForHandle|intros f _].
  apply (keeps_bind _ _ (fun _ => True)); [apply keeps_FS_Write_loop|intros r _].
  destruct r; keeps_auto.
Qed.

Lemma keeps_FS_FCloseFile f : keeps (FS_FCloseFile f) (fun _ => True).
Proof. unfold FS_FCloseFile. keeps_auto. Qed.

#[local] Hint Resolve keeps_FS_FileForHandle keeps_Sys_Mkdir keeps_FS_CreatePath
  keeps_FS_BuildOSPath keeps_FS_filelength keeps_FS_fplength keeps_FS_Read keeps_FS_Write
  keeps_FS_FCloseFile : fs_keeps.

Lemma keeps_FS_SV_FOpenFileWrite n : keeps (FS_SV_FOpenFileWrite n) (fun _ => True).
Proof. unfold FS_SV_FOpenFileWrite. keeps_auto. Qed.

Lemma keeps_FS_SV_FOpenFileRead n : keeps (FS_SV_FOpenFileRead n) (fun _ => True).
Proof. unfold FS_SV_FOpenFileRead. keeps_auto. Qed.

Lemma keeps_FS_SV_FOpenFileAppend n : keeps (FS_SV_FOpenFileAppend n) (fun _ => True).
Proof. unfold FS_SV_FOpenFileAppend. keeps_auto. Qed.

#[local] Hint Resolve keeps_FS_SV_FOpenFileWrite keeps_FS_SV_FOpenFileRead
  keeps_FS_SV_FOpenFileAppend : fs_keeps.

Lemma keeps_FS_SV_WriteFile q b n : keeps (FS_SV_WriteFile q b n) (fun _ => True).
Proof. unfold FS_SV_WriteFile. keeps_auto. Qed.

Lemma keeps_seek_discard fuel : forall remainder f,
  keeps (seek_discard fuel remainder f) (fun _ => True).
Proof.
  induction fuel as [|fuel IH]; intros remainder f; cbn [seek_discard].
  - keeps_auto.
  - destruct (remainder >? PK3_SEEK_BUFFER_SIZE); [|keeps_auto].
    apply (keeps_bind _ _ (fun _ => True)); [apply keeps_FS_Read|intros ? _; apply IH].
Qed.

#[local] Hint Resolve keeps_seek_discard : fs_keeps.

Lemma keeps_FS_Seek_at f offset origin : keeps (FS_Seek_at f offset origin) (fun _ => True).
Proof. unfold FS_Seek_at. keeps_auto. Qed.

#[local] Hint Resolve keeps_FS_Seek_at : fs_keeps.

Lemma keeps_FS_Seek f offset origin : keeps (FS_Seek f offset origin) (fun _ => True).
Proof. unfold FS_Seek. keeps_auto. Qed.

Lemma keeps_FS_HomeRemove p : keeps (FS_HomeRemove p) (fun _ => True).
Proof. unfold FS_HomeRemove. keeps_auto. Qed.

Lemma keeps_FS_SV_HomeRemove p : keeps (FS_SV_HomeRemove p) (fun _ => True).
Proof. unfold FS_SV_HomeRemove. keeps_auto. Qed.

Lemma keeps_FS_FileExists p : keeps (FS_FileExists p) (fun _ => True).
Proof. unfold FS_FileExists. keeps_auto. Qed.

Lemma keeps_FS_SV_GetFilepath p : keeps (FS_SV_GetFilepath p) (fun _ => True).
Proof. unfold FS_SV_GetFilepath. keeps_auto. Qed.

Lemma keeps_FS_SV_HomeCopyFile a b : keeps (FS_SV_HomeCopyFile a b) (fun _ => True).
Proof. unfold FS_SV_HomeCopyFile. keeps_auto. Qed.

Lemma keeps_FS_FTell f : keeps (FS_FTell f) (fun _ => True).
Proof. unfold FS_FTell. keeps_auto. Qed.

Lemma keeps_FS_Flush f : keeps (FS_Flush f) (fun _ => True).
Proof. unfold FS_Flush. keeps_auto. Qed.

(** X24. Only slots that [FS_HandleForFile] hands out ever hold a stream.
    In a table where that is so, it is still so after every call of
    the file, however the call ends: by return, through [Com_Error], or
    at a native call on a pointer that is no stream. *)
Theorem handles_wf_invariant (s : FS) :
  handles_wf s ->
  (forall n, handles_wf (final (FS_SV_FOpenFileRead n s)))
  /\ (forall n, handles_wf (final (FS_SV_FOpenFileWrite n s)))
  /\ (forall n, handles_wf (final (FS_SV_FOpenFileAppend n s)))
  /\ (forall q b n, handles_wf (final (FS_SV_WriteFile q b n s)))
  /\ (forall a b, handles_wf (final (FS_SV_HomeCopyFile a b s)))
  /\ (forall p, handles_wf (final (FS_SV_GetFilepath p s)))
  /\ (forall p, handles_wf (final (FS_SV_HomeRemove p s)))
  /\ (forall p, handles_wf (final (FS_HomeRemove p s)))
  /\ (forall p, handles_wf (final (FS_FileExists p s)))
  /\ (forall p, handles_wf (final (FS_CreatePath p s)))
  /\ (forall f, 0 <= f < MAX_FILE_HANDLES ->
        handles_wf (final (FS_FCloseFile f s))
        /\ handles_wf (final (FS_filelength f s))
        /\ handles_wf (final (FS_FTell f s))
        /\ handles_wf (final (FS_Flush f s))
        /\ (forall len, handles_wf (final (FS_Read len f s)))
        /\ (forall b len, handles_wf (final (FS_Write b len f s)))
        /\ (forall off o, handles_wf (final (FS_Seek f off o s)))).
Proof.
  intros Hwf.
  repeat match goal with
         | |- _ /\ _ => split
         | |- forall _, _ => intro
         end.
  - now apply keeps_FS_SV_FOpenFileRead.
  - now apply keeps_FS_SV_FOpenFileWrite.
  - now apply keeps_FS_SV_FOpenFileAppend.
  - now apply keeps_FS_SV_WriteFile.
  - now apply keeps_FS_SV_HomeCopyFile.
  - now apply keeps_FS_SV_GetFilepath.
  - now apply keeps_FS_SV_HomeRemove.
  - now apply keeps_FS_HomeRemove.
  - now apply keeps_FS_FileExists.
  - now apply keeps_FS_CreatePath.
  - now apply keeps_FS_FCloseFile.
  - now apply keeps_FS_filelength.
  - now apply keeps_FS_FTell.
  - now apply keeps_FS_Flush.
  - now apply keeps_FS_Read.
  - now apply keeps_FS_Write.
  - now apply keeps_FS_Seek.
Qed.

End InvariantCalls.

Lemma handles_wf_invariant_witness :
  (forall n, handles_wf (H := unix_build) (final (FS_SV_FOpenFileRead (H := unix_build) n two_saves_fs)))
  /\ (forall n, handles_wf (H := unix_build) (final (FS_SV_FOpenFileWrite (H := unix_build) n two_saves_fs)))
  /\ (forall n, handles_wf (H := unix_build) (final (FS_SV_FOpenFileAppend (H := unix_build) n two_saves_fs)))
  /\ (forall q b n, handles_wf (H := unix_build) (final (FS_SV_WriteFile (H := unix_build) q b n two_saves_fs)))
  /\ (forall a b, handles_wf (H := unix_build) (final (FS_SV_HomeCopyFile (H := unix_build) a b two_saves_fs)))
  /\ (forall p, handles_wf (H := unix_build) (final (FS_SV_GetFilepath (H := unix_build) p two_saves_fs)))
  /\ (forall p, handles_wf (H := unix_build) (final (FS_SV_HomeRemove (H := unix_build) p two_saves_fs)))
  /\ (forall p, handles_wf (H := unix_build) (final (FS_HomeRemove (H := unix_build) p two_saves_fs)))
  /\ (forall p, handles_wf (H := unix_build) (final (FS_FileExists (H := unix_build) p two_saves_fs)))
  /\ (forall p, handles_wf (H := unix_build) (final (FS_CreatePath (H := unix_build) p two_saves_fs)))
  /\ (forall f, 0 <= f < 64 ->
        handles_wf (H := unix_build) (final (FS_FCloseFile f two_saves_fs))
        /\ handles_wf (H := unix_build) (final (FS_filelength (H := unix_build) f two_saves_fs))
        /\ handles_wf (H := unix_build) (final (FS_FTell f two_saves_fs))
        /\ handles_wf (H := unix_build) (final (FS_Flush f two_saves_fs))
        /\ (forall len, handles_wf (H := unix_build) (final (FS_Read len f two_saves_fs)))
        /\ (forall b len,
              handles_wf (H := unix_build) (final (FS_Write (H := unix_build) b len f two_saves_fs)))
        /\ (forall off o,
              handles_wf (H := unix_build) (final (FS_Seek (H := unix_build) f off o two_saves_fs)))).
Proof.
  apply (handles_wf_invariant (H := unix_build) two_saves_fs).
  apply handles_wf_zeroed. reflexivity.
Defined.
